(** * Crisis Circle: help-request lifecycle and proximity listing

    A shallow embedding of the help-request model
    ([models/HelpRequest.js]), the access middleware
    ([middleware/auth.js], [validateHelpRequestAccess]), the request
    validators ([utils/validators.js]) and the help controller
    ([controllers/helpController.js]), followed by the properties of the
    request state machine, of category inference and of the nearby
    listing.  Part III adds the token middleware ([authenticateToken],
    [optionalAuth], [checkAccountStatus]), the location service
    ([services/locationService.js]), the dashboard's nearby list and the
    pagination and password helpers ([utils/helpers.js]), with the
    invariants of reachable requests that the handlers maintain.  The
    reachable states include those left by the deletion of a user's
    account ([controllers/userController.js], [deleteAccount]), which
    rewrites the requests of other users.

    Conventions.  A JavaScript number is a rational ([Q]); [NaN] and
    [undefined] are [None].  A [Date] is its millisecond count ([Z]).
    An [ObjectId] is compared through [toString()], so it is a string.
    External collaborators (the document store's spatial operator, its
    regular-expression matcher, its collation of the [priority] field and
    the distance helper) are fields of a [Services] record;
    [usesHelperDistance] pins the distance helper to the formula of
    [helpers.calculateDistance], taken over the reals. *)

From Stdlib Require Import ZArith QArith Qround Qabs List String Bool Lia Arith.
From Stdlib Require Import Permutation Sorted.
From Stdlib Require Reals Lra Ratan Machin Lqa Qreals.
From Stdlib Require Import Qminmax.
Import ListNotations.

Set Implicit Arguments.

Close Scope Q_scope.
Open Scope string_scope.
Open Scope list_scope.
Open Scope nat_scope.

(* ================================================================== *)
(** * Part I. Definitions                                              *)
(* ================================================================== *)

(** ** Constants ([utils/constants.js]) *)

Definition UserId := string.
Definition ItemId := string.
Definition RequestId := string.
Definition Time := Z.

(** [HELP_REQUEST_STATUS] *)
Inductive Status : Type := open | approved | completed.

(** The [priority] / [urgency] enumeration of the request schema. *)
Inductive Priority : Type := low | medium | high | critical.

(** [HELP_CATEGORIES] *)
Inductive Category : Type :=
  food | clothing | medical | education | household | transportation | other.

Definition Status_eqb (a b : Status) : bool :=
  match a, b with
  | open, open | approved, approved | completed, completed => true
  | _, _ => false
  end.

Definition Priority_eqb (a b : Priority) : bool :=
  match a, b with
  | low, low | medium, medium | high, high | critical, critical => true
  | _, _ => false
  end.

Definition Category_eqb (a b : Category) : bool :=
  match a, b with
  | food, food | clothing, clothing | medical, medical
  | education, education | household, household
  | transportation, transportation | other, other => true
  | _, _ => false
  end.

Module Messages.
Local Open Scope string_scope.
Definition HELP_REQUEST_CREATED := "Help request created successfully.".
Definition HELP_REQUEST_APPROVED := "Help request approved successfully.".
Definition USER_NOT_FOUND := "User not found.".
Definition HELP_REQUEST_NOT_FOUND := "Help request not found.".
Definition ALREADY_APPROVED := "Help request already approved.".
Definition CANNOT_APPROVE_OWN := "You cannot approve your own help request.".
Definition SERVER_ERROR := "Internal server error.".
End Messages.

(** ** Catalog items ([models/HelpItem.js]) *)

Module HelpItem.
Record t : Type := mk {
  _id : ItemId;
  category : Category;
  isActive : bool
}.
End HelpItem.

(** [HelpItem.find({ _id: { $in: itemIds }, isActive: true })]: the
    active catalog documents whose id is requested, in the catalog's own
    order, each document once. *)
Definition findActiveItems (catalog : list HelpItem.t) (itemIds : list ItemId)
  : list HelpItem.t :=
  filter (fun it => HelpItem.isActive it
                    && existsb (String.eqb (HelpItem._id it)) itemIds)
         catalog.

(** ** Category inference ([createHelpRequest], [updateHelpRequest])

    [categoryCounts] is a JavaScript object used as a counter; its keys
    are category names, so [Object.keys] lists them in insertion
    order.  An association list keeps that order. *)

Definition Counts := list (Category * nat).

(** [categoryCounts[c]] ([0] stands for [undefined]; the reducer only
    reads keys that are present). *)
Fixpoint countOf (acc : Counts) (c : Category) : nat :=
  match acc with
  | [] => 0
  | (k, n) :: rest => if Category_eqb k c then n else countOf rest c
  end.

(** [acc[c] = (acc[c] || 0) + 1] *)
Fixpoint bump (c : Category) (acc : Counts) : Counts :=
  match acc with
  | [] => [(c, 1)]
  | (k, n) :: rest =>
      if Category_eqb k c then (k, n + 1) :: rest else (k, n) :: bump c rest
  end.

(** [validItems.reduce((acc, item) => { acc[item.category] = ...; return acc }, {})] *)
Definition categoryCounts (validItems : list HelpItem.t) : Counts :=
  fold_left (fun acc item => bump (HelpItem.category item) acc) validItems [].

(** [Object.keys(categoryCounts)] *)
Definition keys (acc : Counts) : list Category := map fst acc.

(** [Object.keys(categoryCounts).reduce((a, b) => categoryCounts[a] >
    categoryCounts[b] ? a : b)].  A reduce without initial value starts
    from the first key and throws on an empty array ([None]). *)
Definition pickCategory (acc : Counts) : option Category :=
  match keys acc with
  | [] => None
  | k :: ks =>
      Some (fold_left
              (fun a b => if countOf acc b <? countOf acc a then a else b)
              ks k)
  end.

Definition inferCategory (validItems : list HelpItem.t) : option Category :=
  pickCategory (categoryCounts validItems).

(** Position of the first occurrence of [c] in [l] ([length l] when
    absent). *)
Fixpoint firstIndex (c : Category) (l : list Category) : nat :=
  match l with
  | [] => 0
  | x :: t => if Category_eqb x c then 0 else S (firstIndex c t)
  end.

(** Number of items of category [c]. *)
Definition tally (c : Category) (l : list Category) : nat :=
  List.length (filter (Category_eqb c) l).

(** ** Users ([models/User.js]) *)

Record Coordinates : Type := mkCoordinates {
  latitude : Q;
  longitude : Q
}.

Module User.
Record t : Type := mk {
  _id : UserId;
  address : string;
  zipCode : string;
  coordinates : option Coordinates
}.
End User.

(** ** Help requests ([models/HelpRequest.js])

    The schema's fields, except [preferredContactMethod], [images] and
    [availabilityWindow.timeSlots], which no operation below reads. *)

Record RequestItem : Type := mkRequestItem {
  itemId : ItemId;
  quantity : Q;
  unit : string;
  urgency : Priority
}.

Record PickupLocation : Type := mkPickupLocation {
  address : string;
  coordinates : Coordinates;
  zipCode : string
}.

Record AvailabilityWindow : Type := mkAvailabilityWindow {
  startDate : Time;
  endDate : Time
}.

Record Note : Type := mkNote {
  author : UserId;
  content : string;
  noteCreatedAt : Time
}.

Record RatingData : Type := mkRatingData {
  stars : Q;
  comment : string;
  ratingCreatedAt : Time
}.

Record Rating : Type := mkRating {
  recipientRating : option RatingData;
  donorRating : option RatingData
}.

Record Interest : Type := mkInterest {
  userId : UserId;
  interestedAt : Time
}.

Record Flagged : Type := mkFlagged {
  isFlagged : bool;
  reason : option string;
  flaggedBy : option UserId;
  flaggedAt : option Time
}.

Record Metadata : Type := mkMetadata {
  views : Z;
  interested : list Interest;
  flagged : Flagged
}.

Record HelpRequest : Type := mkHelpRequest {
  _id : RequestId;
  recipientId : UserId;
  title : string;
  description : string;
  items : list RequestItem;
  status : Status;
  donorId : option UserId;
  priority : Priority;
  category : Category;
  pickupLocation : PickupLocation;
  availabilityWindow : AvailabilityWindow;
  approvedAt : option Time;
  completedAt : option Time;
  notes : list Note;
  rating : Rating;
  metadata : Metadata;
  createdAt : Time;
  updatedAt : Time
}.

(** Field assignment [this.f = v]. *)

Definition set_title (v : string) (r : HelpRequest) : HelpRequest :=
  {| _id := _id r;
     recipientId := recipientId r;
     title := v;
     description := description r;
     items := items r;
     status := status r;
     donorId := donorId r;
     priority := priority r;
     category := category r;
     pickupLocation := pickupLocation r;
     availabilityWindow := availabilityWindow r;
     approvedAt := approvedAt r;
     completedAt := completedAt r;
     notes := notes r;
     rating := rating r;
     metadata := metadata r;
     createdAt := createdAt r;
     updatedAt := updatedAt r |}.

Definition set_description (v : string) (r : HelpRequest) : HelpRequest :=
  {| _id := _id r;
     recipientId := recipientId r;
     title := title r;
     description := v;
     items := items r;
     status := status r;
     donorId := donorId r;
     priority := priority r;
     category := category r;
     pickupLocation := pickupLocation r;
     availabilityWindow := availabilityWindow r;
     approvedAt := approvedAt r;
     completedAt := completedAt r;
     notes := notes r;
     rating := rating r;
     metadata := metadata r;
     createdAt := createdAt r;
     updatedAt := updatedAt r |}.

Definition set_items (v : list RequestItem) (r : HelpRequest) : HelpRequest :=
  {| _id := _id r;
     recipientId := recipientId r;
     title := title r;
     description := description r;
     items := v;
     status := status r;
     donorId := donorId r;
     priority := priority r;
     category := category r;
     pickupLocation := pickupLocation r;
     availabilityWindow := availabilityWindow r;
     approvedAt := approvedAt r;
     completedAt := completedAt r;
     notes := notes r;
     rating := rating r;
     metadata := metadata r;
     createdAt := createdAt r;
     updatedAt := updatedAt r |}.

Definition set_status (v : Status) (r : HelpRequest) : HelpRequest :=
  {| _id := _id r;
     recipientId := recipientId r;
     title := title r;
     description := description r;
     items := items r;
     status := v;
     donorId := donorId r;
     priority := priority r;
     category := category r;
     pickupLocation := pickupLocation r;
     availabilityWindow := availabilityWindow r;
     approvedAt := approvedAt r;
     completedAt := completedAt r;
     notes := notes r;
     rating := rating r;
     metadata := metadata r;
     createdAt := createdAt r;
     updatedAt := updatedAt r |}.

Definition set_donorId (v : option UserId) (r : HelpRequest) : HelpRequest :=
  {| _id := _id r;
     recipientId := recipientId r;
     title := title r;
     description := description r;
     items := items r;
     status := status r;
     donorId := v;
     priority := priority r;
     category := category r;
     pickupLocation := pickupLocation r;
     availabilityWindow := availabilityWindow r;
     approvedAt := approvedAt r;
     completedAt := completedAt r;
     notes := notes r;
     rating := rating r;
     metadata := metadata r;
     createdAt := createdAt r;
     updatedAt := updatedAt r |}.

Definition set_priority (v : Priority) (r : HelpRequest) : HelpRequest :=
  {| _id := _id r;
     recipientId := recipientId r;
     title := title r;
     description := description r;
     items := items r;
     status := status r;
     donorId := donorId r;
     priority := v;
     category := category r;
     pickupLocation := pickupLocation r;
     availabilityWindow := availabilityWindow r;
     approvedAt := approvedAt r;
     completedAt := completedAt r;
     notes := notes r;
     rating := rating r;
     metadata := metadata r;
     createdAt := createdAt r;
     updatedAt := updatedAt r |}.

Definition set_category (v : Category) (r : HelpRequest) : HelpRequest :=
  {| _id := _id r;
     recipientId := recipientId r;
     title := title r;
     description := description r;
     items := items r;
     status := status r;
     donorId := donorId r;
     priority := priority r;
     category := v;
     pickupLocation := pickupLocation r;
     availabilityWindow := availabilityWindow r;
     approvedAt := approvedAt r;
     completedAt := completedAt r;
     notes := notes r;
     rating := rating r;
     metadata := metadata r;
     createdAt := createdAt r;
     updatedAt := updatedAt r |}.

Definition set_availabilityWindow (v : AvailabilityWindow) (r : HelpRequest) : HelpRequest :=
  {| _id := _id r;
     recipientId := recipientId r;
     title := title r;
     description := description r;
     items := items r;
     status := status r;
     donorId := donorId r;
     priority := priority r;
     category := category r;
     pickupLocation := pickupLocation r;
     availabilityWindow := v;
     approvedAt := approvedAt r;
     completedAt := completedAt r;
     notes := notes r;
     rating := rating r;
     metadata := metadata r;
     createdAt := createdAt r;
     updatedAt := updatedAt r |}.

Definition set_approvedAt (v : option Time) (r : HelpRequest) : HelpRequest :=
  {| _id := _id r;
     recipientId := recipientId r;
     title := title r;
     description := description r;
     items := items r;
     status := status r;
     donorId := donorId r;
     priority := priority r;
     category := category r;
     pickupLocation := pickupLocation r;
     availabilityWindow := availabilityWindow r;
     approvedAt := v;
     completedAt := completedAt r;
     notes := notes r;
     rating := rating r;
     metadata := metadata r;
     createdAt := createdAt r;
     updatedAt := updatedAt r |}.

Definition set_completedAt (v : option Time) (r : HelpRequest) : HelpRequest :=
  {| _id := _id r;
     recipientId := recipientId r;
     title := title r;
     description := description r;
     items := items r;
     status := status r;
     donorId := donorId r;
     priority := priority r;
     category := category r;
     pickupLocation := pickupLocation r;
     availabilityWindow := availabilityWindow r;
     approvedAt := approvedAt r;
     completedAt := v;
     notes := notes r;
     rating := rating r;
     metadata := metadata r;
     createdAt := createdAt r;
     updatedAt := updatedAt r |}.

Definition set_notes (v : list Note) (r : HelpRequest) : HelpRequest :=
  {| _id := _id r;
     recipientId := recipientId r;
     title := title r;
     description := description r;
     items := items r;
     status := status r;
     donorId := donorId r;
     priority := priority r;
     category := category r;
     pickupLocation := pickupLocation r;
     availabilityWindow := availabilityWindow r;
     approvedAt := approvedAt r;
     completedAt := completedAt r;
     notes := v;
     rating := rating r;
     metadata := metadata r;
     createdAt := createdAt r;
     updatedAt := updatedAt r |}.

Definition set_rating (v : Rating) (r : HelpRequest) : HelpRequest :=
  {| _id := _id r;
     recipientId := recipientId r;
     title := title r;
     description := description r;
     items := items r;
     status := status r;
     donorId := donorId r;
     priority := priority r;
     category := category r;
     pickupLocation := pickupLocation r;
     availabilityWindow := availabilityWindow r;
     approvedAt := approvedAt r;
     completedAt := completedAt r;
     notes := notes r;
     rating := v;
     metadata := metadata r;
     createdAt := createdAt r;
     updatedAt := updatedAt r |}.

Definition set_metadata (v : Metadata) (r : HelpRequest) : HelpRequest :=
  {| _id := _id r;
     recipientId := recipientId r;
     title := title r;
     description := description r;
     items := items r;
     status := status r;
     donorId := donorId r;
     priority := priority r;
     category := category r;
     pickupLocation := pickupLocation r;
     availabilityWindow := availabilityWindow r;
     approvedAt := approvedAt r;
     completedAt := completedAt r;
     notes := notes r;
     rating := rating r;
     metadata := v;
     createdAt := createdAt r;
     updatedAt := updatedAt r |}.

Definition set_updatedAt (v : Time) (r : HelpRequest) : HelpRequest :=
  {| _id := _id r;
     recipientId := recipientId r;
     title := title r;
     description := description r;
     items := items r;
     status := status r;
     donorId := donorId r;
     priority := priority r;
     category := category r;
     pickupLocation := pickupLocation r;
     availabilityWindow := availabilityWindow r;
     approvedAt := approvedAt r;
     completedAt := completedAt r;
     notes := notes r;
     rating := rating r;
     metadata := metadata r;
     createdAt := createdAt r;
     updatedAt := v |}.

(** ** Responses and store effects

    A handler answers with [res.status(code).json({success, message})]
    and may write the document back ([Saved]), delete it ([Removed]) or
    leave the store alone ([Unchanged]). *)

Record Reply : Type := mkReply {
  code : Z;
  success : bool;
  message : string
}.

Inductive Effect : Type :=
| Unchanged
| Saved (r : HelpRequest)
| Removed.

Record Outcome : Type := mkOutcome {
  reply : Reply;
  effect : Effect
}.

Definition failure (c : Z) (msg : string) : Reply := mkReply c false msg.
Definition respond (r : Reply) : Outcome := mkOutcome r Unchanged.

(** The [catch] block of every handler. *)
Definition serverError : Outcome :=
  respond (failure 500 Messages.SERVER_ERROR).

(** The reply of [validate(schema)] on a rejected body. *)
Definition validationError : Reply := failure 400 "Validation Error".

Definition notFound : Reply := failure 404 Messages.HELP_REQUEST_NOT_FOUND.

(** ** Schema hooks and instance methods ([models/HelpRequest.js]) *)

(** [pre("save")]: the availability window must be valid; [timestamps]
    then stamps [updatedAt].  [None] is the rejected promise.  A stored
    document always carries the paths the schema requires; the one
    handler that can drop a required path, an edit whose window lacks a
    date, is answered by [updateHelpRequest] below.  Every handler
    modifies a path before it saves, except an edit whose body changes
    nothing, which is treated as a write as well. *)
Definition save (now : Time) (r : HelpRequest) : option HelpRequest :=
  if (startDate (availabilityWindow r) >=? endDate (availabilityWindow r))%Z
  then None
  else Some (set_updatedAt now r).

(** The virtual [isExpired]: [new Date() > this.availabilityWindow.endDate]. *)
Definition isExpired (now : Time) (r : HelpRequest) : bool :=
  (now >? endDate (availabilityWindow r))%Z.

Definition approve (now : Time) (donor : UserId) (r : HelpRequest)
  : option HelpRequest :=
  save now (set_approvedAt (Some now)
             (set_donorId (Some donor)
               (set_status approved r))).

Definition complete (now : Time) (r : HelpRequest) : option HelpRequest :=
  save now (set_completedAt (Some now) (set_status completed r)).

Definition addNote (now : Time) (authorId : UserId) (text : string)
           (r : HelpRequest) : option HelpRequest :=
  save now (set_notes (notes r ++ [mkNote authorId text now]) r).

Definition incrementViews (now : Time) (r : HelpRequest) : option HelpRequest :=
  save now
    (set_metadata
       (mkMetadata (views (metadata r) + 1)%Z
                   (interested (metadata r))
                   (flagged (metadata r)))
       r).

Definition alreadyInterested (user : UserId) (r : HelpRequest) : bool :=
  existsb (fun interest => String.eqb (userId interest) user)
          (interested (metadata r)).

(** [markInterested] saves only when the user is not yet listed;
    otherwise it resolves with the document untouched. *)
Definition markInterested (now : Time) (user : UserId) (r : HelpRequest)
  : option Effect :=
  if negb (alreadyInterested user r) then
    option_map Saved
      (save now
         (set_metadata
            (mkMetadata (views (metadata r))
                        (interested (metadata r) ++ [mkInterest user now])
                        (flagged (metadata r)))
            r))
  else Some Unchanged.

Definition flag (now : Time) (why : string) (by_ : UserId) (r : HelpRequest)
  : option HelpRequest :=
  save now
    (set_metadata
       (mkMetadata (views (metadata r))
                   (interested (metadata r))
                   (mkFlagged true (Some why) (Some by_) (Some now)))
       r).

(** ** Access middleware ([middleware/auth.js]) *)

Inductive Action : Type :=
| ActView | ActEdit | ActApprove | ActComplete
| ActOther (name : string).

Definition isOwnerOf (user : UserId) (r : HelpRequest) : bool :=
  String.eqb (recipientId r) user.

(** [helpRequest.donorId && helpRequest.donorId.toString() === userId.toString()] *)
Definition isDonorOf (user : UserId) (r : HelpRequest) : bool :=
  match donorId r with
  | Some d => String.eqb d user
  | None => false
  end.

(** [validateHelpRequestAccess(action)]: [inl] is the reply sent by the
    middleware, [inr] the document handed to the controller as
    [req.helpRequest]. *)
Definition validateHelpRequestAccess (action : Action) (user : UserId)
           (found : option HelpRequest) : Reply + HelpRequest :=
  match found with
  | None => inl notFound
  | Some helpRequest =>
      let isOwner := isOwnerOf user helpRequest in
      let isDonor := isDonorOf user helpRequest in
      match action with
      | ActView => inr helpRequest
      | ActEdit =>
          if negb isOwner
          then inl (failure 403 "You can only edit your own help requests")
          else inr helpRequest
      | ActApprove =>
          if isOwner then inl (failure 403 Messages.CANNOT_APPROVE_OWN)
          else if negb (Status_eqb (status helpRequest) open)
          then inl (failure 400 Messages.ALREADY_APPROVED)
          else inr helpRequest
      | ActComplete =>
          if negb isDonor && negb isOwner
          then inl (failure 403
                 "Only the recipient or donor can mark this request as complete")
          else inr helpRequest
      | ActOther _ => inl (failure 400 "Invalid action")
      end
  end.

(** [customValidations.canModifyRequest] and [canApproveRequest]
    ([utils/validators.js]); the same two booleans are sent by
    [getHelpRequest] as [canEdit] and [canApprove]. *)
Definition canModifyRequest (user : UserId) (r : HelpRequest) : bool :=
  String.eqb (recipientId r) user && Status_eqb (status r) open.

Definition canApproveRequest (user : UserId) (r : HelpRequest) : bool :=
  negb (String.eqb (recipientId r) user) && Status_eqb (status r) open.

(** ** Request bodies and their validators ([utils/validators.js])

    A body is the value Joi hands on after conversion (unknown keys
    stripped, strings trimmed), so a validator is a predicate on it. *)

Record WindowBody : Type := mkWindowBody {
  wStartDate : Time;
  wEndDate : Time
}.

Record CreateBody : Type := mkCreateBody {
  cTitle : string;
  cDescription : string;
  cItems : list RequestItem;
  cPriority : Priority;
  cCategory : string;
  cWindow : WindowBody
}.

(** The [availabilityWindow] of an update body: the update schema
    makes its two dates optional one by one. *)
Record WindowPatch : Type := mkWindowPatch {
  pStartDate : option Time;
  pEndDate : option Time
}.

Record UpdateBody : Type := mkUpdateBody {
  uTitle : option string;
  uDescription : option string;
  uItems : option (list RequestItem);
  uPriority : option Priority;
  uWindow : option WindowPatch
}.

Definition lengthBetween (lo hi : nat) (s : string) : bool :=
  (lo <=? String.length s) && (String.length s <=? hi).

(** [items]: at least one element, each with [quantity >= 1] and a
    [unit] that is present and not empty. *)
Definition validItemsBody (its : list RequestItem) : bool :=
  (1 <=? List.length its)
  && forallb (fun it => Qle_bool 1 (quantity it)
                        && (1 <=? String.length (unit it))) its.

(** [startDate: Joi.date().min("now")], [endDate: Joi.date().greater(Joi.ref("startDate"))] *)
Definition validWindowBody (now : Time) (w : WindowBody) : bool :=
  (now <=? wStartDate w)%Z && (wStartDate w <? wEndDate w)%Z.

Definition whenPresent {A : Type} (check : A -> bool) (o : option A) : bool :=
  match o with
  | Some a => check a
  | None => true
  end.

(** [helpRequestValidation.create] *)
Definition validateCreate (now : Time) (b : CreateBody) : bool :=
  lengthBetween 10 100 (cTitle b)
  && lengthBetween 20 500 (cDescription b)
  && validItemsBody (cItems b)
  && (1 <=? String.length (cCategory b))
  && validWindowBody now (cWindow b).

(** [startDate: Joi.date().min("now").optional()],
    [endDate: Joi.date().greater(Joi.ref("startDate")).optional()]: an
    [endDate] is compared with the [startDate] of the same body, and
    one that comes without a [startDate] is refused (the reference does
    not resolve to a date). *)
Definition validWindowPatch (now : Time) (w : WindowPatch) : bool :=
  whenPresent (fun s => (now <=? s)%Z) (pStartDate w)
  && match pEndDate w, pStartDate w with
     | None, _ => true
     | Some e, Some s => (s <? e)%Z
     | Some _, None => false
     end.

(** [helpRequestValidation.update] *)
Definition validateUpdate (now : Time) (b : UpdateBody) : bool :=
  whenPresent (lengthBetween 10 100) (uTitle b)
  && whenPresent (lengthBetween 20 500) (uDescription b)
  && whenPresent validItemsBody (uItems b)
  && whenPresent (validWindowPatch now) (uWindow b).

(** [helpRequestValidation.addNote] *)
Definition validateAddNote (text : string) : bool := lengthBetween 5 300 text.

(** [helpRequestValidation.rate]; [Joi.string()] refuses the empty
    string. *)
Definition validateRate (stars_ : Q) (comment_ : option string) : bool :=
  Qle_bool 1 stars_ && Qle_bool stars_ 5
  && whenPresent (lengthBetween 1 200) comment_.

(** [helpRequestValidation.flag] *)
Definition validateFlag (why : string) : bool := lengthBetween 10 200 why.

(** ** Help controller: lifecycle handlers ([controllers/helpController.js])

    Each handler takes the clock reading [now] of its [new Date()]
    calls and the catalog it queries.  Notification mail is
    fire-and-forget and has no effect on the outcome. *)

Definition itemsUnavailable : Reply :=
  failure 400 "One or more help items are not available".

(** [new HelpRequest(requestData)] with the schema defaults. *)
Definition newHelpRequest (now : Time) (newId : RequestId) (requester : UserId)
           (user : User.t) (coords : Coordinates) (cat : Category)
           (body : CreateBody) : HelpRequest :=
  {| _id := newId;
     recipientId := requester;
     title := cTitle body;
     description := cDescription body;
     items := cItems body;
     status := open;
     donorId := None;
     priority := cPriority body;
     category := cat;
     pickupLocation :=
       mkPickupLocation (User.address user) coords (User.zipCode user);
     availabilityWindow :=
       mkAvailabilityWindow (wStartDate (cWindow body)) (wEndDate (cWindow body));
     approvedAt := None;
     completedAt := None;
     notes := [];
     rating := mkRating None None;
     metadata := mkMetadata 0%Z [] (mkFlagged false None None None);
     createdAt := now;
     updatedAt := now |}.

(** A profile whose coordinates are missing yields a pickup location
    without latitude and longitude; the items are checked first, and
    the save is then rejected because both are required. *)
Definition createHelpRequest (catalog : list HelpItem.t) (now : Time)
           (newId : RequestId) (requester : UserId) (profile : option User.t)
           (body : CreateBody) : Outcome :=
  match profile with
  | None => respond (failure 404 Messages.USER_NOT_FOUND)
  | Some user =>
      let itemIds := map itemId (cItems body) in
      let validItems := findActiveItems catalog itemIds in
      if negb (List.length validItems =? List.length itemIds)
      then respond itemsUnavailable
      else
        match inferCategory validItems with
        | None => serverError
        | Some cat =>
            match User.coordinates user with
            | None => serverError
            | Some coords =>
                match save now (newHelpRequest now newId requester user
                                               coords cat body) with
                | None => serverError
                | Some saved =>
                    mkOutcome (mkReply 201 true Messages.HELP_REQUEST_CREATED)
                              (Saved saved)
                end
            end
        end
  end.

(** [POST /requests]: [validate(helpRequestValidation.create)], then the
    controller. *)
Definition createRoute (catalog : list HelpItem.t) (now : Time)
           (newId : RequestId) (requester : UserId) (profile : option User.t)
           (body : CreateBody) : Outcome :=
  if negb (validateCreate now body) then respond validationError
  else createHelpRequest catalog now newId requester profile body.

Definition assignWhen {A : Type} (setter : A -> HelpRequest -> HelpRequest)
           (o : option A) (r : HelpRequest) : HelpRequest :=
  match o with
  | Some v => setter v r
  | None => r
  end.

(** The window an update body assigns.  The assignment replaces the
    nested object, so a date the body lacks is missing from the
    document afterwards; [None] is such a document. *)
Definition patchedWindow (w : WindowPatch) : option AvailabilityWindow :=
  match pStartDate w, pEndDate w with
  | Some s, Some e => Some (mkAvailabilityWindow s e)
  | _, _ => None
  end.

(** The body assigns a window that lacks [startDate] or [endDate]. *)
Definition missingDate (updates : UpdateBody) : bool :=
  match uWindow updates with
  | Some w => match patchedWindow w with
              | Some _ => false
              | None => true
              end
  | None => false
  end.

(** [Object.assign(helpRequest, updates)]; [updates.category] is present
    exactly when [updates.items] is.  A window with a missing date is
    left to [updateHelpRequest], where the save rejects it. *)
Definition assignUpdates (updates : UpdateBody) (cat : option Category)
           (r : HelpRequest) : HelpRequest :=
  assignWhen set_category cat
    (assignWhen set_availabilityWindow
       (match uWindow updates with
        | Some w => patchedWindow w
        | None => None
        end)
       (assignWhen set_priority (uPriority updates)
          (assignWhen set_items (uItems updates)
             (assignWhen set_description (uDescription updates)
                (assignWhen set_title (uTitle updates) r))))).

Definition updateHelpRequest (catalog : list HelpItem.t) (now : Time)
           (helpRequest : HelpRequest) (updates : UpdateBody) : Outcome :=
  let finish (cat : option Category) : Outcome :=
    if missingDate updates then serverError
    else
      match save now (assignUpdates updates cat helpRequest) with
      | None => serverError
      | Some saved =>
          mkOutcome (mkReply 200 true "Help request updated successfully")
                    (Saved saved)
      end in
  match uItems updates with
  | Some its =>
      let itemIds := map itemId its in
      let validItems := findActiveItems catalog itemIds in
      if negb (List.length validItems =? List.length itemIds)
      then respond itemsUnavailable
      else
        match inferCategory validItems with
        | None => serverError
        | Some cat => finish (Some cat)
        end
  | None => finish None
  end.

(** [PUT /requests/:requestId]: [validateHelpRequestAccess("edit")],
    [validate(helpRequestValidation.update)], then the controller. *)
Definition updateRoute (catalog : list HelpItem.t) (now : Time) (user : UserId)
           (found : option HelpRequest) (updates : UpdateBody) : Outcome :=
  match validateHelpRequestAccess ActEdit user found with
  | inl r => respond r
  | inr helpRequest =>
      if negb (validateUpdate now updates) then respond validationError
      else updateHelpRequest catalog now helpRequest updates
  end.

Definition approveHelpRequest (now : Time) (user : UserId)
           (helpRequest : HelpRequest) : Outcome :=
  match approve now user helpRequest with
  | None => serverError
  | Some saved =>
      mkOutcome (mkReply 200 true Messages.HELP_REQUEST_APPROVED) (Saved saved)
  end.

(** [POST /requests/:requestId/approve] *)
Definition approveRoute (now : Time) (user : UserId)
           (found : option HelpRequest) : Outcome :=
  match validateHelpRequestAccess ActApprove user found with
  | inl r => respond r
  | inr helpRequest => approveHelpRequest now user helpRequest
  end.

Definition completeHelpRequest (now : Time) (helpRequest : HelpRequest)
  : Outcome :=
  if negb (Status_eqb (status helpRequest) approved)
  then respond (failure 400 "Only approved help requests can be completed")
  else
    match complete now helpRequest with
    | None => serverError
    | Some saved =>
        mkOutcome (mkReply 200 true "Help request marked as completed")
                  (Saved saved)
    end.

(** [POST /requests/:requestId/complete] *)
Definition completeRoute (now : Time) (user : UserId)
           (found : option HelpRequest) : Outcome :=
  match validateHelpRequestAccess ActComplete user found with
  | inl r => respond r
  | inr helpRequest => completeHelpRequest now helpRequest
  end.

Definition deleteHelpRequest (helpRequest : HelpRequest) : Outcome :=
  if Status_eqb (status helpRequest) approved
  then respond
         (failure 400
            "Cannot delete approved help requests. Contact admin if needed.")
  else mkOutcome (mkReply 200 true "Help request deleted successfully") Removed.

(** [DELETE /requests/:requestId]: guarded by
    [validateHelpRequestAccess("edit")]. *)
Definition deleteRoute (user : UserId) (found : option HelpRequest) : Outcome :=
  match validateHelpRequestAccess ActEdit user found with
  | inl r => respond r
  | inr helpRequest => deleteHelpRequest helpRequest
  end.

Definition addNoteHandler (now : Time) (user : UserId)
           (found : option HelpRequest) (text : string) : Outcome :=
  match found with
  | None => respond notFound
  | Some helpRequest =>
      let isRecipient := isOwnerOf user helpRequest in
      let isDonor := isDonorOf user helpRequest in
      if negb isRecipient && negb isDonor
      then respond (failure 403 "Only recipient and donor can add notes")
      else
        match addNote now user text helpRequest with
        | None => serverError
        | Some saved =>
            mkOutcome (mkReply 200 true "Note added successfully") (Saved saved)
        end
  end.

(** [POST /requests/:requestId/notes] *)
Definition addNoteRoute (now : Time) (user : UserId)
           (found : option HelpRequest) (text : string) : Outcome :=
  if negb (validateAddNote text) then respond validationError
  else addNoteHandler now user found text.

(** [POST /requests/:requestId/interest] *)
Definition markInterest (now : Time) (user : UserId)
           (found : option HelpRequest) : Outcome :=
  match found with
  | None => respond notFound
  | Some helpRequest =>
      if isOwnerOf user helpRequest
      then respond
             (failure 400 "You cannot mark interest in your own help request")
      else
        match markInterested now user helpRequest with
        | None => serverError
        | Some e => mkOutcome (mkReply 200 true "Interest marked successfully") e
        end
  end.

Definition rateHelpRequest (now : Time) (user : UserId)
           (found : option HelpRequest) (stars_ : Q) (comment_ : option string)
  : Outcome :=
  match found with
  | None => respond notFound
  | Some helpRequest =>
      if negb (Status_eqb (status helpRequest) completed)
      then respond (failure 400 "Can only rate completed help requests")
      else
        let isRecipient := isOwnerOf user helpRequest in
        let isDonor := isDonorOf user helpRequest in
        if negb isRecipient && negb isDonor
        then respond
               (failure 403 "Only recipient and donor can rate this request")
        else
          let ratingData :=
            mkRatingData stars_
                         (match comment_ with Some c => c | None => "" end)
                         now in
          let rated :=
            if isRecipient
            then set_rating (mkRating (Some ratingData)
                                      (donorRating (rating helpRequest)))
                            helpRequest
            else set_rating (mkRating (recipientRating (rating helpRequest))
                                      (Some ratingData))
                            helpRequest in
          match save now rated with
          | None => serverError
          | Some saved =>
              mkOutcome (mkReply 200 true "Rating submitted successfully")
                        (Saved saved)
          end
  end.

(** [POST /requests/:requestId/rate] *)
Definition rateRoute (now : Time) (user : UserId) (found : option HelpRequest)
           (stars_ : Q) (comment_ : option string) : Outcome :=
  if negb (validateRate stars_ comment_) then respond validationError
  else rateHelpRequest now user found stars_ comment_.

Definition flagHelpRequest (now : Time) (user : UserId)
           (found : option HelpRequest) (why : string) : Outcome :=
  match found with
  | None => respond notFound
  | Some helpRequest =>
      match flag now why user helpRequest with
      | None => serverError
      | Some saved =>
          mkOutcome (mkReply 200 true "Help request flagged for review")
                    (Saved saved)
      end
  end.

(** [POST /requests/:requestId/flag] *)
Definition flagRoute (now : Time) (user : UserId) (found : option HelpRequest)
           (why : string) : Outcome :=
  if negb (validateFlag why) then respond validationError
  else flagHelpRequest now user found why.

(** [GET /requests/:requestId]: the only write is the view counter,
    bumped for a viewer who is not the owner. *)
Definition getHelpRequest (now : Time) (user : UserId)
           (found : option HelpRequest) : Outcome :=
  match found with
  | None => respond notFound
  | Some helpRequest =>
      let okReply := mkReply 200 true "Help request retrieved successfully" in
      if negb (isOwnerOf user helpRequest) then
        match incrementViews now helpRequest with
        | None => serverError
        | Some saved => mkOutcome okReply (Saved saved)
        end
      else mkOutcome okReply Unchanged
  end.

(** ** Account deletion ([controllers/userController.js], [deleteAccount])

    What [deleteAccount] does to the collection of help requests.  The
    password test is an input; the other collections it cleans are left
    out. *)

(** The [$or] of the [countDocuments] guard: a request that keeps
    [user] from deleting the account. *)
Definition isActiveRequestOf (user : UserId) (r : HelpRequest) : bool :=
  (String.eqb (recipientId r) user
   && (Status_eqb (status r) open || Status_eqb (status r) approved))
  || (isDonorOf user r && Status_eqb (status r) approved).

(** Step 3, [updateMany({ donorId: userId }, { $unset: { donorId,
    approvedAt, "rating.donorRating" }, $set: { status: "open" } })],
    on one document. *)
Definition removeDonor (user : UserId) (r : HelpRequest) : HelpRequest :=
  if isDonorOf user r then
    set_rating (mkRating (recipientRating (rating r)) None)
      (set_approvedAt None (set_donorId None (set_status open r)))
  else r.

(** Step 4, [updateMany({}, { $pull: { notes: { author: userId },
    "metadata.interested": { userId } }, $unset: {
    "metadata.flagged.flaggedBy": userId } })], on one document.  The
    value given to [$unset] is ignored: [flaggedBy] is removed from
    every request, whoever flagged it. *)
Definition removeReferences (user : UserId) (r : HelpRequest) : HelpRequest :=
  set_metadata
    (mkMetadata
       (views (metadata r))
       (filter (fun i => negb (String.eqb (userId i) user))
               (interested (metadata r)))
       (mkFlagged (isFlagged (flagged (metadata r)))
                  (reason (flagged (metadata r)))
                  None
                  (flaggedAt (flagged (metadata r)))))
    (set_notes (filter (fun n => negb (String.eqb (author n) user)) (notes r))
               r).

(** A request of somebody else after the account of [user] was
    deleted; [timestamps] stamps [updatedAt] on the documents an
    [updateMany] matches, and step 4 matches them all. *)
Definition afterAccountDeletion (now : Time) (user : UserId) (r : HelpRequest)
  : HelpRequest :=
  set_updatedAt now (removeReferences user (removeDonor user r)).

(** [deleteAccount] on the collection: the reply and the collection
    afterwards.  Step 2 deletes the requests of [user] as recipient. *)
Definition deleteAccount (passwordGiven passwordValid : bool) (now : Time)
           (user : UserId) (docs : list HelpRequest)
  : Reply * list HelpRequest :=
  if negb passwordGiven
  then (failure 400 "Password is required to delete account", docs)
  else if negb passwordValid
  then (failure 400 "Invalid password", docs)
  else if 0 <? List.length (filter (isActiveRequestOf user) docs)
  then (failure 400
          "Cannot delete account with active help requests. Please complete or cancel them first.",
        docs)
  else (mkReply 200 true "Account and all associated data deleted permanently",
        map (afterAccountDeletion now user)
            (filter (fun r => negb (String.eqb (recipientId r) user)) docs)).

(** ** The request state machine

    One step is one exposed operation run against a stored request; the
    store then holds what the handler wrote.  The one other writer of
    stored requests is the deletion of a user's account. *)

Inductive Op : Type :=
| OpEdit (actor : UserId) (patch : UpdateBody)
| OpApprove (actor : UserId)
| OpComplete (actor : UserId)
| OpDelete (actor : UserId)
| OpAddNote (actor : UserId) (text : string)
| OpMarkInterested (actor : UserId)
| OpRate (actor : UserId) (stars_ : Q) (comment_ : option string)
| OpFlag (actor : UserId) (why : string)
| OpView (actor : UserId).

Definition runOp (catalog : list HelpItem.t) (now : Time) (op : Op)
           (r : HelpRequest) : Outcome :=
  match op with
  | OpEdit actor patch => updateRoute catalog now actor (Some r) patch
  | OpApprove actor => approveRoute now actor (Some r)
  | OpComplete actor => completeRoute now actor (Some r)
  | OpDelete actor => deleteRoute actor (Some r)
  | OpAddNote actor text => addNoteRoute now actor (Some r) text
  | OpMarkInterested actor => markInterest now actor (Some r)
  | OpRate actor s c => rateRoute now actor (Some r) s c
  | OpFlag actor why => flagRoute now actor (Some r) why
  | OpView actor => getHelpRequest now actor (Some r)
  end.

(** What the store holds for the request after an effect. *)
Definition applyEffect (r : HelpRequest) (e : Effect) : option HelpRequest :=
  match e with
  | Unchanged => Some r
  | Saved r' => Some r'
  | Removed => None
  end.

(** [reachable t r]: [r] is stored at clock reading [t], after a
    creation and any number of operations and of account deletions, the
    clock never running backwards.  An account deletion goes through
    only when no request of the collection is active for the user, so
    in particular [r] is not; it removes the requests of the user as
    recipient and rewrites the others. *)
Inductive reachable : Time -> HelpRequest -> Prop :=
| reach_create :
    forall catalog now newId requester profile body r,
      effect (createRoute catalog now newId requester profile body) = Saved r ->
      reachable now r
| reach_op :
    forall catalog t now op r r',
      reachable t r ->
      (t <= now)%Z ->
      applyEffect r (effect (runOp catalog now op r)) = Some r' ->
      reachable now r'
| reach_account_deleted :
    forall t now user r,
      reachable t r ->
      (t <= now)%Z ->
      isActiveRequestOf user r = false ->
      recipientId r <> user ->
      reachable now (afterAccountDeletion now user r).

(** The safety invariant of the state machine. *)
Definition stateMachineSafe (r : HelpRequest) : Prop :=
  (status r = open -> donorId r = None)
  /\ (status r = approved \/ status r = completed ->
      donorId r <> None /\ approvedAt r <> None)
  /\ (status r = completed ->
      exists a c, approvedAt r = Some a /\ completedAt r = Some c /\ (a <= c)%Z).

(** The four fields the safety invariant reads. *)
Definition sameLifecycle (r r' : HelpRequest) : Prop :=
  status r' = status r /\ donorId r' = donorId r
  /\ approvedAt r' = approvedAt r /\ completedAt r' = completedAt r.

(** No approval lies in the future of the clock reading [t]. *)
Definition approvedBy (t : Time) (r : HelpRequest) : Prop :=
  forall a, approvedAt r = Some a -> (a <= t)%Z.

(** ** External collaborators of the listing

    [calculateDistance] is [helpers.calculateDistance] (the Haversine
    formula in floating point, rounded to two decimals) and
    [formatDistance] is [locationService.formatDistance]; [centerSphere]
    is the store's [$geoWithin]/[$centerSphere] test of a document's
    coordinates against a centre [[longitude, latitude]] and an angular
    radius; [regexTest] is its case-insensitive [$regex] match;
    [priorityRank] is the position of a [priority] value in the store's
    ordering of that field.  The field is a string, so the store compares
    the names: [.sort({ priority: -1 })] yields medium, low, high,
    critical ([nameRank] below), not the order of urgency.  Theorems
    over an arbitrary [svc] hold for every choice of these functions;
    [usesHelperDistance] below fixes [calculateDistance] to the helper
    of the source. *)

Record Services : Type := mkServices {
  calculateDistance : Q -> Q -> Q -> Q -> Q;
  formatDistance : Q -> string;
  centerSphere : Q -> Q -> Q -> Coordinates -> bool;
  regexTest : string -> string -> bool;
  priorityRank : Priority -> Z
}.

(** ** Pagination ([utils/helpers.js]) *)

Record Pagination : Type := mkPagination {
  currentPage : nat;
  totalPages : nat;
  totalItems : nat;
  itemsPerPage : nat;
  hasNext : bool;
  hasPrev : bool;
  nextPage : option nat;
  prevPage : option nat
}.

(** [Math.ceil(total / limit)] for a positive [limit]. *)
Definition ceilDiv (total limit : nat) : nat := (total + limit - 1) / limit.

Definition getPaginationInfo (page limit total : nat) : Pagination :=
  let totalPages_ := ceilDiv total limit in
  let hasNext_ := page <? totalPages_ in
  let hasPrev_ := 1 <? page in
  {| currentPage := page;
     totalPages := totalPages_;
     totalItems := total;
     itemsPerPage := limit;
     hasNext := hasNext_;
     hasPrev := hasPrev_;
     nextPage := if hasNext_ then Some (page + 1) else None;
     prevPage := if hasPrev_ then Some (page - 1) else None |}.

(** ** The document store as the listing uses it *)

(** The query object handed to [HelpRequest.find]. *)
Record Query : Type := mkQuery {
  recipientNe : option UserId;
  statusIs : option Status;
  categoryIs : option Category;
  priorityIs : option Priority;
  geoWithin : option (Q * Q * Q);
  zipRegex : option string;
  searchRegex : option string;
  endDateGt : Time
}.

Definition matches (svc : Services) (q : Query) (r : HelpRequest) : bool :=
  whenPresent (fun u => negb (String.eqb (recipientId r) u)) (recipientNe q)
  && whenPresent (Status_eqb (status r)) (statusIs q)
  && whenPresent (Category_eqb (category r)) (categoryIs q)
  && whenPresent (Priority_eqb (priority r)) (priorityIs q)
  && whenPresent
       (fun '(lon, lat, radians) =>
          centerSphere svc lon lat radians (coordinates (pickupLocation r)))
       (geoWithin q)
  && whenPresent (fun z => regexTest svc z (zipCode (pickupLocation r)))
                 (zipRegex q)
  && whenPresent
       (fun s => regexTest svc s (title r) || regexTest svc s (description r))
       (searchRegex q)
  && (endDate (availabilityWindow r) >? endDateGt q)%Z.

(** A stable insertion sort; [leb x y] says that [x] may stand before
    [y]. *)
Fixpoint insertBy {A : Type} (leb : A -> A -> bool) (x : A) (l : list A)
  : list A :=
  match l with
  | [] => [x]
  | y :: t => if leb x y then x :: y :: t else y :: insertBy leb x t
  end.

Definition sortBy {A : Type} (leb : A -> A -> bool) (l : list A) : list A :=
  fold_right (insertBy leb) [] l.

(** [.sort({ priority: -1, createdAt: -1 })] *)
Definition storeOrder (svc : Services) (a b : HelpRequest) : bool :=
  (priorityRank svc (priority b) <? priorityRank svc (priority a))%Z
  || ((priorityRank svc (priority a) =? priorityRank svc (priority b))%Z
      && (createdAt b <=? createdAt a)%Z).

(** [HelpRequest.find(query).sort(...).limit(limit).skip(skip)] *)
Definition findPage (svc : Services) (q : Query) (limit skip : nat)
           (docs : list HelpRequest) : list HelpRequest :=
  firstn limit (skipn skip (sortBy (storeOrder svc) (filter (matches svc q) docs))).

(** [HelpRequest.countDocuments(query)] *)
Definition countDocuments (svc : Services) (q : Query)
           (docs : list HelpRequest) : nat :=
  List.length (filter (matches svc q) docs).

(** ** The nearby listing ([getHelpRequests]) *)

(** [req.query] after [validate(queryValidation.helpRequestFilters, "query")];
    [page] and [limit] are the integers a client sends. *)
Record ListQuery : Type := mkListQuery {
  page : nat;
  limit : nat;
  qStatus : option Status;
  qCategory : option Category;
  qPriority : option Priority;
  qZipCode : option string;
  radius : Q;
  qLatitude : option Q;
  qLongitude : option Q;
  qSearch : option string
}.

Definition inRange (lo hi x : Q) : bool := Qle_bool lo x && Qle_bool x hi.

(** [queryValidation.helpRequestFilters] *)
Definition validateFilters (q : ListQuery) : bool :=
  (1 <=? page q) && (1 <=? limit q) && (limit q <=? 100)
  && whenPresent (lengthBetween 2 100) (qSearch q)
  && whenPresent (lengthBetween 3 10) (qZipCode q)
  && inRange 1 100 (radius q)
  && whenPresent (inRange (-90) 90) (qLatitude q)
  && whenPresent (inRange (-180) 180) (qLongitude q).

(** Truthiness of a number: [NaN], [undefined] and [0] are falsy. *)
Definition truthy (x : option Q) : bool :=
  match x with
  | Some v => negb (Qeq_bool v 0)
  | None => false
  end.

(** A number in arithmetic or comparison position: [null] counts as [0]. *)
Definition toNumber (x : option Q) : Q :=
  match x with
  | Some v => v
  | None => 0%Q
  end.

(** One element of [requestsWithExtras]. *)
Record ListedRequest : Type := mkListedRequest {
  request : HelpRequest;
  distance : option Q;
  distanceFormatted : option string;
  distanceSource : string
}.

Record ListResponse : Type := mkListResponse {
  requests : list ListedRequest;
  pagination : Pagination;
  strictRadiusFilter : bool;
  calculatedFrom : option (option Q * option Q)
}.

(** The outcome of the origin lookup: [userLatitude], [userLongitude]
    and [hasUserLocation]. *)
Record Origin : Type := mkOrigin {
  userLatitude : option Q;
  userLongitude : option Q;
  hasUserLocation : bool
}.

(** [currentUser && currentUser.coordinates] for the authenticated
    caller.  [User.coordinates] is [None] when that conjunction is
    falsy: no profile, or no [coordinates] on it.  A profile hydrated
    with an empty [coordinates] object is truthy in the source, which
    then sets [hasUserLocation] around undefined members; [Coordinates]
    here always holds two numbers, so the model has no such profile.
    [located] below is false in both readings. *)
Definition profileCoordinates (caller : option UserId)
           (profile : option User.t) : option Coordinates :=
  match caller, profile with
  | Some _, Some user => User.coordinates user
  | _, _ => None
  end.

Definition resolveOrigin (caller : option UserId) (profile : option User.t)
           (q : ListQuery) : Origin :=
  let lat := qLatitude q in
  let lon := qLongitude q in
  if negb (truthy lat) || negb (truthy lon) then
    match profileCoordinates caller profile with
    | Some c => mkOrigin (Some (latitude c)) (Some (longitude c)) true
    | None => mkOrigin lat lon false
    end
  else mkOrigin lat lon true.

(** [hasUserLocation && userLatitude && userLongitude] *)
Definition located (o : Origin) : bool :=
  hasUserLocation o && truthy (userLatitude o) && truthy (userLongitude o).

(** [radius != 5] *)
Definition radiusNot5 (q : ListQuery) : bool := negb (Qeq_bool (radius q) 5).

Definition buildQuery (now : Time) (caller : option UserId) (o : Origin)
           (q : ListQuery) : Query :=
  {| recipientNe := caller;
     statusIs := qStatus q;
     categoryIs := qCategory q;
     priorityIs := qPriority q;
     geoWithin :=
       if radiusNot5 q && located o
       then Some (toNumber (userLongitude o), toNumber (userLatitude o),
                  (radius q / 6371)%Q)
       else None;
     zipRegex :=
       if radiusNot5 q && negb (located o) then qZipCode q else None;
     searchRegex := qSearch q;
     endDateGt := now |}.

Definition addExtras (svc : Services) (o : Origin) (q : ListQuery)
           (r : HelpRequest) : ListedRequest :=
  if located o then
    let d := calculateDistance svc
               (toNumber (userLatitude o)) (toNumber (userLongitude o))
               (latitude (coordinates (pickupLocation r)))
               (longitude (coordinates (pickupLocation r))) in
    mkListedRequest r (Some d) (Some (formatDistance svc d))
      (if truthy (qLatitude q) && truthy (qLongitude q)
       then "query_parameters" else "user_profile")
  else mkListedRequest r None None "not_available".

(** [(a, b) => a.distance - b.distance] keeps [a] first when the
    difference is not positive. *)
Definition byDistance (a b : ListedRequest) : bool :=
  Qle_bool (toNumber (distance a)) (toNumber (distance b)).

(** [array.slice(from, to)] *)
Definition slice {A : Type} (from to : nat) (l : list A) : list A :=
  firstn (to - from) (skipn from l).

(** [hasUserLocation && userLatitude && userLongitude && radius && radius != 5] *)
Definition strictRadius (o : Origin) (q : ListQuery) : bool :=
  located o && truthy (Some (radius q)) && radiusNot5 q.

Definition getHelpRequests (svc : Services) (now : Time)
           (caller : option UserId) (profile : option User.t) (q : ListQuery)
           (docs : list HelpRequest) : ListResponse :=
  let skip := (page q - 1) * limit q in
  let o := resolveOrigin caller profile q in
  let query := buildQuery now caller o q in
  let fetched := findPage svc query (limit q) skip docs in
  let withExtras := map (addExtras svc o q) fetched in
  let filtered :=
    if strictRadius o q
    then filter (fun x => Qle_bool (toNumber (distance x)) (radius q)) withExtras
    else withExtras in
  let sorted :=
    if hasUserLocation o then sortBy byDistance filtered else filtered in
  if strictRadius o q then
    let totalAfterFiltering := List.length sorted in
    let pages := ceilDiv totalAfterFiltering (limit q) in
    let actualPage := Nat.min (page q) (if pages =? 0 then 1 else pages) in
    let actualSkip := (actualPage - 1) * limit q in
    {| requests := slice actualSkip (actualSkip + limit q) sorted;
       pagination := getPaginationInfo actualPage (limit q) totalAfterFiltering;
       strictRadiusFilter := true;
       calculatedFrom := Some (userLatitude o, userLongitude o) |}
  else
    {| requests := sorted;
       pagination :=
         getPaginationInfo (page q) (limit q) (countDocuments svc query docs);
       strictRadiusFilter := false;
       calculatedFrom :=
         if hasUserLocation o then Some (userLatitude o, userLongitude o)
         else None |}.

(** [GET /requests]: the query validator, then the controller. *)
Definition listRoute (svc : Services) (now : Time) (caller : option UserId)
           (profile : option User.t) (q : ListQuery) (docs : list HelpRequest)
  : Reply + ListResponse :=
  if negb (validateFilters q) then inl validationError
  else inr (getHelpRequests svc now caller profile q docs).

(** ** The second copy of the controller

    The repository holds another [HelpController] whose
    [getHelpRequests] differs from the one above: it has no
    [hasUserLocation] flag, falls back to a fixed city, always queries
    the spatial cap and reports the store's count. *)

Module MumbaiVariant.

Definition defaultLatitude : Q := 19.0760%Q.
Definition defaultLongitude : Q := 72.8777%Q.

(** [userLatitude] and [userLongitude] after the profile lookup and
    the default-location fallback. *)
Definition resolveOrigin (caller : option UserId) (profile : option User.t)
           (q : ListQuery) : option Q * option Q :=
  let lat := qLatitude q in
  let lon := qLongitude q in
  let '(lat1, lon1) :=
    if negb (truthy lat) || negb (truthy lon) then
      match profileCoordinates caller profile with
      | Some c => (Some (latitude c), Some (longitude c))
      | None => (lat, lon)
      end
    else (lat, lon) in
  if negb (truthy lat1) || negb (truthy lon1)
  then (Some defaultLatitude, Some defaultLongitude)
  else (lat1, lon1).

Definition buildQuery (now : Time) (caller : option UserId)
           (o : option Q * option Q) (q : ListQuery) : Query :=
  let both := truthy (fst o) && truthy (snd o) in
  {| recipientNe := caller;
     statusIs := qStatus q;
     categoryIs := qCategory q;
     priorityIs := qPriority q;
     geoWithin :=
       if both
       then Some (toNumber (snd o), toNumber (fst o), (radius q / 6371)%Q)
       else None;
     zipRegex := if both then None else qZipCode q;
     searchRegex := qSearch q;
     endDateGt := now |}.

Definition addExtras (svc : Services) (caller : option UserId)
           (o : option Q * option Q) (q : ListQuery) (r : HelpRequest)
  : ListedRequest :=
  let d := calculateDistance svc
             (toNumber (fst o)) (toNumber (snd o))
             (latitude (coordinates (pickupLocation r)))
             (longitude (coordinates (pickupLocation r))) in
  mkListedRequest r (Some d) (Some (formatDistance svc d))
    (if truthy (qLatitude q) && truthy (qLongitude q)
     then "query_parameters"
     else match caller with
          | Some _ => "user_profile"
          | None => "default_location"
          end).

Definition getHelpRequests (svc : Services) (now : Time)
           (caller : option UserId) (profile : option User.t) (q : ListQuery)
           (docs : list HelpRequest) : ListResponse :=
  let skip := (page q - 1) * limit q in
  let o := resolveOrigin caller profile q in
  let query := buildQuery now caller o q in
  let fetched := findPage svc query (limit q) skip docs in
  let withExtras := map (addExtras svc caller o q) fetched in
  {| requests := sortBy byDistance withExtras;
     pagination :=
       getPaginationInfo (page q) (limit q) (countDocuments svc query docs);
     strictRadiusFilter := false;
     calculatedFrom := Some o |}.

End MumbaiVariant.

(** ** The distance formula over the reals ([utils/helpers.js])

    [calculateDistance] before its final [toFixed(2)], with real
    arithmetic in place of floating point.  [atan2] is [Math.atan2]. *)

Module Haversine.
Import Reals.
Local Open Scope R_scope.

Definition atan2 (y x : R) : R :=
  if Rlt_dec 0 x then atan (y / x)
  else if Rlt_dec x 0
       then (if Rle_dec 0 y then atan (y / x) + PI else atan (y / x) - PI)
       else if Rlt_dec 0 y then PI / 2
            else if Rlt_dec y 0 then - (PI / 2) else 0.

Definition calculateDistance (lat1 lon1 lat2 lon2 : R) : R :=
  let R_ := 6371 in
  let dLat := (lat2 - lat1) * PI / 180 in
  let dLon := (lon2 - lon1) * PI / 180 in
  let a := sin (dLat / 2) * sin (dLat / 2)
           + cos (lat1 * PI / 180) * cos (lat2 * PI / 180)
             * sin (dLon / 2) * sin (dLon / 2) in
  let c := 2 * atan2 (sqrt a) (sqrt (1 - a)) in
  R_ * c.

(** [parseFloat(x.toFixed(2))]: the multiple of 1/100 nearest to [x],
    the larger one on a tie. *)
Definition toFixed2 (x : R) : Q := Qmake (up (x * 100 - / 2)) 100%positive.

(** [helpers.calculateDistance] on rational coordinates: the formula
    above, then [toFixed(2)]. *)
Definition rounded (lat1 lon1 lat2 lon2 : Q) : Q :=
  toFixed2 (calculateDistance (Q2R lat1) (Q2R lon1)
                              (Q2R lat2) (Q2R lon2)).

(** The exact distance between two points is at most [bound]
    kilometres plus 0.005, half a unit of the last digit that
    [toFixed(2)] keeps. *)
Definition exactWithin (bound lat1 lon1 lat2 lon2 : Q) : Prop :=
  calculateDistance (Q2R lat1) (Q2R lon1)
                    (Q2R lat2) (Q2R lon2)
  <= Q2R bound + 5 / 1000.

End Haversine.

(** The distance helper of the listing is [helpers.calculateDistance]. *)
Definition usesHelperDistance (svc : Services) : Prop :=
  forall lat1 lon1 lat2 lon2 : Q,
    calculateDistance svc lat1 lon1 lat2 lon2
    = Haversine.rounded lat1 lon1 lat2 lon2.

(** ** Concrete data for the scenarios

    The spec's scenario: recipient R at (40.0, -74.0) asks for three
    units of one item; donor D stands at (40.05, -74.0), on the same
    meridian.  There the formula reduces to [R * |dLat| * pi / 180]
    (see [haversine_on_meridian] below), which [meridianDistance]
    evaluates with [pi] taken as 355/113 and rounds to two decimals
    like [toFixed(2)]. *)

Definition round2 (x : Q) : Q :=
  Qmake (Qfloor (x * 100 + (1 # 2))%Q) 100.

Definition meridianArc (lat1 lat2 : Q) : Q :=
  (6371 * Qabs (lat2 - lat1) * (355 # 113) / 180)%Q.

Definition meridianDistance (lat1 lon1 lat2 lon2 : Q) : Q :=
  round2 (meridianArc lat1 lat2).

(** A spherical cap around a centre, for documents on the centre's
    meridian. *)
Definition meridianCap (lon lat radians : Q) (c : Coordinates) : bool :=
  Qle_bool (meridianArc lat (latitude c)) (radians * 6371)%Q.

Fixpoint isSubstring (needle hay : string) : bool :=
  String.prefix needle hay
  || match hay with
     | EmptyString => false
     | String _ rest => isSubstring needle rest
     end.

(** Bytewise comparison of the priority names:
    critical < high < low < medium. *)
Definition nameRank (p : Priority) : Z :=
  match p with
  | critical => 0
  | high => 1
  | low => 2
  | medium => 3
  end%Z.

Definition scenarioServices : Services :=
  {| calculateDistance := meridianDistance;
     formatDistance := fun _ => "";
     centerSphere := meridianCap;
     regexTest := isSubstring;
     priorityRank := nameRank |}.

(** The same collaborators around the distance helper of the
    source. *)
Definition helperServices : Services :=
  {| calculateDistance := Haversine.rounded;
     formatDistance := fun _ => "";
     centerSphere := meridianCap;
     regexTest := isSubstring;
     priorityRank := nameRank |}.

Definition scenarioCatalog : list HelpItem.t :=
  [ HelpItem.mk "rice" food true;
    HelpItem.mk "flour" food true;
    HelpItem.mk "medicine" medical true;
    HelpItem.mk "blanket" clothing false ].

Definition recipientR : User.t :=
  User.mk "R" "1 Main Street" "07001" (Some (mkCoordinates 40%Q (-74)%Q)).

Definition donorD : User.t :=
  User.mk "D" "9 North Road" "07002" (Some (mkCoordinates 40.05%Q (-74)%Q)).

Definition scenarioBody : CreateBody :=
  {| cTitle := "Need rice for a family";
     cDescription := "Three bags of rice for a family of four";
     cItems := [mkRequestItem "rice" 3%Q "kg" medium];
     cPriority := medium;
     cCategory := "food";
     cWindow := mkWindowBody 1000%Z 9000%Z |}.

(** The request R creates at clock reading 1000. *)
Definition scenarioRequest : HelpRequest :=
  {| _id := "req1";
     recipientId := "R";
     title := "Need rice for a family";
     description := "Three bags of rice for a family of four";
     items := [mkRequestItem "rice" 3%Q "kg" medium];
     status := open;
     donorId := None;
     priority := medium;
     category := food;
     pickupLocation := mkPickupLocation "1 Main Street" (mkCoordinates 40%Q (-74)%Q) "07001";
     availabilityWindow := mkAvailabilityWindow 1000%Z 9000%Z;
     approvedAt := None;
     completedAt := None;
     notes := [];
     rating := mkRating None None;
     metadata := mkMetadata 0%Z [] (mkFlagged false None None None);
     createdAt := 1000%Z;
     updatedAt := 1000%Z |}.

(** A request for two food items and one medical item, and a request
    for one of each. *)
Definition mixedBody : CreateBody :=
  {| cTitle := "Need food and medicine";
     cDescription := "Rice, flour and medicine for a week";
     cItems := [ mkRequestItem "rice" 3%Q "kg" medium;
                 mkRequestItem "flour" 2%Q "kg" medium;
                 mkRequestItem "medicine" 1%Q "boxes" high ];
     cPriority := medium;
     cCategory := "food";
     cWindow := mkWindowBody 1000%Z 9000%Z |}.

Definition mixedRequest : HelpRequest :=
  set_category food
    (set_items (cItems mixedBody)
       (set_description (cDescription mixedBody)
          (set_title (cTitle mixedBody)
             (mkHelpRequest "req2" "R" "" "" [] open None medium food
                (mkPickupLocation "1 Main Street"
                                  (mkCoordinates 40%Q (-74)%Q) "07001")
                (mkAvailabilityWindow 1000%Z 9000%Z) None None []
                (mkRating None None)
                (mkMetadata 0%Z [] (mkFlagged false None None None))
                1000%Z 1000%Z)))).

Definition tieBody : CreateBody :=
  {| cTitle := "Need food and medicine";
     cDescription := "Rice and medicine for a week";
     cItems := [ mkRequestItem "rice" 3%Q "kg" medium;
                 mkRequestItem "medicine" 1%Q "boxes" high ];
     cPriority := medium;
     cCategory := "food";
     cWindow := mkWindowBody 1000%Z 9000%Z |}.

(** The scenario's request after D approved it at 2000, and after it
    was completed at 3000. *)
Definition approvedRequest : HelpRequest :=
  set_updatedAt 2000%Z
    (set_approvedAt (Some 2000%Z)
       (set_donorId (Some "D") (set_status approved scenarioRequest))).

Definition completedRequest : HelpRequest :=
  set_updatedAt 3000%Z
    (set_completedAt (Some 3000%Z) (set_status completed approvedRequest)).

(** An update that only changes the title. *)
Definition titlePatch : UpdateBody :=
  {| uTitle := Some "Need rice and flour soon";
     uDescription := None;
     uItems := None;
     uPriority := None;
     uWindow := None |}.

(** A copy of a request under another id, creation time and pickup
    point. *)
Definition cloneAs (newId : RequestId) (created : Time) (place : Coordinates)
           (r : HelpRequest) : HelpRequest :=
  {| _id := newId; recipientId := recipientId r; title := title r;
     description := description r; items := items r; status := status r;
     donorId := donorId r; priority := priority r; category := category r;
     pickupLocation :=
       mkPickupLocation (address (pickupLocation r)) place
                        (zipCode (pickupLocation r));
     availabilityWindow := availabilityWindow r;
     approvedAt := approvedAt r; completedAt := completedAt r;
     notes := notes r; rating := rating r; metadata := metadata r;
     createdAt := created; updatedAt := created |}.

(** Three open requests of R, all at R's address. *)
Definition threeRequests : list HelpRequest :=
  [ scenarioRequest;
    cloneAs "req4" 1100%Z (mkCoordinates 40%Q (-74)%Q) scenarioRequest;
    cloneAs "req5" 1200%Z (mkCoordinates 40%Q (-74)%Q) scenarioRequest ].

(** D's query for a page of two within ten kilometres. *)
Definition pageOfTwo (n : nat) : ListQuery :=
  {| page := n; limit := 2;
     qStatus := None; qCategory := None; qPriority := None; qZipCode := None;
     radius := 10%Q;
     qLatitude := Some 40.05%Q; qLongitude := Some (-74)%Q;
     qSearch := None |}.

(** A caller whose profile holds no coordinates, and a query that
    carries none. *)
Definition callerWithoutLocation : User.t :=
  User.mk "E" "" "400001" None.

Definition queryWithoutLocation : ListQuery :=
  {| page := 1; limit := 20;
     qStatus := None; qCategory := None; qPriority := None; qZipCode := None;
     radius := 10%Q;
     qLatitude := None; qLongitude := None;
     qSearch := None |}.

(** Two requests on the meridian of the fixed default location
    (19.0760, 72.8777): one about 2.7 km north of it, one far north. *)
Definition nearDefaultRequest : HelpRequest :=
  cloneAs "req6" 1100%Z (mkCoordinates 19.1%Q 72.8777%Q) scenarioRequest.

Definition farFromDefaultRequest : HelpRequest :=
  cloneAs "req7" 1200%Z (mkCoordinates 40%Q 72.8777%Q) scenarioRequest.

(** D's listing query with a given radius, first page of twenty. *)
Definition scenarioQuery (r : Q) : ListQuery :=
  {| page := 1; limit := 20;
     qStatus := None; qCategory := None; qPriority := None; qZipCode := None;
     radius := r;
     qLatitude := Some 40.05%Q; qLongitude := Some (-74)%Q;
     qSearch := None |}.

(** ** What one operation stores

    [Stored now r op r'] lists, operation by operation, the document
    [r'] that a handler writes back for the stored request [r]. *)

Inductive Stored (now : Time) (r : HelpRequest) : Op -> HelpRequest -> Prop :=
| St_edit : forall actor patch cat,
    actor = recipientId r ->
    validateUpdate now patch = true ->
    missingDate patch = false ->
    Stored now r (OpEdit actor patch)
           (set_updatedAt now (assignUpdates patch cat r))
| St_approve : forall actor,
    actor <> recipientId r ->
    status r = open ->
    Stored now r (OpApprove actor)
           (set_updatedAt now
              (set_approvedAt (Some now)
                 (set_donorId (Some actor) (set_status approved r))))
| St_complete : forall actor,
    actor = recipientId r \/ donorId r = Some actor ->
    status r = approved ->
    Stored now r (OpComplete actor)
           (set_updatedAt now
              (set_completedAt (Some now) (set_status completed r)))
| St_note : forall actor text,
    actor = recipientId r \/ donorId r = Some actor ->
    validateAddNote text = true ->
    Stored now r (OpAddNote actor text)
           (set_updatedAt now
              (set_notes (notes r ++ [mkNote actor text now]) r))
| St_interest : forall actor,
    actor <> recipientId r ->
    alreadyInterested actor r = false ->
    Stored now r (OpMarkInterested actor)
           (set_updatedAt now
              (set_metadata
                 (mkMetadata (views (metadata r))
                             (interested (metadata r) ++ [mkInterest actor now])
                             (flagged (metadata r)))
                 r))
| St_rate_recipient : forall actor stars_ comment_,
    actor = recipientId r ->
    status r = completed ->
    validateRate stars_ comment_ = true ->
    Stored now r (OpRate actor stars_ comment_)
           (set_updatedAt now
              (set_rating
                 (mkRating
                    (Some (mkRatingData stars_
                             (match comment_ with Some c => c | None => "" end)
                             now))
                    (donorRating (rating r)))
                 r))
| St_rate_donor : forall actor stars_ comment_,
    actor <> recipientId r ->
    donorId r = Some actor ->
    status r = completed ->
    validateRate stars_ comment_ = true ->
    Stored now r (OpRate actor stars_ comment_)
           (set_updatedAt now
              (set_rating
                 (mkRating
                    (recipientRating (rating r))
                    (Some (mkRatingData stars_
                             (match comment_ with Some c => c | None => "" end)
                             now)))
                 r))
| St_flag : forall actor why,
    validateFlag why = true ->
    Stored now r (OpFlag actor why)
           (set_updatedAt now
              (set_metadata
                 (mkMetadata (views (metadata r))
                             (interested (metadata r))
                             (mkFlagged true (Some why) (Some actor) (Some now)))
                 r))
| St_view : forall actor,
    actor <> recipientId r ->
    Stored now r (OpView actor)
           (set_updatedAt now
              (set_metadata
                 (mkMetadata (views (metadata r) + 1)%Z
                             (interested (metadata r))
                             (flagged (metadata r)))
                 r)).

(** The availability window is valid (the condition of [pre("save")]). *)
Definition windowValid (r : HelpRequest) : Prop :=
  (startDate (availabilityWindow r) < endDate (availabilityWindow r))%Z.

(** Position of a status on the path open, approved, completed. *)
Definition statusRank (s : Status) : nat :=
  match s with
  | open => 0
  | approved => 1
  | completed => 2
  end.

(** The stars of a stored rating lie between 1 and 5. *)
Definition starsInRange (o : option RatingData) : Prop :=
  match o with
  | Some d => (1 <= stars d)%Q /\ (stars d <= 5)%Q
  | None => True
  end.

(** ** Further schema members ([models/HelpRequest.js]) *)

Definition msPerDay : Z := (1000 * 60 * 60 * 24)%Z.

(** [Math.ceil(a / b)] on integers, for a positive [b]. *)
Definition ceilDivZ (a b : Z) : Z := (- ((- a) / b))%Z.

(** The virtual [daysRemaining]. *)
Definition daysRemaining (now : Time) (r : HelpRequest) : Z :=
  ceilDivZ (endDate (availabilityWindow r) - now) msPerDay.

Definition unflag (now : Time) (r : HelpRequest) : option HelpRequest :=
  save now
    (set_metadata
       (mkMetadata (views (metadata r))
                   (interested (metadata r))
                   (mkFlagged false None None None))
       r).

(** [HelpRequest.findNearbyRequests(latitude, longitude, radiusKm, limit)] *)
Definition findNearbyRequests (svc : Services) (now : Time)
           (lat lon radiusKm : Q) (lim : nat) (docs : list HelpRequest)
  : list HelpRequest :=
  findPage svc
    {| recipientNe := None;
       statusIs := Some open;
       categoryIs := None;
       priorityIs := None;
       geoWithin := Some (lon, lat, (radiusKm / 6371)%Q);
       zipRegex := None;
       searchRegex := None;
       endDateGt := now |}
    lim 0 docs.

(** The dashboard's list of other people's nearby requests
    ([getDashboard]): ten kilometres, five documents, the user's own
    requests dropped afterwards; empty when the profile has no usable
    coordinates. *)
Definition dashboardNearby (svc : Services) (now : Time) (user : UserId)
           (profile : User.t) (docs : list HelpRequest) : list HelpRequest :=
  match User.coordinates profile with
  | Some c =>
      if truthy (Some (latitude c)) && truthy (Some (longitude c)) then
        filter (fun r => negb (String.eqb (recipientId r) user))
               (findNearbyRequests svc now (latitude c) (longitude c) 10 5 docs)
      else []
  | None => []
  end.

(** ** Location service ([services/locationService.js]) *)

(** [findLocationsWithinRadius]: a location is any value with
    coordinates; the result pairs each kept location with its
    distance. *)
Definition findLocationsWithinRadius {A : Type} (svc : Services)
           (coordsOf : A -> Coordinates) (centerLat centerLon : Q)
           (locations : list A) (radiusKm : Q) : list (A * Q) :=
  let locationsWithDistance :=
    map (fun location =>
           (location,
            calculateDistance svc centerLat centerLon
                              (latitude (coordsOf location))
                              (longitude (coordsOf location))))
        locations in
  sortBy (fun a b => Qle_bool (snd a) (snd b))
         (filter (fun location => Qle_bool (snd location) radiusKm)
                 locationsWithDistance).

(** [getNearbyHelpRequests] *)
Definition getNearbyHelpRequests (svc : Services) (userLat userLon : Q)
           (helpRequests : list HelpRequest) (radiusKm : Q)
  : list (HelpRequest * Q) :=
  findLocationsWithinRadius svc (fun r => coordinates (pickupLocation r))
                            userLat userLon helpRequests radiusKm.

(** [validateCoordinates] on two numbers. *)
Definition validateCoordinates (lat lon : Q) : bool :=
  Qle_bool (-90) lat && Qle_bool lat 90
  && Qle_bool (-180) lon && Qle_bool lon 180.

Inductive DistanceCategory : Type :=
  nearby | close | moderate | far | very_far.

(** [getDistanceCategory] *)
Definition getDistanceCategory (d : Q) : DistanceCategory :=
  if Qle_bool d 2 then nearby
  else if Qle_bool d 5 then close
  else if Qle_bool d 15 then moderate
  else if Qle_bool d 30 then far
  else very_far.

Definition categoryRank (c : DistanceCategory) : nat :=
  match c with
  | nearby => 0 | close => 1 | moderate => 2 | far => 3 | very_far => 4
  end.

(** [suggestOptimalRadius]; [Qle_bool] orders the distances as
    [(a, b) => a - b] does. *)
Definition suggestOptimalRadius (svc : Services) (userLat userLon : Q)
           (nearbyItems : list Coordinates) : Q :=
  let distances :=
    sortBy Qle_bool
           (map (fun c => calculateDistance svc userLat userLon
                                            (latitude c) (longitude c))
                nearbyItems) in
  let n := List.length distances in
  if 10 <=? n then Qmin (nth 9 distances 0%Q) 50
  else if 5 <=? n then Qmin (nth 4 distances 0%Q) 30
  else if 0 <? n then Qmin (nth (n - 1) distances 0%Q + 5) 20
  else 10%Q.

(** ** Password rules ([utils/helpers.js])

    A string is its sequence of code units. *)

Definition charIn (lo hi : nat) (c : Ascii.ascii) : bool :=
  (lo <=? Ascii.nat_of_ascii c) && (Ascii.nat_of_ascii c <=? hi).

Fixpoint anyChar (p : Ascii.ascii -> bool) (s : string) : bool :=
  match s with
  | EmptyString => false
  | String c rest => p c || anyChar p rest
  end.

Record PasswordCheck : Type := mkPasswordCheck {
  isValid : bool;
  errors : list string
}.

(** [validatePasswordStrength]; [hasSpecialChar] is computed by the
    source but never read. *)
Definition validatePasswordStrength (password : string) : PasswordCheck :=
  let minLength := 8 in
  let hasUpperCase := anyChar (charIn 65 90) password in
  let hasLowerCase := anyChar (charIn 97 122) password in
  let hasNumbers := anyChar (charIn 48 57) password in
  {| isValid :=
       (minLength <=? String.length password)
       && hasUpperCase && hasLowerCase && hasNumbers;
     errors :=
       (if String.length password <? minLength
        then ["Password must be at least 8 characters long"] else [])
       ++ (if negb hasUpperCase
           then ["Password must contain at least one uppercase letter"] else [])
       ++ (if negb hasLowerCase
           then ["Password must contain at least one lowercase letter"] else [])
       ++ (if negb hasNumbers
           then ["Password must contain at least one number"] else []) |}.

(** ** Authentication middleware ([middleware/auth.js])

    The token verifier and the account store are arguments.  An account
    is the part of a user document the middleware reads. *)

Module UserStatus.
Inductive t : Type := pending | approved | rejected.
Definition eqb (a b : t) : bool :=
  match a, b with
  | pending, pending | approved, approved | rejected, rejected => true
  | _, _ => false
  end.
End UserStatus.

Module Account.
Record t : Type := mk {
  _id : UserId;
  email : string;
  role : string;
  name : string;
  status : UserStatus.t
}.
End Account.

Module AuthMessages.
Definition UNAUTHORIZED := "Unauthorized access.".
Definition USER_NOT_FOUND := "User not found.".
Definition ACCOUNT_NOT_APPROVED := "Your account is not approved yet.".
Definition ACCOUNT_REJECTED := "Your account has been rejected.".
Definition TOKEN_EXPIRED := "Token has expired.".
Definition INVALID_TOKEN := "Invalid token.".
End AuthMessages.

(** What [jwtConfig.verifyAccessToken] does with a token: it returns
    the decoded user id or throws an error of some name. *)
Inductive VerifyResult : Type :=
| Decoded (uid : UserId)
| Throws (errorName : string).

(** [req.user] *)
Record ReqUser : Type := mkReqUser {
  ruUserId : UserId;
  ruEmail : string;
  ruRole : string;
  ruName : string;
  ruStatus : UserStatus.t
}.

(** [s.split(" ")] *)
Fixpoint splitOnSpace (s : string) : list string :=
  match s with
  | EmptyString => [EmptyString]
  | String c rest =>
      if Ascii.eqb c (Ascii.ascii_of_nat 32) then EmptyString :: splitOnSpace rest
      else match splitOnSpace rest with
           | [] => [String c EmptyString]
           | w :: ws => String c w :: ws
           end
  end.

(** [authHeader && authHeader.split(" ")[1]], kept only when truthy. *)
Definition bearerToken (authHeader : option string) : option string :=
  match authHeader with
  | None => None
  | Some h =>
      match nth_error (splitOnSpace h) 1 with
      | Some EmptyString => None
      | Some token => Some token
      | None => None
      end
  end.

(** [User.findById] *)
Definition findAccount (accounts : list Account.t) (uid : UserId)
  : option Account.t :=
  find (fun a => String.eqb (Account._id a) uid) accounts.

Definition asReqUser (a : Account.t) : ReqUser :=
  mkReqUser (Account._id a) (Account.email a) (Account.role a)
            (Account.name a) (Account.status a).

Definition authenticateToken (verify : string -> VerifyResult)
           (accounts : list Account.t) (authHeader : option string)
  : Reply + ReqUser :=
  match bearerToken authHeader with
  | None => inl (failure 401 AuthMessages.UNAUTHORIZED)
  | Some token =>
      match verify token with
      | Decoded uid =>
          match findAccount accounts uid with
          | None => inl (failure 401 AuthMessages.USER_NOT_FOUND)
          | Some user =>
              if negb (UserStatus.eqb (Account.status user) UserStatus.approved)
              then inl (failure 403
                          (if UserStatus.eqb (Account.status user)
                                             UserStatus.rejected
                           then AuthMessages.ACCOUNT_REJECTED
                           else AuthMessages.ACCOUNT_NOT_APPROVED))
              else inr (asReqUser user)
          end
      | Throws errorName =>
          if String.eqb errorName "TokenExpiredError"
          then inl (failure 401 AuthMessages.TOKEN_EXPIRED)
          else if String.eqb errorName "JsonWebTokenError"
          then inl (failure 401 AuthMessages.INVALID_TOKEN)
          else inl (failure 401 AuthMessages.UNAUTHORIZED)
      end
  end.

(** [optionalAuth] never answers; it continues with or without
    [req.user]. *)
Definition optionalAuth (verify : string -> VerifyResult)
           (accounts : list Account.t) (authHeader : option string)
  : option ReqUser :=
  match bearerToken authHeader with
  | None => None
  | Some token =>
      match verify token with
      | Decoded uid =>
          match findAccount accounts uid with
          | Some user =>
              if UserStatus.eqb (Account.status user) UserStatus.approved
              then Some (asReqUser user)
              else None
          | None => None
          end
      | Throws _ => None
      end
  end.

(** [checkAccountStatus(allowedStatuses)]: [None] is [next()]. *)
Definition checkAccountStatus (allowedStatuses : list UserStatus.t)
           (user : option ReqUser) : option Reply :=
  match user with
  | None => Some (failure 401 AuthMessages.UNAUTHORIZED)
  | Some u =>
      if negb (existsb (UserStatus.eqb (ruStatus u)) allowedStatuses)
      then Some (failure 403
                   (if UserStatus.eqb (ruStatus u) UserStatus.rejected
                    then AuthMessages.ACCOUNT_REJECTED
                    else AuthMessages.ACCOUNT_NOT_APPROVED))
      else None
  end.

(** Scenario data for the added functions. *)
Definition scenarioAccounts : list Account.t :=
  [ Account.mk "R" "r@example.org" "user" "R" UserStatus.approved;
    Account.mk "P" "p@example.org" "user" "P" UserStatus.pending ].

Definition scenarioVerify (token : string) : VerifyResult :=
  if String.eqb token "tokenR" then Decoded "R"
  else if String.eqb token "tokenP" then Decoded "P"
  else Throws "JsonWebTokenError".

(** The user on whose behalf an operation runs ([req.user.userId]). *)
Definition actorOf (op : Op) : UserId :=
  match op with
  | OpEdit actor _ => actor
  | OpApprove actor => actor
  | OpComplete actor => actor
  | OpDelete actor => actor
  | OpAddNote actor _ => actor
  | OpMarkInterested actor => actor
  | OpRate actor _ _ => actor
  | OpFlag actor _ => actor
  | OpView actor => actor
  end.

(** The times recorded in a request lie between its creation and its
    last update, which is not after the clock reading [t]. *)
Definition timestampsBetween (t : Time) (r : HelpRequest) : Prop :=
  (createdAt r <= updatedAt r <= t)%Z
  /\ (forall a, approvedAt r = Some a -> (createdAt r <= a <= updatedAt r)%Z)
  /\ (forall c, completedAt r = Some c -> (createdAt r <= c <= updatedAt r)%Z)
  /\ (forall n, In n (notes r) ->
                (createdAt r <= noteCreatedAt n <= updatedAt r)%Z)
  /\ (forall i, In i (interested (metadata r)) ->
                (createdAt r <= interestedAt i <= updatedAt r)%Z).

(** Notes and interest markers stand in the order of their times. *)
Definition chronological (r : HelpRequest) : Prop :=
  StronglySorted (fun a b => (noteCreatedAt a <= noteCreatedAt b)%Z) (notes r)
  /\ StronglySorted (fun a b => (interestedAt a <= interestedAt b)%Z)
                    (interested (metadata r)).

(** A longer life of the scenario's request: D and E mark their
    interest, D approves, R and D each add a note, D completes, both
    rate, and D's account is deleted. *)
Definition interestedRequest : HelpRequest :=
  set_updatedAt 1300%Z
    (set_metadata
       (mkMetadata 0%Z
                   [mkInterest "D" 1200%Z; mkInterest "E" 1300%Z]
                   (mkFlagged false None None None))
       scenarioRequest).

Definition busyRequest : HelpRequest :=
  set_updatedAt 2200%Z
    (set_notes
       [ mkNote "R" "Please call before you come" 2100%Z;
         mkNote "D" "I will come at noon" 2200%Z ]
       (set_approvedAt (Some 2000%Z)
          (set_donorId (Some "D") (set_status approved interestedRequest)))).

Definition ratedRequest : HelpRequest :=
  set_updatedAt 3200%Z
    (set_rating
       (mkRating (Some (mkRatingData 5%Q "" 3100%Z))
                 (Some (mkRatingData 4%Q "Thank you" 3200%Z)))
       (set_completedAt (Some 3000%Z) (set_status completed busyRequest))).

Definition reopenedRequest : HelpRequest :=
  afterAccountDeletion 3300%Z "D" ratedRequest.

(** A third request of R, farther south, created after the others. *)
Definition southRequest : HelpRequest :=
  cloneAs "req7" 1100%Z (mkCoordinates 39.9%Q (-74)%Q) scenarioRequest.

(** D's listing query within 20 km. *)
Definition wideQuery : ListQuery := scenarioQuery 20%Q.

(** A profile whose latitude is zero. *)
Definition equatorUser : User.t :=
  User.mk "Z" "0 Line Road" "00000" (Some (mkCoordinates 0%Q 30%Q)).

(* ================================================================== *)
(** * Part II. Properties                                              *)
(* ================================================================== *)

(** ** Equality tests *)

Lemma Status_eqb_eq (a b : Status) : Status_eqb a b = true <-> a = b.
Proof. destruct a, b; simpl; split; intro H; congruence. Qed.

Lemma Category_eqb_eq (a b : Category) : Category_eqb a b = true <-> a = b.
Proof. destruct a, b; simpl; split; intro H; congruence. Qed.

Lemma Category_eqb_refl (a : Category) : Category_eqb a a = true.
Proof. apply Category_eqb_eq; reflexivity. Qed.

Lemma Category_eqb_neq (a b : Category) : Category_eqb a b = false <-> a <> b.
Proof.
  split.
  - intros H E. apply Category_eqb_eq in E. congruence.
  - intros H. destruct (Category_eqb a b) eqn:E; [|reflexivity].
    apply Category_eqb_eq in E. contradiction.
Qed.

Lemma Category_eqb_sym (a b : Category) : Category_eqb a b = Category_eqb b a.
Proof. destruct a, b; reflexivity. Qed.

(** ** The scenario's request is the one the creation route stores *)

Example scenario_creation :
  createRoute scenarioCatalog 1000%Z "req1" "R" (Some recipientR) scenarioBody
  = mkOutcome (mkReply 201 true Messages.HELP_REQUEST_CREATED)
              (Saved scenarioRequest).
Proof. vm_compute. reflexivity. Qed.

Example scenario_distance :
  (calculateDistance scenarioServices 40.05 (-74) 40 (-74) == 5.56)%Q.
Proof. vm_compute. reflexivity. Qed.

(** ** The distance formula on a meridian *)

Module HaversineFacts.
Import Reals Lra Ratan Machin.
Import Haversine.
Local Open Scope R_scope.

Lemma pi_bounds : 3.1415 < PI < 3.1421.
Proof.
  pose proof (PI_2_3_7_ineq 1) as [Hlo Hhi].
  unfold PI_2_3_7_tg, tg_alt, Ratan_seq in Hlo, Hhi.
  simpl in Hlo, Hhi.
  split; lra.
Qed.

Lemma atan2_pos (y x : R) : 0 < x -> atan2 y x = atan (y / x).
Proof.
  intro H. unfold atan2.
  destruct (Rlt_dec 0 x); [reflexivity|contradiction].
Qed.

Lemma half_angle (h : R) :
  - (PI / 2) < h < PI / 2 ->
  atan2 (sqrt (sin h * sin h)) (sqrt (1 - sin h * sin h)) = Rabs h.
Proof.
  intros [Hlo Hhi].
  assert (Hcos : 0 < cos h) by (apply cos_gt_0; assumption).
  assert (E1 : 1 - sin h * sin h = Rsqr (cos h)).
  { pose proof (sin2_cos2 h) as H. unfold Rsqr in *. lra. }
  rewrite E1, sqrt_Rsqr by lra.
  fold (Rsqr (sin h)). rewrite sqrt_Rsqr_abs.
  rewrite atan2_pos by exact Hcos.
  assert (Habs : - (PI / 2) < Rabs h < PI / 2).
  { unfold Rabs. destruct (Rcase_abs h); split; lra. }
  transitivity (atan (tan (Rabs h))); [|apply atan_tan; exact Habs].
  f_equal. unfold tan.
  unfold Rabs at 2 3. destruct (Rcase_abs h) as [Hneg|Hpos].
  - rewrite sin_neg, cos_neg.
    assert (sin h < 0) by (apply sin_lt_0_var; lra).
    rewrite Rabs_left by assumption. reflexivity.
  - assert (0 <= sin h) by (apply sin_ge_0; lra).
    rewrite Rabs_right by lra. reflexivity.
Qed.

(** Between two points of one meridian the formula gives the arc
    [R * |lat2 - lat1| * pi / 180]. *)
Lemma haversine_on_meridian (lat1 lat2 lon : R) :
  Rabs (lat2 - lat1) < 180 ->
  calculateDistance lat1 lon lat2 lon = 6371 * Rabs (lat2 - lat1) * PI / 180.
Proof.
  intro Hd. unfold calculateDistance.
  replace ((lon - lon) * PI / 180 / 2) with 0 by lra.
  rewrite sin_0, !Rmult_0_r, Rplus_0_r.
  set (h := (lat2 - lat1) * PI / 180 / 2).
  assert (Hpi := PI_RGT_0).
  assert (Hh : - (PI / 2) < h < PI / 2).
  { unfold h. apply Rabs_def2 in Hd. destruct Hd as [H1 H2].
    split; nra. }
  rewrite (half_angle Hh).
  unfold h.
  replace ((lat2 - lat1) * PI / 180 / 2) with ((lat2 - lat1) * (PI / 360))
    by lra.
  rewrite Rabs_mult. rewrite (Rabs_right (PI / 360)) by lra. lra.
Qed.

(** From D at (40.05, -74) to R at (40, -74) the exact value lies
    between 5.555 and 5.565: two decimals give 5.56. *)
Lemma scenario_distance_exact :
  5.555 < calculateDistance 40.05 (-74) 40 (-74) < 5.565.
Proof.
  assert (E : Rabs (40 - 40.05) = 0.05) by (rewrite Rabs_left; lra).
  rewrite haversine_on_meridian by (rewrite E; lra).
  rewrite E. pose proof pi_bounds. split; lra.
Qed.

(** From the fixed default location (19.0760, 72.8777) to
    (19.1, 72.8777) the exact value lies between 2.665 and 2.675: two
    decimals give 2.67. *)
Lemma default_location_distance_exact :
  2.665 < calculateDistance 19.0760 72.8777 19.1 72.8777 < 2.675.
Proof.
  assert (E : Rabs (19.1 - 19.0760) = 0.024) by (rewrite Rabs_right; lra).
  rewrite haversine_on_meridian by (rewrite E; lra).
  rewrite E. pose proof pi_bounds. split; lra.
Qed.

End HaversineFacts.

(** ** Rounding to two decimals *)

Module HaversineRounding.
Import Reals Lra Qreals.
Import Haversine.
Local Open Scope R_scope.

Lemma Q2R_toFixed2 (x : R) :
  Q2R (toFixed2 x) = IZR (up (x * 100 - / 2)) / 100.
Proof. unfold toFixed2, Q2R. simpl. reflexivity. Qed.

(** The rounded value is within half a unit of the last digit. *)
Lemma toFixed2_close (x : R) :
  x - 5 / 1000 < Q2R (toFixed2 x) <= x + 5 / 1000.
Proof.
  rewrite Q2R_toFixed2.
  destruct (archimed (x * 100 - / 2)) as [H1 H2]. split; lra.
Qed.

Lemma toFixed2_value (x : R) (n : Z) :
  IZR n - / 2 <= x * 100 < IZR n + / 2 ->
  toFixed2 x = Qmake n 100.
Proof.
  intros [H1 H2]. unfold toFixed2. f_equal. symmetry. apply tech_up; lra.
Qed.

(** A request whose rounded distance is at most the bound is, in exact
    terms, at most 0.005 km beyond it. *)
Lemma rounded_exactWithin (bound lat1 lon1 lat2 lon2 : Q) :
  (rounded lat1 lon1 lat2 lon2 <= bound)%Q ->
  exactWithin bound lat1 lon1 lat2 lon2.
Proof.
  intro H. apply Qle_Rle in H. unfold exactWithin. unfold rounded in H.
  destruct (toFixed2_close
              (calculateDistance (Q2R lat1) (Q2R lon1) (Q2R lat2) (Q2R lon2)))
    as [Hlo _].
  lra.
Qed.

(** The helper's value in the scenario: from (40.05, -74) to
    (40, -74). *)
Lemma rounded_scenario :
  rounded (4005 # 100) (-74 # 1) (40 # 1) (-74 # 1) = (556 # 100)%Q.
Proof.
  unfold rounded. apply toFixed2_value.
  replace (Q2R (4005 # 100)) with 40.05 by (unfold Q2R; simpl; lra).
  replace (Q2R (-74 # 1)) with (-74) by (unfold Q2R; simpl; lra).
  replace (Q2R (40 # 1)) with 40 by (unfold Q2R; simpl; lra).
  pose proof HaversineFacts.scenario_distance_exact as [H1 H2].
  split; lra.
Qed.

(** The exact distance of the scenario exceeds 5.005 km. *)
Lemma scenario_not_within_5 :
  ~ exactWithin 5 (4005 # 100) (-74 # 1) (40 # 1) (-74 # 1).
Proof.
  unfold exactWithin.
  replace (Q2R (4005 # 100)) with 40.05 by (unfold Q2R; simpl; lra).
  replace (Q2R (-74 # 1)) with (-74) by (unfold Q2R; simpl; lra).
  replace (Q2R (40 # 1)) with 40 by (unfold Q2R; simpl; lra).
  replace (Q2R 5) with 5 by (unfold Q2R; simpl; lra).
  pose proof HaversineFacts.scenario_distance_exact as [H1 H2].
  lra.
Qed.

(** From (40.05, -74) to (39.9, -74) the helper gives 16.68. *)
Lemma rounded_far_scenario :
  rounded (4005 # 100) (-74 # 1) (399 # 10) (-74 # 1) = (1668 # 100)%Q.
Proof.
  unfold rounded. apply toFixed2_value.
  replace (Q2R (4005 # 100)) with 40.05 by (unfold Q2R; simpl; lra).
  replace (Q2R (-74 # 1)) with (-74) by (unfold Q2R; simpl; lra).
  replace (Q2R (399 # 10)) with 39.9 by (unfold Q2R; simpl; lra).
  assert (E : Rabs (39.9 - 40.05) = 0.15) by (rewrite Rabs_left; lra).
  rewrite HaversineFacts.haversine_on_meridian by (rewrite E; lra).
  rewrite E. pose proof HaversineFacts.pi_bounds. split; lra.
Qed.

End HaversineRounding.

(** ** Category inference *)

Section CategoryInference.

(** The counter built from a list of category names. *)
Let countsOf (l : list Category) : Counts :=
  fold_left (fun acc c => bump c acc) l [].

Lemma categoryCounts_countsOf (validItems : list HelpItem.t) :
  categoryCounts validItems = countsOf (map HelpItem.category validItems).
Proof.
  unfold categoryCounts, countsOf.
  generalize (@nil (Category * nat)).
  induction validItems as [|it its IH]; intro acc; simpl; [reflexivity|].
  apply IH.
Qed.

Lemma countsOf_snoc (l : list Category) (c : Category) :
  countsOf (l ++ [c]) = bump c (countsOf l).
Proof. unfold countsOf. rewrite fold_left_app. reflexivity. Qed.

Lemma countOf_bump (c x : Category) (acc : Counts) :
  countOf (bump c acc) x
  = countOf acc x + (if Category_eqb c x then 1 else 0).
Proof.
  induction acc as [|[k n] rest IH]; simpl.
  - destruct (Category_eqb c x); reflexivity.
  - destruct (Category_eqb k c) eqn:Ekc; simpl.
    + apply Category_eqb_eq in Ekc; subst k.
      destruct (Category_eqb c x); lia.
    + destruct (Category_eqb k x) eqn:Ekx.
      * apply Category_eqb_eq in Ekx; subst k.
        rewrite Category_eqb_sym, Ekc. lia.
      * apply IH.
Qed.

Lemma keys_bump (c : Category) (acc : Counts) :
  keys (bump c acc)
  = if existsb (Category_eqb c) (keys acc) then keys acc else keys acc ++ [c].
Proof.
  unfold keys.
  induction acc as [|[k n] rest IH]; simpl; [reflexivity|].
  rewrite (Category_eqb_sym c k).
  destruct (Category_eqb k c); simpl; [reflexivity|].
  rewrite IH.
  destruct (existsb (Category_eqb c) (map fst rest)); reflexivity.
Qed.

Lemma tally_snoc (x c : Category) (l : list Category) :
  tally x (l ++ [c]) = tally x l + (if Category_eqb c x then 1 else 0).
Proof.
  unfold tally. rewrite filter_app, length_app. simpl.
  rewrite (Category_eqb_sym x c).
  destruct (Category_eqb c x); reflexivity.
Qed.

Lemma countOf_countsOf (l : list Category) (x : Category) :
  countOf (countsOf l) x = tally x l.
Proof.
  induction l as [|c l IH] using rev_ind; [reflexivity|].
  rewrite countsOf_snoc, countOf_bump, tally_snoc, IH. reflexivity.
Qed.

Lemma existsb_Category_In (c : Category) (l : list Category) :
  existsb (Category_eqb c) l = true <-> In c l.
Proof.
  rewrite existsb_exists. split.
  - intros [y [Hy E]]. apply Category_eqb_eq in E. subst. exact Hy.
  - intro H. exists c. split; [exact H|apply Category_eqb_refl].
Qed.

Lemma keys_countsOf_In (l : list Category) (x : Category) :
  In x (keys (countsOf l)) <-> In x l.
Proof.
  induction l as [|c l IH] using rev_ind; [simpl; tauto|].
  rewrite countsOf_snoc, keys_bump.
  destruct (existsb (Category_eqb c) (keys (countsOf l))) eqn:E.
  - apply (proj1 (existsb_Category_In c _)) in E. rewrite in_app_iff. simpl.
    rewrite IH. split; [tauto|].
    intros [H|[H|[]]]; [exact H|]. subst. apply (proj1 IH). exact E.
  - rewrite !in_app_iff. rewrite IH. tauto.
Qed.

Lemma tally_pos_In (x : Category) (l : list Category) :
  0 < tally x l <-> In x l.
Proof.
  unfold tally. induction l as [|y l IH]; simpl; [split; [lia|tauto]|].
  destruct (Category_eqb x y) eqn:E; simpl.
  - apply Category_eqb_eq in E. subst. split; [auto|lia].
  - apply Category_eqb_neq in E. rewrite IH. split; [auto|].
    intros [H|H]; [congruence|exact H].
Qed.

Lemma firstIndex_app_In (a : Category) (l m : list Category) :
  In a l -> firstIndex a (l ++ m) = firstIndex a l.
Proof.
  induction l as [|x l IH]; simpl; [tauto|].
  intros [H|H].
  - subst. rewrite Category_eqb_refl. reflexivity.
  - destruct (Category_eqb x a); [reflexivity|]. rewrite IH; auto.
Qed.

Lemma firstIndex_lt_length (a : Category) (l : list Category) :
  In a l -> firstIndex a l < List.length l.
Proof.
  induction l as [|x l IH]; simpl; [tauto|].
  intros [H|H].
  - subst. rewrite Category_eqb_refl. lia.
  - destruct (Category_eqb x a); [lia|]. apply IH in H. lia.
Qed.

Lemma firstIndex_snoc_new (a : Category) (l : list Category) :
  ~ In a l -> firstIndex a (l ++ [a]) = List.length l.
Proof.
  induction l as [|x l IH]; simpl; intro H.
  - rewrite Category_eqb_refl. reflexivity.
  - destruct (Category_eqb x a) eqn:E.
    + apply Category_eqb_eq in E. subst. tauto.
    + rewrite IH; tauto.
Qed.

(** [Object.keys] lists the categories by first occurrence. *)
Lemma keys_countsOf_order (l : list Category) :
  StronglySorted (fun a b => firstIndex a l < firstIndex b l)
                 (keys (countsOf l)).
Proof.
  induction l as [|c l IH] using rev_ind; [constructor|].
  rewrite countsOf_snoc, keys_bump.
  assert (Hold : StronglySorted
                   (fun a b => firstIndex a (l ++ [c]) < firstIndex b (l ++ [c]))
                   (keys (countsOf l))).
  { assert (Hin : forall x, In x (keys (countsOf l)) -> In x l)
      by (intros x Hx; apply (proj1 (keys_countsOf_In l x)); exact Hx).
    revert Hin. induction IH as [|a K HK IHK Hfa]; intro Hin; constructor.
    - apply IHK. intros x Hx. apply Hin. right. exact Hx.
    - rewrite Forall_forall in *. intros b Hb.
      rewrite !firstIndex_app_In.
      + apply Hfa. exact Hb.
      + apply Hin. right. exact Hb.
      + apply Hin. left. reflexivity. }
  destruct (existsb (Category_eqb c) (keys (countsOf l))) eqn:E; [exact Hold|].
  assert (Hc : ~ In c l).
  { intro H. apply (proj2 (keys_countsOf_In l c)) in H.
    apply (proj2 (existsb_Category_In c _)) in H. congruence. }
  assert (Hlast : Forall (fun a => firstIndex a (l ++ [c]) < firstIndex c (l ++ [c]))
                         (keys (countsOf l))).
  { rewrite Forall_forall. intros a Ha.
    apply (proj1 (keys_countsOf_In l a)) in Ha.
    rewrite firstIndex_app_In by exact Ha.
    rewrite firstIndex_snoc_new by exact Hc.
    apply firstIndex_lt_length. exact Ha. }
  clear IH E. induction Hold as [|a K HK IHK Hfa]; simpl.
  - repeat constructor.
  - inversion Hlast; subst. constructor.
    + apply IHK. assumption.
    + apply Forall_app. split; [exact Hfa|]. constructor; [assumption|constructor].
Qed.

(** The reducer keeps the last key of greatest count. *)
Lemma reducer_last_maximum (w : Category -> nat) (ks : list Category) :
  forall (k : Category) (seen : list Category),
    (exists l1 l2, seen = l1 ++ k :: l2
                   /\ (forall x, In x l1 -> w x <= w k)
                   /\ (forall x, In x l2 -> w x < w k)) ->
    let c := fold_left (fun a b => if w b <? w a then a else b) ks k in
    exists l1 l2, seen ++ ks = l1 ++ c :: l2
                  /\ (forall x, In x l1 -> w x <= w c)
                  /\ (forall x, In x l2 -> w x < w c).
Proof.
  induction ks as [|b ks IH]; intros k seen Hinv; simpl.
  - rewrite app_nil_r. exact Hinv.
  - replace (seen ++ b :: ks) with ((seen ++ [b]) ++ ks)
      by (rewrite <- app_assoc; reflexivity).
    apply IH.
    destruct Hinv as (l1 & l2 & Hs & H1 & H2).
    destruct (w b <? w k) eqn:E.
    + apply Nat.ltb_lt in E. exists l1, (l2 ++ [b]). split; [|split].
      * subst seen. rewrite <- app_assoc. reflexivity.
      * exact H1.
      * intros x Hx. apply in_app_iff in Hx. destruct Hx as [Hx|[Hx|[]]].
        -- apply H2; exact Hx.
        -- subst; exact E.
    + apply Nat.ltb_ge in E. exists seen, []. split; [|split].
      * reflexivity.
      * intros x Hx. subst seen. apply in_app_iff in Hx.
        destruct Hx as [Hx|[Hx|Hx]].
        -- apply H1 in Hx. lia.
        -- subst; exact E.
        -- apply H2 in Hx. lia.
      * intros x [].
Qed.

Lemma StronglySorted_split {A : Type} (R : A -> A -> Prop)
      (l1 l2 : list A) (c x : A) :
  StronglySorted R (l1 ++ c :: l2) -> In x l1 -> R x c.
Proof.
  induction l1 as [|y l1 IH]; simpl; [tauto|].
  intros HS [H|H]; inversion HS; subst.
  - rewrite Forall_forall in *. match goal with
    | Hf : forall _, In _ (l1 ++ c :: l2) -> _ |- _ => apply Hf end.
    apply in_app_iff. right. left. reflexivity.
  - apply IH; assumption.
Qed.

(** The inferred category is a most frequent one, and every other
    category with the same count was first met earlier. *)
Lemma inferCategory_spec (validItems : list HelpItem.t) :
  validItems <> [] ->
  let cats := map HelpItem.category validItems in
  exists c,
    inferCategory validItems = Some c
    /\ In c cats
    /\ (forall c', tally c' cats <= tally c cats)
    /\ (forall c', c' <> c -> tally c' cats = tally c cats ->
                   firstIndex c' cats < firstIndex c cats).
Proof.
  intros Hne cats.
  unfold inferCategory, pickCategory.
  rewrite categoryCounts_countsOf. fold cats.
  assert (Hcats : cats <> []).
  { unfold cats. destruct validItems; simpl; congruence. }
  destruct (keys (countsOf cats)) as [|k ks] eqn:EK.
  - exfalso. destruct cats as [|x t]; [congruence|].
    assert (H : In x (keys (countsOf (x :: t))))
      by (apply keys_countsOf_In; left; reflexivity).
    rewrite EK in H. exact H.
  - pose (w := countOf (countsOf cats)).
    destruct (@reducer_last_maximum w ks k [k]) as (l1 & l2 & Hs & H1 & H2).
    { exists [], []. repeat split; intros x []. }
    set (c := fold_left (fun a b => if w b <? w a then a else b) ks k) in *.
    simpl in Hs.
    assert (Hw : forall x, w x = tally x cats)
      by (intro x; apply countOf_countsOf).
    assert (Hkeys : forall x, In x (k :: ks) <-> In x cats)
      by (intro x; rewrite <- EK; apply keys_countsOf_In).
    assert (Hc : In c cats).
    { apply Hkeys. rewrite Hs. apply in_app_iff. right. left. reflexivity. }
    exists c. split; [reflexivity|]. split; [exact Hc|]. split.
    + intro c'. destruct (Category_eqb c' c) eqn:E.
      * apply Category_eqb_eq in E. subst. lia.
      * destruct (Nat.eq_dec (tally c' cats) 0) as [Hz|Hz]; [lia|].
        assert (Hin : In c' (k :: ks)).
        { apply Hkeys. apply tally_pos_In. lia. }
        rewrite Hs in Hin. apply in_app_iff in Hin.
        rewrite <- !Hw.
        destruct Hin as [Hin|[Hin|Hin]].
        -- apply H1; exact Hin.
        -- subst. lia.
        -- apply H2 in Hin. lia.
    + intros c' Hneq Htie.
      assert (Hin : In c' (k :: ks)).
      { apply Hkeys. apply tally_pos_In. rewrite Htie.
        apply tally_pos_In. exact Hc. }
      rewrite Hs in Hin. apply in_app_iff in Hin.
      destruct Hin as [Hin|[Hin|Hin]].
      * pose proof (keys_countsOf_order cats) as HS.
        rewrite EK, Hs in HS.
        exact (@StronglySorted_split _
                 (fun a b => firstIndex a cats < firstIndex b cats)
                 l1 l2 c c' HS Hin).
      * congruence.
      * apply H2 in Hin. rewrite !Hw in Hin. lia.
Qed.

End CategoryInference.

Lemma inferCategory_Some (validItems : list HelpItem.t) (c : Category) :
  inferCategory validItems = Some c ->
  let cats := map HelpItem.category validItems in
  In c cats
  /\ (forall c', tally c' cats <= tally c cats)
  /\ (forall c', c' <> c -> tally c' cats = tally c cats ->
                 firstIndex c' cats < firstIndex c cats).
Proof.
  intros H cats. subst cats.
  destruct (@inferCategory_spec validItems) as (c0 & Hc0 & Hspec).
  - intro E. rewrite E in H. discriminate H.
  - rewrite H in Hc0. injection Hc0 as <-. exact Hspec.
Qed.

Lemma save_Some (now : Time) (r r' : HelpRequest) :
  save now r = Some r' ->
  r' = set_updatedAt now r
  /\ (startDate (availabilityWindow r) < endDate (availabilityWindow r))%Z.
Proof.
  unfold save. destruct (Z.geb_spec (startDate (availabilityWindow r))
                                    (endDate (availabilityWindow r))) as [Hge|Hlt].
  - discriminate.
  - intro Hs. injection Hs as <-. split; [reflexivity|lia].
Qed.

Lemma save_valid (now : Time) (r : HelpRequest) :
  (startDate (availabilityWindow r) < endDate (availabilityWindow r))%Z ->
  save now r = Some (set_updatedAt now r).
Proof.
  intro H. unfold save.
  destruct (Z.geb_spec (startDate (availabilityWindow r))
                       (endDate (availabilityWindow r))) as [Hge|Hlt];
    [lia|reflexivity].
Qed.

(** What a successful creation stores. *)
Lemma createRoute_Saved catalog now newId requester profile body r :
  effect (createRoute catalog now newId requester profile body) = Saved r ->
  exists user coords cat,
    profile = Some user
    /\ User.coordinates user = Some coords
    /\ inferCategory (findActiveItems catalog (map itemId (cItems body)))
       = Some cat
    /\ validateCreate now body = true
    /\ r = set_updatedAt now
             (newHelpRequest now newId requester user coords cat body).
Proof.
  unfold createRoute, createHelpRequest.
  destruct (validateCreate now body) eqn:Ev; simpl; [|discriminate].
  destruct profile as [user|]; simpl; [|discriminate].
  destruct (negb _); simpl; [discriminate|].
  destruct (inferCategory _) as [cat|] eqn:Ei; simpl; [|discriminate].
  destruct (User.coordinates user) as [coords|] eqn:Ec; simpl; [|discriminate].
  destruct (save now _) as [saved|] eqn:Es; simpl; [|discriminate].
  intro Hs. injection Hs as <-.
  apply save_Some in Es. destruct Es as [-> _].
  exists user, coords, cat. repeat split; assumption || reflexivity.
Qed.


(** What a successful update of the item set stores. *)
Lemma updateRoute_items_Saved catalog now user found updates its r :
  uItems updates = Some its ->
  effect (updateRoute catalog now user found updates) = Saved r ->
  exists cat,
    inferCategory (findActiveItems catalog (map itemId its)) = Some cat
    /\ category r = cat.
Proof.
  intros Hits. unfold updateRoute.
  destruct (validateHelpRequestAccess ActEdit user found) as [rep|hr];
    simpl; [discriminate|].
  destruct (negb (validateUpdate now updates)); simpl; [discriminate|].
  unfold updateHelpRequest. rewrite Hits.
  destruct (negb _); simpl; [discriminate|].
  destruct (inferCategory _) as [cat|] eqn:Ei; simpl; [|discriminate].
  destruct (missingDate updates); simpl; [discriminate|].
  destruct (save now _) as [saved|] eqn:Es; simpl; [|discriminate].
  intro Hs. injection Hs as <-.
  apply save_Some in Es. destruct Es as [-> _].
  exists cat. split; reflexivity.
Qed.

(** C9, as the code has it.  On creation and on an update of the item
    set, the stored category is one that occurs most often among the
    categories of the validated catalog items; when several categories
    share the greatest count, the one whose first occurrence comes last
    in the catalog's iteration order is stored.  Three items of
    categories food, food, medical give food. *)
Theorem category_inference_most_common :
  (forall catalog now newId requester profile body r,
      effect (createRoute catalog now newId requester profile body) = Saved r ->
      let cats := map HelpItem.category
                      (findActiveItems catalog (map itemId (cItems body))) in
      In (category r) cats
      /\ (forall c', tally c' cats <= tally (category r) cats)
      /\ (forall c', c' <> category r ->
                     tally c' cats = tally (category r) cats ->
                     firstIndex c' cats < firstIndex (category r) cats))
  /\ (forall catalog now user found updates its r,
         uItems updates = Some its ->
         effect (updateRoute catalog now user found updates) = Saved r ->
         let cats := map HelpItem.category
                         (findActiveItems catalog (map itemId its)) in
         In (category r) cats
         /\ (forall c', tally c' cats <= tally (category r) cats)
         /\ (forall c', c' <> category r ->
                        tally c' cats = tally (category r) cats ->
                        firstIndex c' cats < firstIndex (category r) cats))
  /\ inferCategory [ HelpItem.mk "rice" food true;
                     HelpItem.mk "flour" food true;
                     HelpItem.mk "medicine" medical true ] = Some food.
Proof.
  split; [|split].
  - intros catalog now newId requester profile body r H cats.
    apply createRoute_Saved in H.
    destruct H as (user & coords & cat & _ & _ & Hcat & _ & ->).
    apply inferCategory_Some in Hcat. exact Hcat.
  - intros catalog now user found updates its r Hits H cats.
    destruct (updateRoute_items_Saved _ _ _ _ _ Hits H) as (cat & Hcat & <-).
    apply inferCategory_Some in Hcat. exact Hcat.
  - reflexivity.
Qed.

(** A creation with two food items and one medical item stores food. *)
Lemma category_inference_most_common_witness :
  effect (createRoute scenarioCatalog 1000%Z "req2" "R" (Some recipientR) mixedBody)
  = Saved mixedRequest
  /\ In (category mixedRequest) [food; food; medical]
  /\ (forall c', tally c' [food; food; medical]
                 <= tally (category mixedRequest) [food; food; medical]).
Proof.
  assert (E : effect (createRoute scenarioCatalog 1000%Z "req2" "R"
                                  (Some recipientR) mixedBody)
              = Saved mixedRequest) by (vm_compute; reflexivity).
  split; [exact E|].
  destruct (proj1 category_inference_most_common _ _ _ _ _ _ _ E)
    as (H1 & H2 & _).
  split; [exact H1|exact H2].
Defined.

(** C9 as stated fails on a tie: with one food item met first and one
    medical item met second, both counted once, the stored category is
    medical, the one met last. *)
Lemma category_tie_keeps_last :
  let cats := map HelpItem.category
                  (findActiveItems scenarioCatalog (map itemId (cItems tieBody))) in
  cats = [food; medical]
  /\ tally food cats = tally medical cats
  /\ firstIndex food cats < firstIndex medical cats
  /\ exists r,
       effect (createRoute scenarioCatalog 1000%Z "req3" "R" (Some recipientR)
                           tieBody)
       = Saved r
       /\ category r = medical
       /\ category r <> food.
Proof.
  simpl. split; [reflexivity|]. split; [reflexivity|]. split; [lia|].
  eexists. split; [vm_compute; reflexivity|]. split; [reflexivity|discriminate].
Qed.

(** ** The approve transition *)


Lemma isOwnerOf_true (user : UserId) (r : HelpRequest) :
  isOwnerOf user r = true <-> user = recipientId r.
Proof.
  unfold isOwnerOf. rewrite String.eqb_eq. split; intro H; symmetry; exact H.
Qed.

Lemma isOwnerOf_false (user : UserId) (r : HelpRequest) :
  isOwnerOf user r = false <-> user <> recipientId r.
Proof.
  unfold isOwnerOf. rewrite String.eqb_neq. split; intros H E; apply H;
    symmetry; exact E.
Qed.

Lemma isDonorOf_true (user : UserId) (r : HelpRequest) :
  isDonorOf user r = true <-> donorId r = Some user.
Proof.
  unfold isDonorOf. destruct (donorId r) as [d|].
  - rewrite String.eqb_eq. split; intro H; [subst; reflexivity|congruence].
  - split; discriminate.
Qed.

Lemma Status_eqb_false (a b : Status) : Status_eqb a b = false <-> a <> b.
Proof. destruct a, b; simpl; split; intro H; congruence. Qed.

Lemma approve_Some (now : Time) (donor : UserId) (r r' : HelpRequest) :
  approve now donor r = Some r' ->
  status r' = approved /\ donorId r' = Some donor /\ approvedAt r' = Some now
  /\ completedAt r' = completedAt r /\ recipientId r' = recipientId r.
Proof.
  unfold approve. intro H. apply save_Some in H. destruct H as [-> _].
  repeat split; reflexivity.
Qed.

(** C2.  An approval by the recipient is answered 403 ("cannot approve
    own") whatever the status; an approval by anyone else of a request
    that is not open is answered 400 ("already approved"), the
    conflict reply; an approval that succeeds stores status approved,
    the actor as donor and the clock reading as approvedAt; and the
    approval of an open request by another user does succeed. *)
Theorem approve_contract :
  forall (now : Time) (actor : UserId) (r : HelpRequest),
    (actor = recipientId r ->
     approveRoute now actor (Some r)
     = respond (failure 403 Messages.CANNOT_APPROVE_OWN))
    /\ (actor <> recipientId r -> status r <> open ->
        approveRoute now actor (Some r)
        = respond (failure 400 Messages.ALREADY_APPROVED))
    /\ (success (reply (approveRoute now actor (Some r))) = true ->
        exists r',
          effect (approveRoute now actor (Some r)) = Saved r'
          /\ status r' = approved
          /\ donorId r' = Some actor
          /\ approvedAt r' = Some now)
    /\ (actor <> recipientId r -> status r = open ->
        (startDate (availabilityWindow r) < endDate (availabilityWindow r))%Z ->
        success (reply (approveRoute now actor (Some r))) = true).
Proof.
  intros now actor r. unfold approveRoute, validateHelpRequestAccess.
  split; [|split; [|split]].
  - intro H. apply isOwnerOf_true in H. rewrite H. reflexivity.
  - intros Ho Hs. apply isOwnerOf_false in Ho. rewrite Ho.
    apply Status_eqb_false in Hs. rewrite Hs. reflexivity.
  - destruct (isOwnerOf actor r); simpl; [discriminate|].
    destruct (Status_eqb (status r) open); simpl; [|discriminate].
    unfold approveHelpRequest.
    destruct (approve now actor r) as [saved|] eqn:Ea; simpl; [|discriminate].
    intros _. exists saved. apply approve_Some in Ea.
    destruct Ea as (H1 & H2 & H3 & _). repeat split; assumption.
  - intros Ho Hs Hw. apply isOwnerOf_false in Ho. rewrite Ho.
    rewrite Hs. simpl. unfold approveHelpRequest, approve.
    rewrite save_valid by exact Hw. reflexivity.
Qed.

(** D approves R's open request at 2000. *)
Lemma approve_contract_witness :
  "D" <> recipientId scenarioRequest
  /\ status scenarioRequest = open
  /\ success (reply (approveRoute 2000%Z "D" (Some scenarioRequest))) = true
  /\ exists r',
       effect (approveRoute 2000%Z "D" (Some scenarioRequest)) = Saved r'
       /\ status r' = approved
       /\ donorId r' = Some "D"
       /\ approvedAt r' = Some 2000%Z.
Proof.
  assert (Hne : "D" <> recipientId scenarioRequest) by (simpl; discriminate).
  assert (Hopen : status scenarioRequest = open) by reflexivity.
  assert (Hw : (startDate (availabilityWindow scenarioRequest)
                < endDate (availabilityWindow scenarioRequest))%Z)
    by (simpl; lia).
  destruct (approve_contract 2000%Z "D" scenarioRequest) as (_ & _ & H3 & H4).
  pose proof (H4 Hne Hopen Hw) as Hok.
  split; [exact Hne|]. split; [exact Hopen|]. split; [exact Hok|].
  exact (H3 Hok).
Defined.

(** ** The edit and delete transitions *)

Lemma scenario_approval :
  approveRoute 2000%Z "D" (Some scenarioRequest)
  = mkOutcome (mkReply 200 true Messages.HELP_REQUEST_APPROVED)
              (Saved approvedRequest).
Proof. vm_compute. reflexivity. Qed.

Lemma scenario_completion :
  completeRoute 3000%Z "D" (Some approvedRequest)
  = mkOutcome (mkReply 200 true "Help request marked as completed")
              (Saved completedRequest).
Proof. vm_compute. reflexivity. Qed.

(** The guard of the edit and delete routes lets exactly the owner
    through, whatever the status. *)
Lemma edit_access_owner_only (user : UserId) (r : HelpRequest) :
  validateHelpRequestAccess ActEdit user (Some r)
  = if String.eqb (recipientId r) user
    then inr r
    else inl (failure 403 "You can only edit your own help requests").
Proof.
  unfold validateHelpRequestAccess, isOwnerOf.
  destruct (String.eqb (recipientId r) user); reflexivity.
Qed.

(** An edit by anyone but the recipient is answered 403 and writes
    nothing. *)
Lemma edit_by_other_forbidden catalog now (user : UserId) (r : HelpRequest)
      (updates : UpdateBody) :
  user <> recipientId r ->
  updateRoute catalog now user (Some r) updates
  = respond (failure 403 "You can only edit your own help requests").
Proof.
  intro H. unfold updateRoute. rewrite edit_access_owner_only.
  apply isOwnerOf_false in H. unfold isOwnerOf in H. rewrite H. reflexivity.
Qed.

Lemma assignUpdates_window (updates : UpdateBody) (cat : option Category)
      (r : HelpRequest) :
  availabilityWindow (assignUpdates updates cat r)
  = match uWindow updates with
    | Some w => match patchedWindow w with
                | Some aw => aw
                | None => availabilityWindow r
                end
    | None => availabilityWindow r
    end.
Proof.
  unfold assignUpdates, assignWhen.
  destruct cat, (uWindow updates) as [w|]; [destruct (patchedWindow w)| |
                                            destruct (patchedWindow w)|];
    destruct (uPriority updates), (uItems updates),
      (uDescription updates), (uTitle updates); reflexivity.
Qed.

(** A window that passed the validator and carries both dates is
    well-formed, so the edited document passes the save hook when the
    stored one did. *)
Lemma assignUpdates_windowValid (now : Time) (updates : UpdateBody)
      (cat : option Category) (r : HelpRequest) :
  validateUpdate now updates = true ->
  windowValid r ->
  windowValid (assignUpdates updates cat r).
Proof.
  unfold windowValid. intros Hv Hw. rewrite assignUpdates_window.
  unfold validateUpdate in Hv. apply andb_true_iff in Hv.
  destruct Hv as [_ Hv].
  destruct (uWindow updates) as [w|]; simpl in *; [|exact Hw].
  unfold patchedWindow. unfold validWindowPatch in Hv.
  apply andb_true_iff in Hv. destruct Hv as [_ Hv].
  destruct (pStartDate w) as [s|]; [|exact Hw].
  destruct (pEndDate w) as [e|]; [|exact Hw].
  simpl. apply Z.ltb_lt in Hv. exact Hv.
Qed.

(** The owner's edit is stored whatever the status: a valid body that
    does not replace the items and whose window, if any, carries both
    dates is assigned and saved. *)
Lemma owner_edit_ignores_status catalog (now : Time) (r : HelpRequest)
      (patch : UpdateBody) :
  uItems patch = None ->
  validateUpdate now patch = true ->
  missingDate patch = false ->
  (startDate (availabilityWindow r) < endDate (availabilityWindow r))%Z ->
  updateRoute catalog now (recipientId r) (Some r) patch
  = mkOutcome (mkReply 200 true "Help request updated successfully")
              (Saved (set_updatedAt now (assignUpdates patch None r))).
Proof.
  intros Hitems Hv Hm Hw. unfold updateRoute.
  rewrite edit_access_owner_only, String.eqb_refl, Hv. cbn [negb].
  unfold updateHelpRequest. rewrite Hitems, Hm.
  rewrite save_valid; [reflexivity|].
  exact (@assignUpdates_windowValid now patch None r Hv Hw).
Qed.

(** C5 at the failing input.  The owner's edit of a request that is
    already approved is neither refused nor a no-op: the route answers
    200 and stores the new title, although [canModifyRequest] (the
    [canEdit] flag sent to the same user) is false for it.  The same
    happens on the completed request. *)
Theorem edit_of_approved_request_is_stored :
  status approvedRequest = approved
  /\ canModifyRequest "R" approvedRequest = false
  /\ updateRoute scenarioCatalog 2500%Z "R" (Some approvedRequest) titlePatch
     = mkOutcome (mkReply 200 true "Help request updated successfully")
                 (Saved (set_updatedAt 2500%Z
                           (set_title "Need rice and flour soon" approvedRequest)))
  /\ updateRoute scenarioCatalog 3500%Z "R" (Some completedRequest) titlePatch
     = mkOutcome (mkReply 200 true "Help request updated successfully")
                 (Saved (set_updatedAt 3500%Z
                           (set_title "Need rice and flour soon" completedRequest))).
Proof. repeat split; vm_compute; reflexivity. Qed.

(** A delete by anyone but the recipient is answered 403; a delete of
    an approved request is answered 400; neither removes anything. *)
Lemma delete_guards (user : UserId) (r : HelpRequest) :
  (user <> recipientId r ->
   deleteRoute user (Some r)
   = respond (failure 403 "You can only edit your own help requests"))
  /\ (user = recipientId r -> status r = approved ->
      deleteRoute user (Some r)
      = respond (failure 400
           "Cannot delete approved help requests. Contact admin if needed."))
  /\ (effect (deleteRoute user (Some r)) = Removed ->
      user = recipientId r /\ status r <> approved).
Proof.
  unfold deleteRoute. rewrite edit_access_owner_only.
  split; [|split].
  - intro H. apply isOwnerOf_false in H. unfold isOwnerOf in H.
    rewrite H. reflexivity.
  - intros H Hs. apply isOwnerOf_true in H. unfold isOwnerOf in H.
    rewrite H. unfold deleteHelpRequest. rewrite Hs. reflexivity.
  - destruct (String.eqb (recipientId r) user) eqn:E; simpl; [|discriminate].
    unfold deleteHelpRequest.
    destruct (Status_eqb (status r) approved) eqn:Es; simpl; [discriminate|].
    intros _. split.
    + apply String.eqb_eq in E. symmetry. exact E.
    + apply Status_eqb_false. exact Es.
Qed.

(** The owner's delete removes the request in every status but
    approved. *)
Lemma owner_delete_unless_approved (r : HelpRequest) :
  status r <> approved ->
  deleteRoute (recipientId r) (Some r)
  = mkOutcome (mkReply 200 true "Help request deleted successfully") Removed.
Proof.
  intro Hs. unfold deleteRoute.
  rewrite edit_access_owner_only, String.eqb_refl.
  unfold deleteHelpRequest. apply Status_eqb_false in Hs. rewrite Hs.
  reflexivity.
Qed.

(** C7 at the failing input.  The owner's delete of a completed request
    is answered 200 and removes the document. *)
Theorem delete_of_completed_request_removes_it :
  status completedRequest = completed
  /\ recipientId completedRequest = "R"
  /\ deleteRoute "R" (Some completedRequest)
     = mkOutcome (mkReply 200 true "Help request deleted successfully") Removed.
Proof. repeat split. Qed.

(** ** The rate operation *)


(** C6, as the code has it.  A rating that succeeds was sent for a
    completed request by its recipient or its donor; on another status
    the answer is 400, for another actor on a completed request it is
    403; and a successful call writes the caller's own slot: the
    recipient's call fills [rating.recipientRating] and leaves
    [rating.donorRating] as it was, the donor's call fills
    [rating.donorRating] and leaves [rating.recipientRating] as it
    was. *)
Theorem rate_contract :
  forall (now : Time) (actor : UserId) (r : HelpRequest)
         (stars_ : Q) (comment_ : option string),
    validateRate stars_ comment_ = true ->
    let out := rateRoute now actor (Some r) stars_ comment_ in
    let data := mkRatingData stars_
                  (match comment_ with Some c => c | None => "" end) now in
    (success (reply out) = true ->
     status r = completed /\ (actor = recipientId r \/ donorId r = Some actor))
    /\ (status r <> completed ->
        out = respond (failure 400 "Can only rate completed help requests"))
    /\ (status r = completed -> actor <> recipientId r ->
        donorId r <> Some actor ->
        out = respond (failure 403
                         "Only recipient and donor can rate this request"))
    /\ (status r = completed -> actor = recipientId r ->
        (startDate (availabilityWindow r) < endDate (availabilityWindow r))%Z ->
        exists r',
          out = mkOutcome (mkReply 200 true "Rating submitted successfully")
                          (Saved r')
          /\ recipientRating (rating r') = Some data
          /\ donorRating (rating r') = donorRating (rating r))
    /\ (status r = completed -> actor <> recipientId r ->
        donorId r = Some actor ->
        (startDate (availabilityWindow r) < endDate (availabilityWindow r))%Z ->
        exists r',
          out = mkOutcome (mkReply 200 true "Rating submitted successfully")
                          (Saved r')
          /\ donorRating (rating r') = Some data
          /\ recipientRating (rating r') = recipientRating (rating r)).
Proof.
  intros now actor r stars_ comment_ Hv out data. subst out.
  unfold rateRoute. rewrite Hv. simpl. unfold rateHelpRequest.
  split; [|split; [|split; [|split]]].
  - destruct (Status_eqb (status r) completed) eqn:Es; simpl; [|discriminate].
    apply Status_eqb_eq in Es.
    destruct (isOwnerOf actor r) eqn:Eo; simpl.
    + intros _. split; [exact Es|]. left. apply isOwnerOf_true. exact Eo.
    + destruct (isDonorOf actor r) eqn:Ed; simpl; [|discriminate].
      intros _. split; [exact Es|]. right. apply isDonorOf_true. exact Ed.
  - intro Hs. apply Status_eqb_false in Hs. rewrite Hs. reflexivity.
  - intros Hs Ho Hd. apply Status_eqb_eq in Hs. rewrite Hs. simpl.
    apply isOwnerOf_false in Ho. rewrite Ho.
    destruct (isDonorOf actor r) eqn:Ed; [|reflexivity].
    apply isDonorOf_true in Ed. contradiction.
  - intros Hs Ho Hw. apply Status_eqb_eq in Hs. rewrite Hs. simpl.
    apply isOwnerOf_true in Ho. rewrite Ho. simpl.
    rewrite save_valid by exact Hw.
    eexists. split; [reflexivity|]. split; reflexivity.
  - intros Hs Ho Hd Hw. apply Status_eqb_eq in Hs. rewrite Hs. simpl.
    apply isOwnerOf_false in Ho. rewrite Ho.
    apply isDonorOf_true in Hd. rewrite Hd. simpl.
    rewrite save_valid by exact Hw.
    eexists. split; [reflexivity|]. split; reflexivity.
Qed.

(** R rates the completed scenario request with five stars at 4000. *)
Lemma rate_contract_witness :
  validateRate 5%Q None = true
  /\ status completedRequest = completed
  /\ "R" = recipientId completedRequest
  /\ exists r',
       rateRoute 4000%Z "R" (Some completedRequest) 5%Q None
       = mkOutcome (mkReply 200 true "Rating submitted successfully") (Saved r')
       /\ recipientRating (rating r') = Some (mkRatingData 5%Q "" 4000%Z)
       /\ donorRating (rating r') = donorRating (rating completedRequest).
Proof.
  assert (Hv : validateRate 5%Q None = true) by reflexivity.
  assert (Hs : status completedRequest = completed) by reflexivity.
  assert (Ho : "R" = recipientId completedRequest) by reflexivity.
  assert (Hw : (startDate (availabilityWindow completedRequest)
                < endDate (availabilityWindow completedRequest))%Z)
    by (simpl; lia).
  split; [exact Hv|]. split; [exact Hs|]. split; [exact Ho|].
  destruct (rate_contract 4000%Z "R" completedRequest 5%Q None Hv)
    as (_ & _ & _ & H4 & _).
  exact (H4 Hs Ho Hw).
Defined.

(** C6 as stated fails: the recipient's rating of the completed
    scenario request lands in [rating.recipientRating], and
    [rating.donorRating] stays empty. *)
Lemma recipient_rating_fills_recipient_slot :
  exists r',
    effect (rateRoute 4000%Z "R" (Some completedRequest) 5%Q None) = Saved r'
    /\ recipientId completedRequest = "R"
    /\ donorRating (rating r') = None
    /\ recipientRating (rating r') = Some (mkRatingData 5%Q "" 4000%Z).
Proof.
  eexists. split; [vm_compute; reflexivity|]. repeat split.
Qed.

(** ** State-machine safety *)

Ltac destruct_innermost x :=
  lazymatch x with
  | context [match ?y with _ => _ end] => destruct_innermost y
  | _ => let E := fresh "E" in destruct x eqn:E
  end.

Ltac cases_in H :=
  repeat (simpl in H;
          match type of H with
          | context [match ?x with _ => _ end] => destruct_innermost x
          end).

Ltac cases_goal :=
  repeat (simpl;
          match goal with
          | |- context [match ?x with _ => _ end] => destruct_innermost x
          end).

Ltac unfold_routes_in H :=
  unfold runOp, updateRoute, approveRoute, completeRoute, deleteRoute,
    addNoteRoute, markInterest, rateRoute, flagRoute, getHelpRequest,
    updateHelpRequest, approveHelpRequest, completeHelpRequest,
    deleteHelpRequest, addNoteHandler, rateHelpRequest, flagHelpRequest,
    validateHelpRequestAccess, markInterested, approve, complete, addNote,
    flag, incrementViews, save, applyEffect, respond, serverError in H.


Ltac same_lifecycle :=
  left; unfold sameLifecycle, assignUpdates, assignWhen; cases_goal;
  repeat split; reflexivity.

(** What an operation stores is the old lifecycle, or a successful
    approval of an open request, or a successful completion of an
    approved one. *)
Lemma runOp_Saved catalog (now : Time) (op : Op) (r r' : HelpRequest) :
  effect (runOp catalog now op r) = Saved r' ->
  sameLifecycle r r'
  \/ (status r = open /\ status r' = approved
      /\ (exists d, donorId r' = Some d /\ d <> recipientId r)
      /\ approvedAt r' = Some now /\ completedAt r' = completedAt r)
  \/ (status r = approved /\ status r' = completed
      /\ donorId r' = donorId r /\ approvedAt r' = approvedAt r
      /\ completedAt r' = Some now).
Proof.
  intro H. destruct op; unfold_routes_in H; cases_in H;
    try discriminate H; injection H as <-; try same_lifecycle.
  - (* a successful approval *)
    right. left. simpl.
    match goal with
    | Hs : negb (Status_eqb (status r) open) = false |- _ =>
        apply negb_false_iff in Hs; apply Status_eqb_eq in Hs
    end.
    repeat split; try assumption.
    exists actor. split; [reflexivity|].
    match goal with
    | Ho : isOwnerOf actor r = false |- _ => apply isOwnerOf_false in Ho; exact Ho
    end.
  - (* a successful completion *)
    right; right; simpl.
    match goal with
    | Hs : negb (Status_eqb (status r) approved) = false |- _ =>
        apply negb_false_iff in Hs; apply Status_eqb_eq in Hs
    end.
    repeat split; assumption.
Qed.

Lemma runOp_lifecycle catalog (now : Time) (op : Op) (r r' : HelpRequest) :
  applyEffect r (effect (runOp catalog now op r)) = Some r' ->
  sameLifecycle r r'
  \/ (status r = open /\ status r' = approved
      /\ (exists d, donorId r' = Some d /\ d <> recipientId r)
      /\ approvedAt r' = Some now /\ completedAt r' = completedAt r)
  \/ (status r = approved /\ status r' = completed
      /\ donorId r' = donorId r /\ approvedAt r' = approvedAt r
      /\ completedAt r' = Some now).
Proof.
  destruct (effect (runOp catalog now op r)) as [|saved|] eqn:E; simpl; intro H.
  - injection H as <-. left. repeat split; reflexivity.
  - injection H as <-. exact (runOp_Saved _ _ _ _ E).
  - discriminate H.
Qed.

Lemma created_is_open catalog now newId requester profile body r :
  effect (createRoute catalog now newId requester profile body) = Saved r ->
  status r = open /\ donorId r = None /\ approvedAt r = None
  /\ completedAt r = None /\ recipientId r = requester.
Proof.
  intro H. apply createRoute_Saved in H.
  destruct H as (user & coords & cat & _ & _ & _ & _ & ->).
  repeat split; reflexivity.
Qed.

Lemma step_preserves_safety catalog (now : Time) (op : Op) (r r' : HelpRequest) :
  stateMachineSafe r ->
  approvedBy now r ->
  applyEffect r (effect (runOp catalog now op r)) = Some r' ->
  stateMachineSafe r' /\ approvedBy now r'.
Proof.
  intros (Hopen & Hdonor & Hdone) Hclock Hstep.
  apply runOp_lifecycle in Hstep.
  destruct Hstep as [(Hs & Hd & Ha & Hc)
                    |[(Hs & Hs' & (d & Hd & _) & Ha & Hc)
                     |(Hs & Hs' & Hd & Ha & Hc)]].
  - unfold stateMachineSafe, approvedBy.
    rewrite Hs, Hd, Ha, Hc. repeat split; try assumption;
      try (apply Hdonor; assumption).
  - split.
    + unfold stateMachineSafe. rewrite Hs', Hd, Ha.
      repeat split; discriminate.
    + intros a E. rewrite Ha in E. injection E as <-. lia.
  - destruct (Hdonor (or_introl Hs)) as [Hd0 Ha0].
    split.
    + unfold stateMachineSafe. rewrite Hs', Hd, Ha, Hc.
      split; [discriminate|]. split; [intros _; split; assumption|].
      intros _. destruct (approvedAt r) as [a|] eqn:Ea; [|congruence].
      exists a, now. repeat split. apply Hclock. exact Ea.
    + unfold approvedBy. rewrite Ha. exact Hclock.
Qed.

Lemma approvedBy_mono (t t' : Time) (r : HelpRequest) :
  (t <= t')%Z -> approvedBy t r -> approvedBy t' r.
Proof. intros Hle H a Ha. apply H in Ha. lia. Qed.

(** The lifecycle fields after an account deletion: a request whose
    donor was deleted is open again without donor and approval time;
    any other request keeps its lifecycle.  The completion time is
    kept in both cases. *)
Lemma afterAccountDeletion_lifecycle (now : Time) (user : UserId)
      (r : HelpRequest) :
  let r' := afterAccountDeletion now user r in
  (isDonorOf user r = true
   /\ status r' = open /\ donorId r' = None /\ approvedAt r' = None
   /\ completedAt r' = completedAt r)
  \/ (isDonorOf user r = false /\ sameLifecycle r r').
Proof.
  unfold afterAccountDeletion, removeReferences, removeDonor, sameLifecycle.
  destruct (isDonorOf user r); simpl; [left|right]; repeat split; reflexivity.
Qed.

Lemma deletion_preserves_safety (now : Time) (user : UserId)
      (r : HelpRequest) :
  stateMachineSafe r ->
  approvedBy now r ->
  stateMachineSafe (afterAccountDeletion now user r)
  /\ approvedBy now (afterAccountDeletion now user r).
Proof.
  intros (Hopen & Hdonor & Hdone) Hclock.
  destruct (afterAccountDeletion_lifecycle now user r)
    as [(_ & Hs & Hd & Ha & _)|(_ & Hs & Hd & Ha & Hc)].
  - split.
    + unfold stateMachineSafe. rewrite Hs, Hd.
      split; [reflexivity|]. split.
      * intros [E|E]; discriminate.
      * discriminate.
    + intros a E. congruence.
  - unfold stateMachineSafe, approvedBy.
    rewrite Hs, Hd, Ha, Hc. repeat split; try assumption;
      try (apply Hdonor; assumption).
Qed.

Lemma reachable_invariant (t : Time) (r : HelpRequest) :
  reachable t r -> stateMachineSafe r /\ approvedBy t r.
Proof.
  induction 1 as [catalog now newId requester profile body r Hc
                 |catalog t now op r r' Hr IH Hle Hstep
                 |t now user r Hr IH Hle Hact Hrec].
  3:{ destruct IH as [Hsafe Hclock].
      apply deletion_preserves_safety; [exact Hsafe|].
      eapply approvedBy_mono; [exact Hle|exact Hclock]. }
  - apply created_is_open in Hc. destruct Hc as (Hs & Hd & Ha & Hc & _).
    split.
    + unfold stateMachineSafe. rewrite Hs, Hd.
      split; [reflexivity|]. split.
      * intros [E|E]; discriminate.
      * discriminate.
    + intros a E. congruence.
  - destruct IH as [Hsafe Hclock].
    eapply step_preserves_safety; [exact Hsafe| |exact Hstep].
    eapply approvedBy_mono; [exact Hle|exact Hclock].
Qed.

(** C10.  A request that was created through the creation route and
    then went through any sequence of the exposed operations (edit,
    approve, complete, delete, add note, mark interested, rate, flag,
    view) and of account deletions of other users, under a clock that
    never runs backwards, satisfies the safety invariant: open implies no donor; approved or completed
    implies a donor and an approval time; completed implies a
    completion time not before the approval time.  A creation
    establishes the invariant and every operation preserves it. *)
Theorem state_machine_safety :
  (forall (t : Time) (r : HelpRequest), reachable t r -> stateMachineSafe r)
  /\ (forall catalog now newId requester profile body r,
         effect (createRoute catalog now newId requester profile body) = Saved r ->
         stateMachineSafe r)
  /\ (forall catalog (now : Time) (op : Op) (r r' : HelpRequest),
         stateMachineSafe r ->
         approvedBy now r ->
         applyEffect r (effect (runOp catalog now op r)) = Some r' ->
         stateMachineSafe r').
Proof.
  split; [|split].
  - intros t r H. eapply reachable_invariant. exact H.
  - intros catalog now newId requester profile body r H.
    apply (@reachable_invariant now r).
    eapply reach_create. exact H.
  - intros catalog now op r r' Hs Hc H.
    eapply step_preserves_safety; [exact Hs|exact Hc|exact H].
Qed.

(** The scenario's request is reachable in each of its three states. *)
Lemma scenario_reachable :
  reachable 1000%Z scenarioRequest
  /\ reachable 2000%Z approvedRequest
  /\ reachable 3000%Z completedRequest.
Proof.
  assert (H1 : reachable 1000%Z scenarioRequest).
  { eapply reach_create with (catalog := scenarioCatalog) (newId := "req1")
      (requester := "R") (profile := Some recipientR) (body := scenarioBody).
    rewrite scenario_creation. reflexivity. }
  assert (H2 : reachable 2000%Z approvedRequest).
  { eapply reach_op with (catalog := scenarioCatalog) (op := OpApprove "D");
      [exact H1|lia|].
    unfold runOp. rewrite scenario_approval. reflexivity. }
  split; [exact H1|]. split; [exact H2|].
  eapply reach_op with (catalog := scenarioCatalog) (op := OpComplete "D");
    [exact H2|lia|].
  unfold runOp. rewrite scenario_completion. reflexivity.
Qed.

Lemma state_machine_safety_witness :
  reachable 3000%Z completedRequest /\ stateMachineSafe completedRequest.
Proof.
  pose proof (proj2 (proj2 scenario_reachable)) as H.
  split; [exact H|].
  exact (proj1 state_machine_safety 3000%Z completedRequest H).
Defined.

(** ** Lists: sorting, paging *)

Section Sorting.

Context {A : Type} (leb : A -> A -> bool).

Lemma In_insertBy (x a : A) (l : list A) :
  In x (insertBy leb a l) <-> x = a \/ In x l.
Proof.
  induction l as [|y t IH]; simpl.
  - split; intros [H|H]; auto.
  - destruct (leb a y); simpl.
    + split; intros [H|H]; auto.
    + rewrite IH. split; intros [H|[H|H]]; auto.
Qed.

Lemma In_sortBy (x : A) (l : list A) : In x (sortBy leb l) <-> In x l.
Proof.
  induction l as [|a t IH]; simpl; [tauto|].
  rewrite In_insertBy, IH. split; intros [H|H]; auto.
Qed.

Lemma Permutation_insertBy (a : A) (l : list A) :
  Permutation (insertBy leb a l) (a :: l).
Proof.
  induction l as [|y t IH]; simpl; [reflexivity|].
  destruct (leb a y); [reflexivity|].
  rewrite IH. apply perm_swap.
Qed.

Lemma Permutation_sortBy (l : list A) : Permutation (sortBy leb l) l.
Proof.
  induction l as [|a t IH]; simpl; [reflexivity|].
  rewrite Permutation_insertBy. constructor. exact IH.
Qed.

Lemma length_sortBy (l : list A) :
  List.length (sortBy leb l) = List.length l.
Proof. apply Permutation_length, Permutation_sortBy. Qed.

Hypothesis leb_total : forall a b, leb a b = false -> leb b a = true.

Lemma Sorted_insertBy (a : A) (l : list A) :
  Sorted (fun x y => leb x y = true) l ->
  Sorted (fun x y => leb x y = true) (insertBy leb a l).
Proof.
  induction l as [|y t IH]; simpl; intro HS.
  - repeat constructor.
  - destruct (leb a y) eqn:E.
    + constructor; [exact HS|]. constructor. exact E.
    + inversion HS as [|? ? HSt Hhd]; subst.
      constructor; [apply IH; exact HSt|].
      destruct t as [|z t']; simpl.
      * constructor. apply leb_total. exact E.
      * destruct (leb a z); constructor.
        -- apply leb_total. exact E.
        -- inversion Hhd; subst. assumption.
Qed.

Lemma Sorted_sortBy (l : list A) :
  Sorted (fun x y => leb x y = true) (sortBy leb l).
Proof.
  induction l as [|a t IH]; simpl; [constructor|].
  apply Sorted_insertBy. exact IH.
Qed.

End Sorting.

Lemma In_firstn {A : Type} (n : nat) (l : list A) (x : A) :
  In x (firstn n l) -> In x l.
Proof.
  intro H. rewrite <- (firstn_skipn n l). apply in_or_app. left. exact H.
Qed.

Lemma In_skipn {A : Type} (n : nat) (l : list A) (x : A) :
  In x (skipn n l) -> In x l.
Proof.
  intro H. rewrite <- (firstn_skipn n l). apply in_or_app. right. exact H.
Qed.

Lemma In_slice {A : Type} (from to : nat) (l : list A) (x : A) :
  In x (slice from to l) -> In x l.
Proof. unfold slice. intro H. apply In_firstn, In_skipn in H. exact H. Qed.

Lemma Sorted_skipn {A : Type} (R : A -> A -> Prop) (n : nat) (l : list A) :
  Sorted R l -> Sorted R (skipn n l).
Proof.
  revert l. induction n as [|n IH]; intros l HS; [exact HS|].
  destruct l as [|a t]; simpl; [constructor|].
  apply IH. inversion HS; assumption.
Qed.

Lemma Sorted_firstn {A : Type} (R : A -> A -> Prop) (n : nat) (l : list A) :
  Sorted R l -> Sorted R (firstn n l).
Proof.
  revert l. induction n as [|n IH]; intros l HS; simpl; [constructor|].
  destruct l as [|a t]; [constructor|].
  inversion HS as [|? ? HSt Hhd]; subst.
  constructor; [apply IH; exact HSt|].
  destruct n; simpl; [constructor|].
  destruct t; [constructor|]. inversion Hhd; subst. constructor. assumption.
Qed.

(** The store's order is total. *)
Lemma storeOrder_total (svc : Services) (a b : HelpRequest) :
  storeOrder svc a b = false -> storeOrder svc b a = true.
Proof.
  unfold storeOrder. intro H.
  apply orb_false_iff in H. destruct H as [H1 H2].
  apply Z.ltb_ge in H1.
  destruct (Z.ltb_spec (priorityRank svc (priority a))
                       (priorityRank svc (priority b))) as [Hlt|Hge];
    [reflexivity|].
  simpl. assert (E : priorityRank svc (priority a) = priorityRank svc (priority b))
    by lia.
  rewrite E in H2 |- *. rewrite Z.eqb_refl in H2 |- *. simpl in *.
  apply Z.leb_gt in H2. apply Z.leb_le. lia.
Qed.

(** What the store returns is a run of its sorted matches. *)
Lemma findPage_In (svc : Services) (q : Query) (lim skip : nat)
      (docs : list HelpRequest) (r : HelpRequest) :
  In r (findPage svc q lim skip docs) -> In r docs /\ matches svc q r = true.
Proof.
  unfold findPage. intro H.
  apply In_firstn, In_skipn in H. apply In_sortBy in H.
  apply filter_In in H. exact H.
Qed.

Lemma findPage_Sorted (svc : Services) (q : Query) (lim skip : nat)
      (docs : list HelpRequest) :
  Sorted (fun a b => storeOrder svc a b = true) (findPage svc q lim skip docs).
Proof.
  unfold findPage. apply Sorted_firstn, Sorted_skipn, Sorted_sortBy.
  apply storeOrder_total.
Qed.

Lemma findPage_length (svc : Services) (q : Query) (lim skip : nat)
      (docs : list HelpRequest) :
  List.length (findPage svc q lim skip docs) <= lim.
Proof. unfold findPage. apply firstn_le_length. Qed.

Lemma matches_unexpired (svc : Services) (q : Query) (r : HelpRequest) :
  matches svc q r = true -> (endDateGt q < endDate (availabilityWindow r))%Z.
Proof.
  unfold matches. intro H. apply andb_true_iff in H. destruct H as [_ H].
  apply Z.gtb_lt in H. exact H.
Qed.

(** ** The nearby listing *)

(** Every listed element is a stored document that matched the query,
    decorated by [addExtras]. *)
Lemma listed_from_store (svc : Services) (now : Time) (caller : option UserId)
      (profile : option User.t) (q : ListQuery) (docs : list HelpRequest)
      (x : ListedRequest) :
  In x (requests (getHelpRequests svc now caller profile q docs)) ->
  let o := resolveOrigin caller profile q in
  exists r,
    In r docs
    /\ matches svc (buildQuery now caller o q) r = true
    /\ x = addExtras svc o q r
    /\ (strictRadius o q = true ->
        Qle_bool (toNumber (distance x)) (radius q) = true).
Proof.
  intros H o. unfold getHelpRequests in H. fold o in H.
  set (fetched := findPage svc (buildQuery now caller o q) (limit q)
                           ((page q - 1) * limit q) docs) in H.
  set (withExtras := map (addExtras svc o q) fetched) in H.
  set (filtered := if strictRadius o q
                   then filter (fun x => Qle_bool (toNumber (distance x)) (radius q))
                               withExtras
                   else withExtras) in H.
  set (sorted := if hasUserLocation o then sortBy byDistance filtered
                 else filtered) in H.
  assert (Hsorted : In x sorted).
  { destruct (strictRadius o q); simpl in H; [apply In_slice in H|]; exact H. }
  assert (Hfiltered : In x filtered).
  { unfold sorted in Hsorted. destruct (hasUserLocation o);
      [apply In_sortBy in Hsorted|]; exact Hsorted. }
  assert (Hextras : In x withExtras
                    /\ (strictRadius o q = true ->
                        Qle_bool (toNumber (distance x)) (radius q) = true)).
  { unfold filtered in Hfiltered. destruct (strictRadius o q).
    - apply filter_In in Hfiltered. destruct Hfiltered as [Hin Hle].
      split; [exact Hin|intros _; exact Hle].
    - split; [exact Hfiltered|discriminate]. }
  destruct Hextras as [Hextras Hstrict].
  unfold withExtras in Hextras. apply in_map_iff in Hextras.
  destruct Hextras as (r & Hx & Hr).
  apply findPage_In in Hr. destruct Hr as [Hdocs Hm].
  exists r. repeat split; auto.
Qed.

Lemma validateFilters_radius (q : ListQuery) :
  validateFilters q = true -> (1 <= radius q)%Q /\ (radius q <= 100)%Q.
Proof.
  unfold validateFilters, inRange. intro H.
  repeat (apply andb_true_iff in H; destruct H as [H ?]).
  repeat match goal with
         | Hq : Qle_bool _ _ = true |- _ => apply Qle_bool_iff in Hq
         | Hq : (_ && _)%bool = true |- _ =>
             apply andb_true_iff in Hq; destruct Hq
         end.
  split; assumption.
Qed.

Lemma truthy_radius (q : ListQuery) :
  validateFilters q = true -> truthy (Some (radius q)) = true.
Proof.
  intro H. apply validateFilters_radius in H. destruct H as [H _].
  simpl. apply negb_true_iff.
  destruct (Qeq_bool (radius q) 0) eqn:E; [|reflexivity].
  apply Qeq_bool_iff in E. rewrite E in H. exfalso.
  revert H. apply Qlt_not_le. reflexivity.
Qed.

Lemma listRoute_inr (svc : Services) (now : Time) (caller : option UserId)
      (profile : option User.t) (q : ListQuery) (docs : list HelpRequest)
      (resp : ListResponse) :
  listRoute svc now caller profile q docs = inr resp ->
  validateFilters q = true
  /\ resp = getHelpRequests svc now caller profile q docs.
Proof.
  unfold listRoute. destruct (validateFilters q); simpl; intro H.
  - injection H as <-. split; reflexivity.
  - discriminate H.
Qed.

(** With the radius at 5 the listing neither queries the spatial cap nor
    re-filters by distance. *)
Lemma radius_5_bypass (svc : Services) (now : Time) (caller : option UserId)
      (profile : option User.t) (q : ListQuery) (docs : list HelpRequest) :
  (radius q == 5)%Q ->
  let o := resolveOrigin caller profile q in
  let resp := getHelpRequests svc now caller profile q docs in
  geoWithin (buildQuery now caller o q) = None
  /\ zipRegex (buildQuery now caller o q) = None
  /\ strictRadiusFilter resp = false
  /\ forall r,
       In r (findPage svc (buildQuery now caller o q) (limit q)
                      ((page q - 1) * limit q) docs) ->
       In (addExtras svc o q r) (requests resp).
Proof.
  intros H5 o resp.
  assert (E : radiusNot5 q = false).
  { unfold radiusNot5. apply negb_false_iff. apply Qeq_bool_iff. exact H5. }
  assert (Es : strictRadius o q = false).
  { unfold strictRadius. rewrite E. apply andb_false_r. }
  split; [unfold buildQuery; rewrite E; reflexivity|].
  split; [unfold buildQuery; rewrite E; reflexivity|].
  split.
  - unfold resp, getHelpRequests. fold o. rewrite Es. reflexivity.
  - intros r Hr. unfold resp, getHelpRequests. fold o. rewrite Es.
    cbn [requests].
    destruct (hasUserLocation o); [apply In_sortBy|]; apply in_map; exact Hr.
Qed.

(** A store of one document: when the document matches the query of
    the first page and passes the strict filter, if there is one, the
    listing returns it alone. *)
Lemma listing_of_one_document (svc : Services) (now : Time)
      (caller : option UserId) (profile : option User.t) (q : ListQuery)
      (r : HelpRequest) :
  let o := resolveOrigin caller profile q in
  page q = 1 ->
  1 <= limit q ->
  matches svc (buildQuery now caller o q) r = true ->
  (strictRadius o q = true ->
   Qle_bool (toNumber (distance (addExtras svc o q r))) (radius q) = true) ->
  requests (getHelpRequests svc now caller profile q [r])
  = [addExtras svc o q r].
Proof.
  intros o Hp Hl Hm Hd.
  assert (Hf : findPage svc (buildQuery now caller o q) (limit q)
                        ((page q - 1) * limit q) [r] = [r]).
  { unfold findPage. rewrite Hp. cbn [filter]. rewrite Hm.
    destruct (limit q) as [|n]; [lia|]. simpl. rewrite firstn_nil.
    reflexivity. }
  unfold getHelpRequests. fold o. rewrite Hf. cbn [map].
  destruct (strictRadius o q) eqn:Es.
  - cbn [filter]. rewrite (Hd eq_refl).
    assert (Eh : hasUserLocation o = true).
    { unfold strictRadius, located in Es.
      repeat (apply andb_true_iff in Es; destruct Es as [Es ?]). exact Es. }
    rewrite Eh. cbn [sortBy fold_right insertBy List.length requests].
    assert (Ec : ceilDiv 1 (limit q) = 1).
    { unfold ceilDiv. replace (1 + limit q - 1) with (1 * limit q) by lia.
      apply Nat.div_mul. lia. }
    rewrite Ec, Hp. cbn [Nat.eqb Nat.min Nat.sub Nat.mul]. unfold slice.
    replace (0 + limit q - 0) with (limit q) by lia.
    destruct (limit q) as [|n]; [lia|].
    cbn [skipn firstn]. rewrite ?firstn_nil. reflexivity.
  - cbn [requests]. destruct (hasUserLocation o); reflexivity.
Qed.

(** The scenario with the distance helper of the source: D's origin is
    resolved from the query, and R's request carries 5.56. *)
Lemma scenario_extras (svc : Services) (radiusKm : Q) :
  usesHelperDistance svc ->
  let q := scenarioQuery radiusKm in
  let o := resolveOrigin (Some "D") (Some donorD) q in
  located o = true
  /\ request (addExtras svc o q scenarioRequest) = scenarioRequest
  /\ distance (addExtras svc o q scenarioRequest) = Some (556 # 100)%Q.
Proof.
  intros Hd q o.
  assert (Hloc : located o = true) by reflexivity.
  split; [exact Hloc|].
  split; [unfold addExtras; rewrite Hloc; reflexivity|].
  unfold addExtras. rewrite Hloc. cbn [distance]. rewrite Hd.
  f_equal. exact HaversineRounding.rounded_scenario.
Qed.

(** D's listing of a store that holds R's request, at a radius other
    than 5 (the store's cap operator accepting the request) and at
    radius 5 (where the cap is not queried). *)
Lemma scenario_listing (svc : Services) (radiusKm : Q) :
  usesHelperDistance svc ->
  (Qeq_bool radiusKm 5 = true
   \/ (centerSphere svc (-74) 40.05 (radiusKm / 6371)
                    (mkCoordinates 40 (-74)) = true
       /\ Qle_bool (556 # 100) radiusKm = true)) ->
  let q := scenarioQuery radiusKm in
  let o := resolveOrigin (Some "D") (Some donorD) q in
  requests (getHelpRequests svc 1500%Z (Some "D") (Some donorD) q
                            [scenarioRequest])
  = [addExtras svc o q scenarioRequest].
Proof.
  intros Hd Hr q o.
  destruct (scenario_extras radiusKm Hd) as (Hloc & _ & Hdist).
  fold q o in Hloc, Hdist.
  apply listing_of_one_document; try reflexivity.
  - simpl. lia.
  - fold o. unfold matches, buildQuery, radiusNot5. rewrite Hloc.
    change (radius q) with radiusKm.
    destruct Hr as [H5|[Hcap _]].
    + rewrite H5. reflexivity.
    + destruct (Qeq_bool radiusKm 5); [reflexivity|].
      assert (Hcap' : centerSphere svc (toNumber (userLongitude o))
                                   (toNumber (userLatitude o))
                                   (radiusKm / 6371)
                                   (coordinates (pickupLocation scenarioRequest))
                      = true) by exact Hcap.
      cbn [negb andb whenPresent recipientNe statusIs categoryIs priorityIs
           geoWithin zipRegex searchRegex endDateGt].
      rewrite Hcap'. reflexivity.
  - fold o. intro Hs. rewrite Hdist. cbn [toNumber].
    change (radius q) with radiusKm.
    destruct Hr as [H5|[_ Hle]]; [|exact Hle].
    unfold strictRadius, radiusNot5 in Hs.
    change (radius q) with radiusKm in Hs.
    rewrite H5 in Hs. rewrite andb_false_r in Hs. discriminate Hs.
Qed.

(** C1, as the code has it.  When the listing resolved an origin with
    non-zero latitude and longitude and the requested radius is not 5,
    every returned element carries the distance that
    [helpers.calculateDistance] computes from that origin (the
    Haversine formula rounded to two decimals), that distance is at
    most the radius, and so the exact Haversine distance is at most the
    radius plus 0.005 km.  A radius of exactly 5 switches the spatial
    filters off: the store's page is returned whatever the distances.
    In the scenario the request 5.56 km away is returned at radius 10,
    and at radius 5 as well. *)
Theorem strict_radius_containment :
  (forall (svc : Services) (now : Time) (caller : option UserId)
          (profile : option User.t) (q : ListQuery) (docs : list HelpRequest)
          (resp : ListResponse) (x : ListedRequest),
      usesHelperDistance svc ->
      listRoute svc now caller profile q docs = inr resp ->
      located (resolveOrigin caller profile q) = true ->
      ~ (radius q == 5)%Q ->
      In x (requests resp) ->
      let o := resolveOrigin caller profile q in
      let olat := toNumber (userLatitude o) in
      let olon := toNumber (userLongitude o) in
      let plat := latitude (coordinates (pickupLocation (request x))) in
      let plon := longitude (coordinates (pickupLocation (request x))) in
      exists d,
        distance x = Some d
        /\ d = Haversine.rounded olat olon plat plon
        /\ (d <= radius q)%Q
        /\ Haversine.exactWithin (radius q) olat olon plat plon)
  /\ (forall (svc : Services) (now : Time) (caller : option UserId)
             (profile : option User.t) (q : ListQuery) (docs : list HelpRequest)
             (r : HelpRequest),
         (radius q == 5)%Q ->
         let o := resolveOrigin caller profile q in
         In r (findPage svc (buildQuery now caller o q) (limit q)
                        ((page q - 1) * limit q) docs) ->
         geoWithin (buildQuery now caller o q) = None
         /\ In (addExtras svc o q r)
               (requests (getHelpRequests svc now caller profile q docs)))
  /\ (forall svc : Services,
         usesHelperDistance svc ->
         centerSphere svc (-74) 40.05 (10 / 6371)
                      (mkCoordinates 40 (-74)) = true ->
         exists resp,
           listRoute svc 1500%Z (Some "D") (Some donorD)
                     (scenarioQuery 10%Q) [scenarioRequest] = inr resp
           /\ map request (requests resp) = [scenarioRequest]
           /\ map distance (requests resp) = [Some (556 # 100)%Q])
  /\ (forall svc : Services,
         usesHelperDistance svc ->
         exists resp,
           listRoute svc 1500%Z (Some "D") (Some donorD)
                     (scenarioQuery 5%Q) [scenarioRequest] = inr resp
           /\ map request (requests resp) = [scenarioRequest]
           /\ map distance (requests resp) = [Some (556 # 100)%Q]).
Proof.
  split; [|split; [|split]].
  - intros svc now caller profile q docs resp x Hd Hroute Hloc H5 Hin
           o olat olon plat plon.
    apply listRoute_inr in Hroute. destruct Hroute as [Hv ->].
    apply listed_from_store in Hin. fold o in Hin.
    destruct Hin as (r & _ & _ & Hx & Hstrict).
    assert (Hs : strictRadius o q = true).
    { unfold strictRadius. fold o in Hloc. rewrite Hloc.
      rewrite (truthy_radius _ Hv). simpl. unfold radiusNot5.
      apply negb_true_iff. destruct (Qeq_bool (radius q) 5) eqn:E;
        [|reflexivity].
      apply Qeq_bool_iff in E. contradiction. }
    specialize (Hstrict Hs). apply Qle_bool_iff in Hstrict.
    unfold addExtras in Hx. fold o in Hloc. rewrite Hloc in Hx.
    subst x plat plon. cbn [request distance toNumber] in *.
    rewrite Hd in Hstrict |- *.
    eexists. split; [reflexivity|]. split; [reflexivity|].
    split; [exact Hstrict|].
    apply HaversineRounding.rounded_exactWithin. exact Hstrict.
  - intros svc now caller profile q docs r H5 o Hr.
    destruct (@radius_5_bypass svc now caller profile q docs H5)
      as (Hg & _ & _ & Hall).
    split; [exact Hg|]. apply Hall. exact Hr.
  - intros svc Hd Hcap. eexists. split; [reflexivity|].
    rewrite (@scenario_listing svc 10%Q Hd
               (or_intror (conj Hcap eq_refl))).
    destruct (scenario_extras 10%Q Hd) as (_ & Hreq & Hdist).
    cbn [map]. rewrite Hreq, Hdist. split; reflexivity.
  - intros svc Hd. eexists. split; [reflexivity|].
    rewrite (@scenario_listing svc 5%Q Hd (or_introl eq_refl)).
    destruct (scenario_extras 5%Q Hd) as (_ & Hreq & Hdist).
    cbn [map]. rewrite Hreq, Hdist. split; reflexivity.
Qed.

Lemma helperServices_usesHelperDistance : usesHelperDistance helperServices.
Proof. intros lat1 lon1 lat2 lon2. reflexivity. Qed.

(** D lists within 10 km with the helper of the source: the one
    returned element carries 5.56, and the exact distance is within
    10.005 km. *)
Lemma strict_radius_containment_witness :
  let q := scenarioQuery 10%Q in
  let o := resolveOrigin (Some "D") (Some donorD) q in
  let x := addExtras helperServices o q scenarioRequest in
  usesHelperDistance helperServices
  /\ located o = true
  /\ ~ (radius q == 5)%Q
  /\ In x (requests (getHelpRequests helperServices 1500%Z (Some "D")
                                     (Some donorD) q [scenarioRequest]))
  /\ exists d,
       distance x = Some d
       /\ d = Haversine.rounded
                (toNumber (userLatitude o)) (toNumber (userLongitude o))
                (latitude (coordinates (pickupLocation (request x))))
                (longitude (coordinates (pickupLocation (request x))))
       /\ (d <= radius q)%Q
       /\ Haversine.exactWithin
            (radius q)
            (toNumber (userLatitude o)) (toNumber (userLongitude o))
            (latitude (coordinates (pickupLocation (request x))))
            (longitude (coordinates (pickupLocation (request x)))).
Proof.
  intros q o x.
  pose proof helperServices_usesHelperDistance as Hd.
  assert (Hloc : located o = true) by reflexivity.
  assert (H5 : ~ (radius q == 5)%Q) by (intro H; vm_compute in H; discriminate H).
  assert (Hin : In x (requests (getHelpRequests helperServices 1500%Z
                                  (Some "D") (Some donorD) q
                                  [scenarioRequest]))).
  { unfold q, x, o.
    rewrite (@scenario_listing helperServices 10%Q Hd
               (or_intror (conj eq_refl eq_refl))).
    left. reflexivity. }
  split; [exact Hd|]. split; [exact Hloc|]. split; [exact H5|].
  split; [exact Hin|].
  exact (proj1 strict_radius_containment helperServices 1500%Z (Some "D")
               (Some donorD) q [scenarioRequest]
               (getHelpRequests helperServices 1500%Z (Some "D")
                                (Some donorD) q [scenarioRequest])
               x Hd eq_refl Hloc H5 Hin).
Defined.

(** C1 as stated fails at radius 5: D's origin is resolved from the
    explicit coordinates, the radius asked for is 5, and the returned
    list holds R's request, which the helper of the source puts at
    5.56 km and which is, in exact terms, more than 5.005 km away. *)
Lemma radius_5_returns_farther_request :
  let q := scenarioQuery 5%Q in
  let o := resolveOrigin (Some "D") (Some donorD) q in
  exists resp x d,
    listRoute helperServices 1500%Z (Some "D") (Some donorD) q
              [scenarioRequest] = inr resp
    /\ hasUserLocation o = true
    /\ In x (requests resp)
    /\ request x = scenarioRequest
    /\ distance x = Some d
    /\ d = Haversine.rounded
             (toNumber (userLatitude o)) (toNumber (userLongitude o))
             (latitude (coordinates (pickupLocation (request x))))
             (longitude (coordinates (pickupLocation (request x))))
    /\ (d == 5.56)%Q
    /\ ~ (d <= radius q)%Q
    /\ ~ Haversine.exactWithin
           (radius q)
           (toNumber (userLatitude o)) (toNumber (userLongitude o))
           (latitude (coordinates (pickupLocation (request x))))
           (longitude (coordinates (pickupLocation (request x)))).
Proof.
  intros q o.
  pose proof helperServices_usesHelperDistance as Hd.
  destruct (scenario_extras 5%Q Hd) as (_ & Hreq & Hdist).
  fold q o in Hreq, Hdist.
  exists (getHelpRequests helperServices 1500%Z (Some "D") (Some donorD) q
                          [scenarioRequest]).
  exists (addExtras helperServices o q scenarioRequest).
  exists (556 # 100)%Q.
  split; [reflexivity|]. split; [reflexivity|].
  split.
  { unfold q, o.
    rewrite (@scenario_listing helperServices 5%Q Hd (or_introl eq_refl)).
    left. reflexivity. }
  split; [exact Hreq|]. split; [exact Hdist|].
  rewrite Hreq.
  split; [symmetry; exact HaversineRounding.rounded_scenario|].
  split; [reflexivity|].
  split.
  - intro H. vm_compute in H. apply H. reflexivity.
  - exact HaversineRounding.scenario_not_within_5.
Qed.

(** ** Pagination of the radius-filtered listing *)

Lemma ceilDiv_at_most_limit (total lim : nat) :
  1 <= lim -> total <= lim ->
  ceilDiv total lim = if total =? 0 then 0 else 1.
Proof.
  intros Hl Ht. unfold ceilDiv.
  destruct (Nat.eqb_spec total 0) as [->|Hz].
  - apply Nat.div_small. lia.
  - symmetry. apply (Nat.div_unique _ _ 1 (total - 1)); lia.
Qed.

(** In the radius-filtered branch the figures are those of the page the
    store returned: the total never exceeds the page size and the
    current page is always 1. *)
Lemma strict_listing_counts_fetched_page (svc : Services) (now : Time)
      (caller : option UserId) (profile : option User.t) (q : ListQuery)
      (docs : list HelpRequest) :
  validateFilters q = true ->
  strictRadius (resolveOrigin caller profile q) q = true ->
  let resp := getHelpRequests svc now caller profile q docs in
  totalItems (pagination resp) <= limit q
  /\ currentPage (pagination resp) = 1
  /\ totalPages (pagination resp) <= 1.
Proof.
  intros Hv Hs resp. unfold resp, getHelpRequests. rewrite Hs.
  set (o := resolveOrigin caller profile q).
  set (fetched := findPage svc (buildQuery now caller o q) (limit q)
                           ((page q - 1) * limit q) docs).
  set (sorted := if hasUserLocation o then _ else _).
  assert (Hlen : List.length sorted <= limit q).
  { unfold sorted.
    assert (Hf : List.length
                   (filter (fun x => Qle_bool (toNumber (distance x)) (radius q))
                           (map (addExtras svc o q) fetched)) <= limit q).
    { eapply Nat.le_trans; [apply filter_length_le|].
      rewrite length_map. apply findPage_length. }
    destruct (hasUserLocation o); [rewrite length_sortBy|]; exact Hf. }
  assert (Hpl : 1 <= page q /\ 1 <= limit q).
  { unfold validateFilters in Hv.
    repeat (apply andb_true_iff in Hv; destruct Hv as [Hv ?]).
    split; apply Nat.leb_le; assumption. }
  destruct Hpl as [Hp Hl].
  cbn [pagination totalItems currentPage totalPages getPaginationInfo].
  rewrite (ceilDiv_at_most_limit Hl Hlen).
  split; [exact Hlen|].
  destruct (List.length sorted =? 0); simpl; split; lia.
Qed.

(** C3 at the failing inputs.  Three stored requests lie within D's
    radius of 10 km (each at 5.56 km); D asks for pages of two.  The
    last valid page is page 2.  Page 1 is answered with total 2, one
    page and no next page; page 2 is answered with the third request but
    as page 1 of 1 with total 1; page 3 is answered with an empty list,
    total 0 and zero pages. *)
Theorem radius_listing_pagination_counts_one_page :
  List.length
    (filter (fun r => Qle_bool
                        (calculateDistance scenarioServices 40.05 (-74)
                           (latitude (coordinates (pickupLocation r)))
                           (longitude (coordinates (pickupLocation r))))
                        10)
            threeRequests) = 3
  /\ (let resp := getHelpRequests scenarioServices 1500%Z (Some "D")
                                  (Some donorD) (pageOfTwo 1) threeRequests in
      map (fun x => _id (request x)) (requests resp) = ["req5"; "req4"]
      /\ pagination resp = getPaginationInfo 1 2 2
      /\ hasNext (pagination resp) = false)
  /\ (let resp := getHelpRequests scenarioServices 1500%Z (Some "D")
                                  (Some donorD) (pageOfTwo 2) threeRequests in
      map (fun x => _id (request x)) (requests resp) = ["req1"]
      /\ pagination resp = getPaginationInfo 1 2 1)
  /\ (let resp := getHelpRequests scenarioServices 1500%Z (Some "D")
                                  (Some donorD) (pageOfTwo 3) threeRequests in
      validateFilters (pageOfTwo 3) = true
      /\ requests resp = []
      /\ pagination resp = getPaginationInfo 1 2 0
      /\ totalItems (pagination resp) = 0
      /\ totalPages (pagination resp) = 0).
Proof.
  split; [vm_compute; reflexivity|].
  split; [|split]; repeat split; vm_compute; reflexivity.
Qed.

(** ** The listing without an origin *)

Lemma no_origin_iff (caller : option UserId) (profile : option User.t)
      (q : ListQuery) :
  hasUserLocation (resolveOrigin caller profile q) = false
  <-> (truthy (qLatitude q) && truthy (qLongitude q) = false
       /\ profileCoordinates caller profile = None).
Proof.
  unfold resolveOrigin.
  destruct (truthy (qLatitude q)), (truthy (qLongitude q)); simpl;
    destruct (profileCoordinates caller profile); simpl;
    split; try discriminate; try tauto; intros [? ?]; discriminate.
Qed.

(** When neither the query nor the caller's profile gives an origin,
    [getHelpRequests] above returns the store's page for the
    non-spatial query, in the store's order (priority descending, then
    creation time descending), every element without distance, and
    reports the store's count; no origin is made up. *)
Lemma no_origin_listing (svc : Services) (now : Time) (caller : option UserId)
      (profile : option User.t) (q : ListQuery) (docs : list HelpRequest) :
  hasUserLocation (resolveOrigin caller profile q) = false ->
  let o := resolveOrigin caller profile q in
  let resp := getHelpRequests svc now caller profile q docs in
  geoWithin (buildQuery now caller o q) = None
  /\ requests resp
     = map (fun r => mkListedRequest r None None "not_available")
           (findPage svc (buildQuery now caller o q) (limit q)
                     ((page q - 1) * limit q) docs)
  /\ Sorted (fun a b => storeOrder svc a b = true) (map request (requests resp))
  /\ (forall x, In x (requests resp) ->
                distance x = None /\ distanceFormatted x = None)
  /\ calculatedFrom resp = None
  /\ totalItems (pagination resp)
     = countDocuments svc (buildQuery now caller o q) docs.
Proof.
  intros Hno o resp.
  assert (Hloc : located o = false) by (unfold located; fold o in Hno; rewrite Hno; reflexivity).
  assert (Hs : strictRadius o q = false) by (unfold strictRadius; rewrite Hloc; reflexivity).
  assert (Hreq : requests resp
                 = map (fun r => mkListedRequest r None None "not_available")
                       (findPage svc (buildQuery now caller o q) (limit q)
                                 ((page q - 1) * limit q) docs)).
  { unfold resp, getHelpRequests. fold o. rewrite Hs. fold o in Hno.
    rewrite Hno. cbn [requests]. apply map_ext. intro r.
    unfold addExtras. rewrite Hloc. reflexivity. }
  split.
  { unfold buildQuery. rewrite Hloc, andb_false_r. reflexivity. }
  split; [exact Hreq|]. split; [|split; [|split]].
  - rewrite Hreq, map_map. simpl. rewrite map_id. apply findPage_Sorted.
  - intros x Hx. rewrite Hreq in Hx. apply in_map_iff in Hx.
    destruct Hx as (r & <- & _). split; reflexivity.
  - unfold resp, getHelpRequests. fold o. rewrite Hs. fold o in Hno.
    rewrite Hno. reflexivity.
  - unfold resp, getHelpRequests. fold o. rewrite Hs. reflexivity.
Qed.

(** The second copy always ends up with an origin: when neither the
    query nor the profile gives one, it is the fixed default location,
    the spatial cap is queried around it and every listed element
    carries a distance. *)
Lemma default_origin_when_unresolved (svc : Services) (now : Time)
      (caller : option UserId) (profile : option User.t) (q : ListQuery)
      (docs : list HelpRequest) :
  hasUserLocation (resolveOrigin caller profile q) = false ->
  let o := MumbaiVariant.resolveOrigin caller profile q in
  let resp := MumbaiVariant.getHelpRequests svc now caller profile q docs in
  o = (Some MumbaiVariant.defaultLatitude, Some MumbaiVariant.defaultLongitude)
  /\ calculatedFrom resp = Some o
  /\ geoWithin (MumbaiVariant.buildQuery now caller o q)
     = Some (MumbaiVariant.defaultLongitude, MumbaiVariant.defaultLatitude,
             (radius q / 6371)%Q)
  /\ (forall x, In x (requests resp) -> distance x <> None).
Proof.
  intros Hno o resp.
  apply no_origin_iff in Hno. destruct Hno as [Hq Hp].
  assert (Ho : o = (Some MumbaiVariant.defaultLatitude,
                    Some MumbaiVariant.defaultLongitude)).
  { unfold o, MumbaiVariant.resolveOrigin. rewrite Hp.
    destruct (truthy (qLatitude q)) eqn:E1, (truthy (qLongitude q)) eqn:E2;
      simpl in Hq; try discriminate Hq; simpl; rewrite ?E1, ?E2; reflexivity. }
  split; [exact Ho|]. split; [reflexivity|]. split.
  - rewrite Ho. reflexivity.
  - intros x Hx. unfold resp, MumbaiVariant.getHelpRequests in Hx.
    cbn [requests] in Hx. apply In_sortBy in Hx. apply in_map_iff in Hx.
    destruct Hx as (r & <- & _). discriminate.
Qed.

(** A query origin on the equator or on the prime meridian passes the
    validator but fails the truthiness tests, so it counts as absent. *)
Example zero_coordinate_origin_is_dropped :
  let q := {| page := 1; limit := 20;
              qStatus := None; qCategory := None; qPriority := None;
              qZipCode := None; radius := 10%Q;
              qLatitude := Some 0%Q; qLongitude := Some 10%Q;
              qSearch := None |} in
  validateFilters q = true
  /\ hasUserLocation (resolveOrigin (Some "E") (Some callerWithoutLocation) q)
     = false.
Proof. split; reflexivity. Qed.

(** C8 at the failing input.  A caller whose profile holds no
    coordinates lists without coordinates; two open requests of another
    user are stored, one 2.67 km from the fixed default location and one
    far from it.  The second copy of the controller takes the default
    location as origin: it returns only the near request, with a
    distance measured from there.  The first copy returns both requests
    without distance. *)
Theorem default_location_is_substituted :
  let docs := [nearDefaultRequest; farFromDefaultRequest] in
  let q := queryWithoutLocation in
  hasUserLocation
    (resolveOrigin (Some "E") (Some callerWithoutLocation) q) = false
  /\ (let resp := MumbaiVariant.getHelpRequests scenarioServices 1500%Z
                    (Some "E") (Some callerWithoutLocation) q docs in
      calculatedFrom resp
      = Some (Some MumbaiVariant.defaultLatitude,
              Some MumbaiVariant.defaultLongitude)
      /\ map request (requests resp) = [nearDefaultRequest]
      /\ map distance (requests resp) = [Some (267 # 100)%Q]
      /\ totalItems (pagination resp) = 1)
  /\ (let resp := getHelpRequests scenarioServices 1500%Z
                    (Some "E") (Some callerWithoutLocation) q docs in
      calculatedFrom resp = None
      /\ map request (requests resp)
         = [farFromDefaultRequest; nearDefaultRequest]
      /\ map distance (requests resp) = [None; None]
      /\ totalItems (pagination resp) = 2).
Proof.
  split; [reflexivity|].
  split; repeat split; vm_compute; reflexivity.
Qed.

(** ** Expiry *)

Lemma listed_request (svc : Services) (o : Origin) (q : ListQuery)
      (r : HelpRequest) :
  request (addExtras svc o q r) = r.
Proof. unfold addExtras. destruct (located o); reflexivity. Qed.








(* ================================================================== *)
(** * Part III. Further properties of the modelled code               *)
(* ================================================================== *)

(** ** What an operation stores *)

Lemma isDonorOf_false (user : UserId) (r : HelpRequest) :
  isDonorOf user r = false <-> donorId r <> Some user.
Proof.
  split.
  - intros H E. apply isDonorOf_true in E. congruence.
  - intro H. destruct (isDonorOf user r) eqn:E; [|reflexivity].
    apply isDonorOf_true in E. contradiction.
Qed.

Lemma geb_false_lt (a b : Z) : (a >=? b)%Z = false -> (a < b)%Z.
Proof. rewrite Z.geb_leb. apply Z.leb_gt. Qed.

Ltac norm_hyps :=
  repeat match goal with
         | H : negb _ = true |- _ => apply negb_true_iff in H
         | H : negb _ = false |- _ => apply negb_false_iff in H
         | H : (_ && _)%bool = true |- _ =>
             apply andb_true_iff in H; destruct H
         | H : (_ && _)%bool = false |- _ =>
             apply andb_false_iff in H; destruct H
         | H : isOwnerOf _ _ = true |- _ => apply isOwnerOf_true in H
         | H : isOwnerOf _ _ = false |- _ => apply isOwnerOf_false in H
         | H : isDonorOf _ _ = true |- _ => apply isDonorOf_true in H
         | H : isDonorOf _ _ = false |- _ => apply isDonorOf_false in H
         | H : Status_eqb _ _ = true |- _ => apply Status_eqb_eq in H
         | H : Status_eqb _ _ = false |- _ => apply Status_eqb_false in H
         | H : (_ >=? _)%Z = false |- _ => apply geb_false_lt in H
         end.

Lemma updateRoute_Saved catalog (now : Time) (actor : UserId)
      (r r' : HelpRequest) (patch : UpdateBody) :
  effect (updateRoute catalog now actor (Some r) patch) = Saved r' ->
  exists cat,
    actor = recipientId r
    /\ validateUpdate now patch = true
    /\ missingDate patch = false
    /\ r' = set_updatedAt now (assignUpdates patch cat r)
    /\ windowValid r'.
Proof.
  unfold updateRoute. rewrite edit_access_owner_only.
  destruct (String.eqb (recipientId r) actor) eqn:Eo; simpl; [|discriminate].
  apply String.eqb_eq in Eo.
  destruct (validateUpdate now patch) eqn:Ev; simpl; [|discriminate].
  unfold updateHelpRequest.
  destruct (uItems patch) as [its|] eqn:Ei.
  - destruct (negb _); simpl; [discriminate|].
    destruct (inferCategory _) as [cat|]; simpl; [|discriminate].
    destruct (missingDate patch) eqn:Em; simpl; [discriminate|].
    destruct (save now _) as [saved|] eqn:Es; simpl; [|discriminate].
    intro H. injection H as <-. apply save_Some in Es. destruct Es as [-> Hw].
    exists (Some cat). repeat split; auto.
  - destruct (missingDate patch) eqn:Em; simpl; [discriminate|].
    destruct (save now _) as [saved|] eqn:Es; simpl; [|discriminate].
    intro H. injection H as <-. apply save_Some in Es. destruct Es as [-> Hw].
    exists None. repeat split; auto.
Qed.

(** Every document an operation writes back has one of the shapes of
    [Stored], and a valid availability window. *)
Lemma runOp_Stored catalog (now : Time) (op : Op) (r r' : HelpRequest) :
  effect (runOp catalog now op r) = Saved r' ->
  Stored now r op r' /\ windowValid r'.
Proof.
  intro H. destruct op.
  - apply updateRoute_Saved in H.
    destruct H as (cat & Ho & Hv & Hm & -> & Hw).
    split; [apply St_edit; assumption|exact Hw].
  - unfold_routes_in H; cases_in H; try discriminate H; injection H as <-;
      norm_hyps; split; [apply St_approve; assumption|assumption].
  - unfold_routes_in H; cases_in H; try discriminate H; injection H as <-;
      norm_hyps; (split; [apply St_complete; auto|assumption]).
  - unfold_routes_in H; cases_in H; discriminate H.
  - unfold_routes_in H; cases_in H; try discriminate H; injection H as <-;
      norm_hyps; try congruence; (split; [apply St_note; auto|assumption]).
  - unfold_routes_in H; cases_in H; try discriminate H; injection H as <-;
      norm_hyps; (split; [apply St_interest; auto|assumption]).
  - unfold_routes_in H; cases_in H; try discriminate H; injection H as <-;
      norm_hyps; try congruence; (split; [|assumption]);
      first [ apply St_rate_recipient; auto; fail
            | apply St_rate_donor; auto ].
  - unfold_routes_in H; cases_in H; try discriminate H; injection H as <-;
      norm_hyps; (split; [apply St_flag; auto|assumption]).
  - unfold_routes_in H; cases_in H; try discriminate H; injection H as <-;
      norm_hyps; (split; [apply St_view; auto|assumption]).
Qed.

(** An invariant of reachable requests follows from the creation
    case, one case for each stored shape, and the case of an account
    deletion; the steps may use the safety invariant of the state
    before. *)
Lemma reachable_invariant_by_shape (P : HelpRequest -> Prop) :
  (forall catalog now newId requester profile body r,
      effect (createRoute catalog now newId requester profile body) = Saved r ->
      P r) ->
  (forall now op r r',
      P r -> stateMachineSafe r -> Stored now r op r' -> windowValid r' ->
      P r') ->
  (forall now user r,
      P r -> stateMachineSafe r ->
      isActiveRequestOf user r = false -> recipientId r <> user ->
      P (afterAccountDeletion now user r)) ->
  forall t r, reachable t r -> P r.
Proof.
  intros Hcreate Hstep Hdel t r Hr.
  induction Hr as [catalog now newId requester profile body r Hc
                  |catalog t now op r r' Hr IH Hle Hs
                  |t now user r Hr IH Hle Hact Hrec].
  - eapply Hcreate. exact Hc.
  - destruct (effect (runOp catalog now op r)) as [|saved|] eqn:E;
      simpl in Hs; try discriminate Hs; injection Hs as <-.
    + exact IH.
    + apply runOp_Stored in E. destruct E as [Hst Hw].
      eapply Hstep; eauto.
      apply (reachable_invariant Hr).
  - apply Hdel; try assumption. apply (reachable_invariant Hr).
Qed.

(** What an account deletion leaves of one document. *)
Lemma afterAccountDeletion_fields (now : Time) (user : UserId)
      (r : HelpRequest) :
  let r' := afterAccountDeletion now user r in
  _id r' = _id r /\ recipientId r' = recipientId r
  /\ title r' = title r /\ description r' = description r
  /\ items r' = items r /\ priority r' = priority r
  /\ category r' = category r
  /\ pickupLocation r' = pickupLocation r
  /\ availabilityWindow r' = availabilityWindow r
  /\ completedAt r' = completedAt r
  /\ createdAt r' = createdAt r /\ updatedAt r' = now
  /\ views (metadata r') = views (metadata r)
  /\ notes r'
     = filter (fun n => negb (String.eqb (author n) user)) (notes r)
  /\ interested (metadata r')
     = filter (fun i => negb (String.eqb (userId i) user))
              (interested (metadata r))
  /\ recipientRating (rating r') = recipientRating (rating r)
  /\ donorRating (rating r')
     = (if isDonorOf user r then None else donorRating (rating r))
  /\ status r' = (if isDonorOf user r then open else status r)
  /\ donorId r' = (if isDonorOf user r then None else donorId r)
  /\ approvedAt r' = (if isDonorOf user r then None else approvedAt r).
Proof.
  unfold afterAccountDeletion, removeReferences, removeDonor.
  destruct (isDonorOf user r); simpl; repeat split; reflexivity.
Qed.

Lemma assignUpdates_fixed (patch : UpdateBody) (cat : option Category)
      (r : HelpRequest) :
  let r' := assignUpdates patch cat r in
  _id r' = _id r /\ recipientId r' = recipientId r
  /\ pickupLocation r' = pickupLocation r /\ createdAt r' = createdAt r
  /\ status r' = status r /\ donorId r' = donorId r
  /\ notes r' = notes r /\ rating r' = rating r /\ metadata r' = metadata r.
Proof.
  unfold assignUpdates, assignWhen.
  destruct cat, (uWindow patch) as [w|]; try destruct (patchedWindow w);
    destruct (uPriority patch), (uItems patch),
      (uDescription patch), (uTitle patch); repeat split; reflexivity.
Qed.

Lemma assignUpdates_times (patch : UpdateBody) (cat : option Category)
      (r : HelpRequest) :
  approvedAt (assignUpdates patch cat r) = approvedAt r
  /\ completedAt (assignUpdates patch cat r) = completedAt r.
Proof.
  unfold assignUpdates, assignWhen.
  destruct cat, (uWindow patch) as [w|]; try destruct (patchedWindow w);
    destruct (uPriority patch), (uItems patch),
      (uDescription patch), (uTitle patch); split; reflexivity.
Qed.

(** ** A longer scenario *)

Ltac advance H' H step tm :=
  eassert (H' : reachable tm _);
  [ eapply (@reach_op scenarioCatalog _ tm step);
    [exact H|lia|vm_compute; reflexivity]
  | ].

(** The states of the longer scenario are reachable. *)
Lemma long_scenario_reachable :
  reachable 1300%Z interestedRequest
  /\ reachable 2200%Z busyRequest
  /\ reachable 3200%Z ratedRequest
  /\ reachable 3300%Z reopenedRequest.
Proof.
  pose proof (proj1 scenario_reachable) as H0.
  advance H1 H0 (OpMarkInterested "D") 1200%Z.
  advance H2 H1 (OpMarkInterested "E") 1300%Z.
  advance H3 H2 (OpApprove "D") 2000%Z.
  advance H4 H3 (OpAddNote "R" "Please call before you come") 2100%Z.
  advance H5 H4 (OpAddNote "D" "I will come at noon") 2200%Z.
  advance H6 H5 (OpComplete "D") 3000%Z.
  advance H7 H6 (OpRate "R" 5%Q None) 3100%Z.
  advance H8 H7 (OpRate "D" 4%Q (Some "Thank you")) 3200%Z.
  assert (H9 : reachable 3300%Z reopenedRequest).
  { apply reach_account_deleted with (t := 3200%Z);
      [exact H8|lia|reflexivity|discriminate]. }
  split; [exact H2|]. split; [exact H5|]. split; [exact H8|exact H9].
Qed.

(** ** Fields no operation can change *)

(** X1.  Whatever an operation of the help-request API writes back, the
    id, the recipient, the pickup location and the creation time of the
    request are those it had before, and the update time is the clock
    reading of the call. *)
Theorem identity_fields_are_immutable :
  forall catalog (now : Time) (op : Op) (r r' : HelpRequest),
    effect (runOp catalog now op r) = Saved r' ->
    _id r' = _id r
    /\ recipientId r' = recipientId r
    /\ pickupLocation r' = pickupLocation r
    /\ createdAt r' = createdAt r
    /\ updatedAt r' = now.
Proof.
  intros catalog now op r r' H. apply runOp_Stored in H.
  destruct H as [H _].
  destruct H; try (repeat split; reflexivity).
  destruct (assignUpdates_fixed patch cat r) as (F1 & F2 & F3 & F4 & _).
  repeat split; assumption.
Qed.

Lemma identity_fields_are_immutable_witness :
  effect (runOp scenarioCatalog 2500%Z (OpEdit "R" titlePatch) approvedRequest)
  = Saved (set_updatedAt 2500%Z (set_title "Need rice and flour soon" approvedRequest))
  /\ recipientId (set_updatedAt 2500%Z
                    (set_title "Need rice and flour soon" approvedRequest))
     = recipientId approvedRequest.
Proof.
  assert (E : effect (runOp scenarioCatalog 2500%Z (OpEdit "R" titlePatch)
                            approvedRequest)
              = Saved (set_updatedAt 2500%Z
                         (set_title "Need rice and flour soon" approvedRequest)))
    by (vm_compute; reflexivity).
  split; [exact E|].
  exact (proj1 (proj2 (identity_fields_are_immutable _ _ _ _ E))).
Defined.

(** ** How the status moves *)

(** X2.  A route of the help-request API leaves the status where it
    is or moves it one step along open, approved, completed; no route
    leaves completed or returns to open.  The one writer that moves a
    status back is account deletion: it sets the requests whose donor
    is the deleted user back to open and leaves every other status
    alone; for a reachable request this happens to completed requests
    only, since an approved request of the donor blocks the
    deletion. *)
Theorem status_moves_one_step_forward :
  (forall catalog (now : Time) (op : Op) (r r' : HelpRequest),
      applyEffect r (effect (runOp catalog now op r)) = Some r' ->
      statusRank (status r) <= statusRank (status r')
      /\ statusRank (status r') <= S (statusRank (status r))
      /\ (status r = completed -> status r' = completed))
  /\ (forall (now : Time) (user : UserId) (r : HelpRequest),
         status (afterAccountDeletion now user r)
         = if isDonorOf user r then open else status r)
  /\ (forall (t now : Time) (user : UserId) (r : HelpRequest),
         reachable t r ->
         isActiveRequestOf user r = false ->
         donorId r = Some user ->
         status r = completed
         /\ status (afterAccountDeletion now user r) = open).
Proof.
  split; [|split].
  - intros catalog now op r r' H. apply runOp_lifecycle in H.
    destruct H as [(Hs & _)|[(Hs & Hs' & _)|(Hs & Hs' & _)]].
    + rewrite Hs. repeat split; auto.
    + rewrite Hs, Hs'. simpl. repeat split; auto. discriminate.
    + rewrite Hs, Hs'. simpl. repeat split; auto.
  - intros now user r.
    destruct (afterAccountDeletion_fields now user r)
      as (_ & _ & _ & _ & _ & _ & _ & _ & _ & _ & _ & _ & _ & _ & _ & _ & _
          & Hs & _).
    exact Hs.
  - intros t now user r Hr Hact Hd.
    destruct (reachable_invariant Hr) as [(Hopen & _) _].
    assert (Hdon : isDonorOf user r = true) by (apply isDonorOf_true; exact Hd).
    unfold isActiveRequestOf in Hact. rewrite Hdon in Hact.
    apply orb_false_iff in Hact. destruct Hact as [_ Hact].
    simpl in Hact. apply Status_eqb_false in Hact.
    split.
    + destruct (status r) eqn:Es; [|contradiction|reflexivity].
      rewrite (Hopen eq_refl) in Hd. discriminate Hd.
    + destruct (afterAccountDeletion_fields now user r)
        as (_ & _ & _ & _ & _ & _ & _ & _ & _ & _ & _ & _ & _ & _ & _ & _ & _
            & Hs & _).
      rewrite Hs, Hdon. reflexivity.
Qed.

(** D approves the open request; later D's account is deleted and the
    completed, rated request is open again. *)
Lemma status_moves_one_step_forward_witness :
  (applyEffect scenarioRequest
     (effect (runOp scenarioCatalog 2000%Z (OpApprove "D") scenarioRequest))
   = Some approvedRequest
   /\ statusRank (status scenarioRequest) <= statusRank (status approvedRequest))
  /\ (reachable 3200%Z ratedRequest
      /\ status ratedRequest = completed
      /\ status (afterAccountDeletion 3300%Z "D" ratedRequest) = open).
Proof.
  assert (E : applyEffect scenarioRequest
                (effect (runOp scenarioCatalog 2000%Z (OpApprove "D")
                               scenarioRequest))
              = Some approvedRequest) by (vm_compute; reflexivity).
  pose proof (proj1 (proj2 (proj2 long_scenario_reachable))) as Hr.
  split.
  - split; [exact E|].
    exact (proj1 (proj1 status_moves_one_step_forward _ _ _ _ _ E)).
  - split; [exact Hr|].
    exact (proj2 (proj2 status_moves_one_step_forward) 3200%Z 3300%Z "D"
                 ratedRequest Hr eq_refl eq_refl).
Defined.

(** ** Donor and recipient are different users *)

(** X3.  In every reachable state the donor, when there is one, is not
    the recipient. *)
Theorem donor_is_never_the_recipient :
  forall (t : Time) (r : HelpRequest),
    reachable t r -> donorId r <> Some (recipientId r).
Proof.
  apply reachable_invariant_by_shape.
  - intros catalog now newId requester profile body r H.
    apply created_is_open in H. destruct H as (_ & Hd & _).
    rewrite Hd. discriminate.
  - intros now op r r' IH _ Hst _.
    destruct Hst; simpl; try exact IH.
    + destruct (assignUpdates_fixed patch cat r)
        as (_ & F2 & _ & _ & _ & F6 & _).
      simpl in F2, F6. rewrite F2, F6. exact IH.
    + intro E. injection E as E. contradiction.
  - intros now user r IH _ _ _.
    destruct (afterAccountDeletion_fields now user r)
      as (_ & F2 & _ & _ & _ & _ & _ & _ & _ & _ & _ & _ & _ & _ & _ & _ & _
          & _ & Fd & _).
    rewrite F2, Fd. destruct (isDonorOf user r); [discriminate|exact IH].
Qed.

Lemma donor_is_never_the_recipient_witness :
  reachable 3000%Z completedRequest
  /\ donorId completedRequest <> Some (recipientId completedRequest).
Proof.
  pose proof (proj2 (proj2 scenario_reachable)) as H.
  split; [exact H|].
  exact (donor_is_never_the_recipient H).
Defined.

(** ** Notes *)

(** X4.  In every reachable state each note was written by the
    recipient or by the present donor of the request.  A route of the
    help-request API either leaves the notes as they were or is an
    add-note, which puts one note of the caller at the end; an account
    deletion removes the notes of the deleted user and no others. *)
Theorem notes_are_written_by_the_parties :
  (forall (t : Time) (r : HelpRequest),
      reachable t r ->
      forall n, In n (notes r) ->
                author n = recipientId r \/ donorId r = Some (author n))
  /\ (forall catalog (now : Time) (op : Op) (r r' : HelpRequest),
         effect (runOp catalog now op r) = Saved r' ->
         notes r' = notes r
         \/ exists actor text,
              op = OpAddNote actor text
              /\ notes r' = notes r ++ [mkNote actor text now])
  /\ (forall (now : Time) (user : UserId) (r : HelpRequest) (n : Note),
         In n (notes (afterAccountDeletion now user r))
         <-> In n (notes r) /\ author n <> user).
Proof.
  split; [|split].
  - apply (reachable_invariant_by_shape
             (fun r => forall n, In n (notes r) ->
                author n = recipientId r \/ donorId r = Some (author n))).
    + intros catalog now newId requester profile body r H.
      apply createRoute_Saved in H.
      destruct H as (user & coords & cat & _ & _ & _ & _ & ->).
      intros n [].
    + intros now op r r' IH Hsafe Hst _.
      destruct Hst; simpl; try exact IH.
      * destruct (assignUpdates_fixed patch cat r)
          as (_ & F2 & _ & _ & _ & F6 & F7 & _).
        simpl in F2, F6, F7. rewrite F2, F6, F7. exact IH.
      * intros n Hn. left.
        destruct (IH n Hn) as [Hr|Hd]; [exact Hr|].
        destruct Hsafe as (Hopen & _).
        match goal with Hs : status r = open |- _ =>
          rewrite (Hopen Hs) in Hd end.
        discriminate Hd.
      * intros n Hn. apply in_app_iff in Hn.
        destruct Hn as [Hn|[<-|[]]]; [apply IH; exact Hn|].
        simpl. match goal with Hp : _ \/ _ |- _ => exact Hp end.
    + intros now user r IH _ _ _ n Hn.
      destruct (afterAccountDeletion_fields now user r)
        as (_ & F2 & _ & _ & _ & _ & _ & _ & _ & _ & _ & _ & _ & Fn & _ & _ & _
            & _ & Fd & _).
      rewrite Fn in Hn. apply filter_In in Hn. destruct Hn as [Hn Hne].
      apply negb_true_iff in Hne. apply String.eqb_neq in Hne.
      rewrite F2, Fd. destruct (IH n Hn) as [Hr|Hd]; [left; exact Hr|].
      destruct (isDonorOf user r) eqn:Ed; [|right; exact Hd].
      apply isDonorOf_true in Ed. congruence.
  - intros catalog now op r r' H. apply runOp_Stored in H.
    destruct H as [H _]. destruct H; try (left; reflexivity).
    + left. destruct (assignUpdates_fixed patch cat r)
        as (_ & _ & _ & _ & _ & _ & F7 & _). exact F7.
    + right. exists actor, text. split; reflexivity.
  - intros now user r n.
    destruct (afterAccountDeletion_fields now user r)
      as (_ & _ & _ & _ & _ & _ & _ & _ & _ & _ & _ & _ & _ & Fn & _).
    rewrite Fn, filter_In, negb_true_iff, String.eqb_neq. tauto.
Qed.

(** The approved request with a note of R and a note of D. *)
Lemma notes_are_written_by_the_parties_witness :
  reachable 2200%Z busyRequest
  /\ map author (notes busyRequest) = ["R"; "D"]
  /\ forall n, In n (notes busyRequest) ->
               author n = recipientId busyRequest
               \/ donorId busyRequest = Some (author n).
Proof.
  pose proof (proj1 (proj2 long_scenario_reachable)) as H.
  split; [exact H|]. split; [reflexivity|].
  exact (proj1 notes_are_written_by_the_parties 2200%Z busyRequest H).
Defined.

(** ** Interest markers *)

Lemma alreadyInterested_In (user : UserId) (r : HelpRequest) :
  alreadyInterested user r = true
  <-> In user (map userId (interested (metadata r))).
Proof.
  unfold alreadyInterested. rewrite existsb_exists, in_map_iff.
  split.
  - intros (i & Hi & E). apply String.eqb_eq in E. exists i. auto.
  - intros (i & E & Hi). exists i. split; [exact Hi|].
    apply String.eqb_eq. exact E.
Qed.

Lemma NoDup_map_filter {K V : Type} (key : V -> K) (keep : V -> bool) :
  forall docs : list V,
    NoDup (map key docs) -> NoDup (map key (filter keep docs)).
Proof.
  intros docs. induction docs as [|d docs IH]; simpl; intro H; [constructor|].
  inversion H as [|x xs Hnin Hnd]; subst.
  destruct (keep d); simpl; [|apply IH; exact Hnd].
  constructor; [|apply IH; exact Hnd].
  intro Hin. apply Hnin. apply in_map_iff in Hin.
  destruct Hin as (y & E & Hy). apply filter_In in Hy.
  apply in_map_iff. exists y. tauto.
Qed.

(** X5.  In every reachable state the list of interested users holds
    each user at most once and never the recipient; and once a user is
    listed, a further mark of interest by that user is answered 200 and
    writes nothing. *)
Theorem interest_is_recorded_once :
  (forall (t : Time) (r : HelpRequest),
      reachable t r ->
      NoDup (map userId (interested (metadata r)))
      /\ ~ In (recipientId r) (map userId (interested (metadata r))))
  /\ (forall (now : Time) (user : UserId) (r : HelpRequest),
         alreadyInterested user r = true ->
         user <> recipientId r ->
         markInterest now user (Some r)
         = mkOutcome (mkReply 200 true "Interest marked successfully")
                     Unchanged).
Proof.
  split.
  - apply (reachable_invariant_by_shape
             (fun r => NoDup (map userId (interested (metadata r)))
                       /\ ~ In (recipientId r)
                               (map userId (interested (metadata r))))).
    + intros catalog now newId requester profile body r H.
      apply createRoute_Saved in H.
      destruct H as (user & coords & cat & _ & _ & _ & _ & ->).
      simpl. split; [constructor|tauto].
    + intros now op r r' IH _ Hst _.
      destruct Hst; simpl; try exact IH.
      * destruct (assignUpdates_fixed patch cat r)
          as (_ & F2 & _ & _ & _ & _ & _ & _ & F9).
        simpl in F2, F9. rewrite F2, F9. exact IH.
      * destruct IH as [Hnd Hrec].
        rewrite map_app. simpl. split.
        -- apply (Permutation_NoDup
                    (l := actor :: map userId (interested (metadata r)))).
           ++ apply Permutation_cons_append.
           ++ constructor; [|exact Hnd].
              intro Hin. apply alreadyInterested_In in Hin. congruence.
        -- intro Hin. apply in_app_iff in Hin.
           destruct Hin as [Hin|[Hin|[]]]; [contradiction|].
           congruence.
    + intros now user r [Hnd Hrec] _ _ _.
      destruct (afterAccountDeletion_fields now user r)
        as (_ & F2 & _ & _ & _ & _ & _ & _ & _ & _ & _ & _ & _ & _ & Fi & _).
      rewrite F2, Fi. split.
      * apply NoDup_map_filter. exact Hnd.
      * intro Hin. apply Hrec. apply in_map_iff in Hin.
        destruct Hin as (i & E & Hi). apply filter_In in Hi.
        apply in_map_iff. exists i. tauto.
  - intros now user r Hal Hne. unfold markInterest, markInterested.
    apply isOwnerOf_false in Hne. rewrite Hne, Hal. reflexivity.
Qed.

(** D and E are listed once each; a second mark by E changes
    nothing. *)
Lemma interest_is_recorded_once_witness :
  (reachable 1300%Z interestedRequest
   /\ map userId (interested (metadata interestedRequest)) = ["D"; "E"]
   /\ NoDup (map userId (interested (metadata interestedRequest))))
  /\ markInterest 1400%Z "E" (Some interestedRequest)
     = mkOutcome (mkReply 200 true "Interest marked successfully") Unchanged.
Proof.
  pose proof (proj1 long_scenario_reachable) as H.
  split.
  - split; [exact H|]. split; [reflexivity|].
    exact (proj1 (proj1 interest_is_recorded_once 1300%Z interestedRequest H)).
  - refine (proj2 interest_is_recorded_once 1400%Z "E" interestedRequest _ _).
    + reflexivity.
    + discriminate.
Defined.

(** ** Ratings *)

(** X6.  In every reachable state the stars of each stored rating lie
    between 1 and 5, and a rating is present only on a request that
    carries a completion time, that is, one that was completed at some
    time.  The status itself need not be completed any more: the
    deletion of the donor's account sets the request back to open,
    removes the donor's rating and keeps the recipient's. *)
Theorem ratings_only_on_completed_requests :
  (forall (t : Time) (r : HelpRequest),
      reachable t r ->
      starsInRange (recipientRating (rating r))
      /\ starsInRange (donorRating (rating r))
      /\ (rating r <> mkRating None None -> completedAt r <> None))
  /\ (forall catalog (now : Time) (op : Op) (r r' : HelpRequest),
         effect (runOp catalog now op r) = Saved r' ->
         rating r' <> rating r -> status r = completed)
  /\ (forall (now : Time) (user : UserId) (r : HelpRequest),
         donorId r = Some user ->
         status (afterAccountDeletion now user r) = open
         /\ recipientRating (rating (afterAccountDeletion now user r))
            = recipientRating (rating r)
         /\ donorRating (rating (afterAccountDeletion now user r)) = None).
Proof.
  split; [|split].
  - apply (reachable_invariant_by_shape
             (fun r => starsInRange (recipientRating (rating r))
                       /\ starsInRange (donorRating (rating r))
                       /\ (rating r <> mkRating None None
                           -> completedAt r <> None))).
    + intros catalog now newId requester profile body r H.
      apply createRoute_Saved in H.
      destruct H as (user & coords & cat & _ & _ & _ & _ & ->).
      simpl. repeat split; auto;
        try (intro H; contradiction H; reflexivity).
    + intros now op r r' (IH1 & IH2 & IH3) Hsafe Hst _.
      destruct Hsafe as (_ & _ & Hdone).
      destruct Hst; simpl;
        try match goal with
            | Hv : validateRate _ _ = true |- _ =>
                unfold validateRate in Hv;
                apply andb_true_iff in Hv; destruct Hv as [Hv _];
                apply andb_true_iff in Hv; destruct Hv as [Hlo Hhi];
                apply Qle_bool_iff in Hlo; apply Qle_bool_iff in Hhi
            end;
        try (destruct (assignUpdates_fixed patch cat r)
              as (_ & _ & _ & _ & _ & _ & _ & F8 & _);
             destruct (assignUpdates_times patch cat r) as (_ & G2);
             simpl in F8; rewrite F8, G2);
        repeat split; try assumption; try discriminate;
        try match goal with
            | Hs : status r = completed |- _ =>
                intros _; destruct (Hdone Hs) as (a & c & _ & Hc & _);
                rewrite Hc; discriminate
            end.
    + intros now user r (IH1 & IH2 & IH3) _ _ _.
      destruct (afterAccountDeletion_fields now user r)
        as (_ & _ & _ & _ & _ & _ & _ & _ & _ & Fc & _ & _ & _ & _ & _ & Fr
            & Fdr & _).
      rewrite Fr, Fdr, Fc. split; [exact IH1|]. split.
      * destruct (isDonorOf user r); [exact I|exact IH2].
      * intro Hne. apply IH3. intro E. apply Hne.
        destruct (rating (afterAccountDeletion now user r)) as [a b] eqn:Er.
        simpl in Fr, Fdr. rewrite E in Fr, Fdr. simpl in Fr, Fdr.
        subst a. destruct (isDonorOf user r); subst b; reflexivity.
  - intros catalog now op r r' H Hne. apply runOp_Stored in H.
    destruct H as [H _].
    destruct H; simpl in Hne; try (contradiction Hne; reflexivity);
      try assumption.
    destruct (assignUpdates_fixed patch cat r)
      as (_ & _ & _ & _ & _ & _ & _ & F8 & _).
    simpl in F8. contradiction.
  - intros now user r Hd. apply isDonorOf_true in Hd.
    destruct (afterAccountDeletion_fields now user r)
      as (_ & _ & _ & _ & _ & _ & _ & _ & _ & _ & _ & _ & _ & _ & _ & Fr
          & Fdr & Fs & _).
    rewrite Fr, Fdr, Fs, Hd. repeat split; reflexivity.
Qed.

(** Both parties rated the completed request; after the deletion of
    D's account the request is open again and still carries R's five
    stars and the completion time. *)
Lemma ratings_only_on_completed_requests_witness :
  reachable 3300%Z reopenedRequest
  /\ status reopenedRequest = open
  /\ recipientRating (rating reopenedRequest)
     = Some (mkRatingData 5%Q "" 3100%Z)
  /\ starsInRange (recipientRating (rating reopenedRequest))
  /\ completedAt reopenedRequest <> None.
Proof.
  pose proof (proj2 (proj2 (proj2 long_scenario_reachable))) as H.
  split; [exact H|]. split; [reflexivity|]. split; [reflexivity|].
  destruct (proj1 ratings_only_on_completed_requests 3300%Z reopenedRequest H)
    as (H1 & _ & H3).
  split; [exact H1|].
  apply H3. discriminate.
Defined.

(** ** Saving a reachable request *)



(** ** The view counter *)



(** ** What a third party can do *)

(** X9.  A user who is neither the recipient nor the donor of a
    request can never remove it, and whatever such a user's operation
    stores keeps the title, description, items, priority, category,
    availability window, notes, ratings and completion time; the status
    changes only when that user approves an open request. *)
Theorem third_party_cannot_change_content :
  forall catalog (now : Time) (op : Op) (r : HelpRequest),
    actorOf op <> recipientId r ->
    donorId r <> Some (actorOf op) ->
    effect (runOp catalog now op r) <> Removed
    /\ forall r',
         effect (runOp catalog now op r) = Saved r' ->
         title r' = title r
         /\ description r' = description r
         /\ items r' = items r
         /\ priority r' = priority r
         /\ category r' = category r
         /\ availabilityWindow r' = availabilityWindow r
         /\ notes r' = notes r
         /\ rating r' = rating r
         /\ completedAt r' = completedAt r
         /\ (status r' = status r
             \/ (status r = open /\ status r' = approved
                 /\ op = OpApprove (actorOf op))).
Proof.
  intros catalog now op r Ho Hd. split.
  - destruct op; simpl in Ho, Hd.
    + intro H. unfold_routes_in H. cases_in H; discriminate H.
    + intro H. unfold_routes_in H. cases_in H; discriminate H.
    + intro H. unfold_routes_in H. cases_in H; discriminate H.
    + destruct (delete_guards actor r) as (H403 & _). simpl.
      rewrite (H403 Ho). discriminate.
    + intro H. unfold_routes_in H. cases_in H; discriminate H.
    + intro H. unfold_routes_in H. cases_in H; discriminate H.
    + intro H. unfold_routes_in H. cases_in H; discriminate H.
    + intro H. unfold_routes_in H. cases_in H; discriminate H.
    + intro H. unfold_routes_in H. cases_in H; discriminate H.
  - intros r' H. apply runOp_Stored in H. destruct H as [H _].
    destruct H; simpl in Ho, Hd; simpl;
      try contradiction;
      try (match goal with Hp : _ \/ _ |- _ => destruct Hp; contradiction end);
      try (repeat split; try reflexivity; left; reflexivity).
    repeat split; try reflexivity. right. repeat split; assumption.
Qed.

Lemma third_party_cannot_change_content_witness :
  effect (runOp scenarioCatalog 2500%Z (OpDelete "E") completedRequest)
  <> Removed.
Proof.
  refine (proj1 (@third_party_cannot_change_content scenarioCatalog 2500%Z
                   (OpDelete "E") completedRequest _ _)).
  - vm_compute. discriminate.
  - vm_compute. discriminate.
Defined.

(** ** Completion *)

(** X10.  A completion by someone who is neither recipient nor donor
    is answered 403 whatever the status; a completion by the recipient
    or the donor of a request that is not approved is answered 400;
    and the recipient or the donor of an approved request with a valid
    window stores status completed with the call time as completion
    time.  In the first two cases nothing is written. *)
Theorem complete_contract :
  forall (now : Time) (actor : UserId) (r : HelpRequest),
    (actor <> recipientId r -> donorId r <> Some actor ->
     completeRoute now actor (Some r)
     = respond
         (failure 403
            "Only the recipient or donor can mark this request as complete"))
    /\ (actor = recipientId r \/ donorId r = Some actor ->
        status r <> approved ->
        completeRoute now actor (Some r)
        = respond (failure 400 "Only approved help requests can be completed"))
    /\ (actor = recipientId r \/ donorId r = Some actor ->
        status r = approved ->
        windowValid r ->
        completeRoute now actor (Some r)
        = mkOutcome (mkReply 200 true "Help request marked as completed")
            (Saved (set_updatedAt now
                      (set_completedAt (Some now) (set_status completed r))))).
Proof.
  intros now actor r.
  unfold completeRoute, validateHelpRequestAccess, completeHelpRequest.
  split; [|split].
  - intros Ho Hd. apply isOwnerOf_false in Ho. apply isDonorOf_false in Hd.
    rewrite Ho, Hd. reflexivity.
  - intros Hp Hs.
    assert (E : negb (isDonorOf actor r) && negb (isOwnerOf actor r) = false).
    { destruct Hp as [Hp|Hp].
      - apply isOwnerOf_true in Hp. rewrite Hp. apply andb_false_r.
      - apply isDonorOf_true in Hp. rewrite Hp. reflexivity. }
    rewrite E. apply Status_eqb_false in Hs. rewrite Hs. reflexivity.
  - intros Hp Hs Hw.
    assert (E : negb (isDonorOf actor r) && negb (isOwnerOf actor r) = false).
    { destruct Hp as [Hp|Hp].
      - apply isOwnerOf_true in Hp. rewrite Hp. apply andb_false_r.
      - apply isDonorOf_true in Hp. rewrite Hp. reflexivity. }
    rewrite E. apply Status_eqb_eq in Hs. rewrite Hs. simpl.
    unfold complete. rewrite save_valid; [reflexivity|exact Hw].
Qed.

Lemma complete_contract_witness :
  completeRoute 2500%Z "R" (Some approvedRequest)
  = mkOutcome (mkReply 200 true "Help request marked as completed")
      (Saved (set_updatedAt 2500%Z
                (set_completedAt (Some 2500%Z)
                   (set_status completed approvedRequest)))).
Proof.
  refine (proj2 (proj2 (complete_contract 2500%Z "R" approvedRequest)) _ _ _).
  - left. reflexivity.
  - reflexivity.
  - unfold windowValid. vm_compute. reflexivity.
Defined.

(** ** Flags *)

(** X11.  Anyone may flag a request in any status: with a valid reason
    and a valid window the flag is stored with the reason, the caller
    and the call time, replacing whatever flag was there, and nothing
    but the flag and the update time changes.  Unflagging a flagged
    request clears all four flag fields and keeps the view counter and
    the interest list. *)
Theorem flag_overwrites_and_unflag_clears :
  (forall (now : Time) (actor : UserId) (r : HelpRequest) (why : string),
      validateFlag why = true ->
      windowValid r ->
      flagRoute now actor (Some r) why
      = mkOutcome (mkReply 200 true "Help request flagged for review")
          (Saved (set_updatedAt now
                    (set_metadata
                       (mkMetadata (views (metadata r))
                                   (interested (metadata r))
                                   (mkFlagged true (Some why) (Some actor)
                                              (Some now)))
                       r))))
  /\ (forall (t1 t2 : Time) (actor : UserId) (why : string)
             (r r1 r2 : HelpRequest),
         flag t1 why actor r = Some r1 ->
         unflag t2 r1 = Some r2 ->
         flagged (metadata r2) = mkFlagged false None None None
         /\ views (metadata r2) = views (metadata r)
         /\ interested (metadata r2) = interested (metadata r)
         /\ set_updatedAt (updatedAt r)
              (set_metadata (metadata r) r2) = 
            set_updatedAt (updatedAt r) (set_metadata (metadata r) r)).
Proof.
  split.
  - intros now actor r why Hv Hw. unfold flagRoute, flagHelpRequest, flag.
    rewrite Hv. simpl. rewrite save_valid; [reflexivity|exact Hw].
  - intros t1 t2 actor why r r1 r2 H1 H2.
    unfold flag in H1. apply save_Some in H1. destruct H1 as [-> _].
    unfold unflag in H2. apply save_Some in H2. destruct H2 as [-> _].
    repeat split; reflexivity.
Qed.

Lemma flag_overwrites_and_unflag_clears_witness :
  flagRoute 2500%Z "E" (Some completedRequest) "This request looks wrong"
  = mkOutcome (mkReply 200 true "Help request flagged for review")
      (Saved (set_updatedAt 2500%Z
                (set_metadata
                   (mkMetadata (views (metadata completedRequest))
                               (interested (metadata completedRequest))
                               (mkFlagged true (Some "This request looks wrong")
                                          (Some "E") (Some 2500%Z)))
                   completedRequest))).
Proof.
  refine (proj1 flag_overwrites_and_unflag_clears 2500%Z "E" completedRequest
                "This request looks wrong" _ _).
  - reflexivity.
  - unfold windowValid. vm_compute. reflexivity.
Defined.

(** ** The approval guard and the validators' helpers *)

(** X12.  The approval middleware lets a caller through exactly when
    [canApproveRequest] holds (not the owner, status open); a caller
    who may approve a request may not modify it, and the other way
    round. *)
Theorem approve_guard_is_canApproveRequest :
  forall (user : UserId) (r : HelpRequest),
    (validateHelpRequestAccess ActApprove user (Some r) = inr r
     <-> canApproveRequest user r = true)
    /\ (canApproveRequest user r = true -> canModifyRequest user r = false)
    /\ (canModifyRequest user r = true -> canApproveRequest user r = false).
Proof.
  intros user r.
  unfold validateHelpRequestAccess, canApproveRequest, canModifyRequest,
    isOwnerOf.
  destruct (String.eqb (recipientId r) user);
    destruct (Status_eqb (status r) open); simpl;
    repeat split; intro H; try reflexivity; try discriminate H.
Qed.

Lemma approve_guard_is_canApproveRequest_witness :
  validateHelpRequestAccess ActApprove "D" (Some scenarioRequest)
  = inr scenarioRequest.
Proof.
  apply (proj2 (proj1 (approve_guard_is_canApproveRequest "D" scenarioRequest))).
  reflexivity.
Defined.

(** ** More on the nearby listing *)

Lemma Priority_eqb_true (a b : Priority) : Priority_eqb a b = true -> a = b.
Proof. destruct a, b; simpl; intro H; congruence. Qed.

Lemma byDistance_total (a b : ListedRequest) :
  byDistance a b = false -> byDistance b a = true.
Proof.
  unfold byDistance. intro H. apply Qle_bool_iff.
  destruct (Qlt_le_dec (toNumber (distance b)) (toNumber (distance a)))
    as [Hlt|Hle].
  - apply Qlt_le_weak. exact Hlt.
  - apply Qle_bool_iff in Hle. congruence.
Qed.

(** X13.  Every item of the listing is a stored request that passes
    the caller's filters: it does not belong to the caller, and it has
    the requested status, category and priority and matches the search
    text in title or description, for each filter that is present. *)
Theorem listing_honours_filters :
  forall (svc : Services) (now : Time) (caller : option UserId)
         (profile : option User.t) (q : ListQuery) (docs : list HelpRequest)
         (x : ListedRequest),
    In x (requests (getHelpRequests svc now caller profile q docs)) ->
    In (request x) docs
    /\ (forall u, caller = Some u -> recipientId (request x) <> u)
    /\ (forall s, qStatus q = Some s -> status (request x) = s)
    /\ (forall c, qCategory q = Some c -> category (request x) = c)
    /\ (forall p, qPriority q = Some p -> priority (request x) = p)
    /\ (forall s, qSearch q = Some s ->
                  regexTest svc s (title (request x)) = true
                  \/ regexTest svc s (description (request x)) = true).
Proof.
  intros svc now caller profile q docs x H.
  apply listed_from_store in H. destruct H as (r & Hin & Hm & -> & _).
  rewrite listed_request. unfold matches in Hm. simpl in Hm.
  repeat (apply andb_true_iff in Hm; destruct Hm as [Hm ?]).
  split; [exact Hin|].
  split; [|split; [|split; [|split]]].
  - intros u ->. simpl in Hm. apply negb_true_iff in Hm.
    apply String.eqb_neq in Hm. exact Hm.
  - intros s E. rewrite E in *. simpl in *. apply Status_eqb_eq. assumption.
  - intros c E. rewrite E in *. simpl in *. apply Category_eqb_eq. assumption.
  - intros p E. rewrite E in *. simpl in *. apply Priority_eqb_true. assumption.
  - intros s E. rewrite E in *. simpl in *. apply orb_true_iff. assumption.
Qed.

Lemma listing_honours_filters_witness :
  In (addExtras scenarioServices
        (resolveOrigin (Some "D") (Some donorD) (scenarioQuery 10))
        (scenarioQuery 10) scenarioRequest)
     (requests (getHelpRequests scenarioServices 1500%Z (Some "D") (Some donorD)
                                (scenarioQuery 10) [scenarioRequest]))
  /\ recipientId scenarioRequest <> "D".
Proof.
  assert (E : In (addExtras scenarioServices
                    (resolveOrigin (Some "D") (Some donorD) (scenarioQuery 10))
                    (scenarioQuery 10) scenarioRequest)
                 (requests (getHelpRequests scenarioServices 1500%Z (Some "D")
                              (Some donorD) (scenarioQuery 10)
                              [scenarioRequest]))).
  { vm_compute. left. reflexivity. }
  split; [exact E|].
  exact (proj1 (proj2 (listing_honours_filters _ _ _ _ _ _ _ E)) "D" eq_refl).
Defined.

Lemma Sorted_weaken_In {A : Type} (R R' : A -> A -> Prop) (l : list A) :
  (forall a b, In a l -> In b l -> R a b -> R' a b) ->
  Sorted R l -> Sorted R' l.
Proof.
  intros HR HS. induction HS as [|a l HS IH Hd]; constructor.
  - apply IH. intros x y Hx Hy. apply HR; right; assumption.
  - destruct Hd as [|b l' Hab]; constructor.
    apply HR; [left; reflexivity|right; left; reflexivity|exact Hab].
Qed.

(** A comparator that never asks for a swap leaves the array as it
    is. *)
Lemma sortBy_without_swaps {A : Type} (leb : A -> A -> bool) (l : list A) :
  (forall a b, In a l -> In b l -> leb a b = true) -> sortBy leb l = l.
Proof.
  induction l as [|a t IH]; intro H; simpl; [reflexivity|].
  fold (sortBy leb t).
  rewrite IH by (intros x y Hx Hy; apply H; right; assumption).
  destruct t as [|b t']; simpl; [reflexivity|].
  rewrite H; [reflexivity|left; reflexivity|right; left; reflexivity].
Qed.

(** The page is never longer than [limit], and after the sort of the
    controller the [distance] fields ascend. *)
Lemma listing_bounded_and_sorted_by_field (svc : Services) (now : Time)
      (caller : option UserId) (profile : option User.t) (q : ListQuery)
      (docs : list HelpRequest) :
  List.length (requests (getHelpRequests svc now caller profile q docs))
  <= limit q
  /\ (hasUserLocation (resolveOrigin caller profile q) = true ->
      Sorted (fun a b => byDistance a b = true)
             (requests (getHelpRequests svc now caller profile q docs))).
Proof.
  unfold getHelpRequests.
  set (o := resolveOrigin caller profile q).
  set (fetched := findPage svc (buildQuery now caller o q) (limit q)
                           ((page q - 1) * limit q) docs).
  assert (Hlen : List.length fetched <= limit q) by apply findPage_length.
  destruct (strictRadius o q) eqn:Es.
  - assert (Hloc : hasUserLocation o = true).
    { unfold strictRadius, located in Es.
      repeat (apply andb_true_iff in Es; destruct Es as [Es ?]).
      exact Es. }
    rewrite Hloc. simpl. split.
    + unfold slice.
      match goal with
      | |- List.length (firstn ?n ?l) <= _ =>
          pose proof (firstn_le_length n l) as Hf
      end.
      lia.
    + intros _. unfold slice. apply Sorted_firstn, Sorted_skipn, Sorted_sortBy.
      apply byDistance_total.
  - simpl. split.
    + destruct (hasUserLocation o);
        [rewrite length_sortBy|]; rewrite length_map; exact Hlen.
    + intros ->. apply Sorted_sortBy. apply byDistance_total.
Qed.

(** X14.  The listing never returns more than [limit] items.  When an
    origin with non-zero latitude and longitude was resolved, every
    item carries the distance of the source's helper (the Haversine
    formula rounded to two decimals) from that origin to its pickup
    place, and the items come in ascending order of that distance.
    When no such origin was resolved (none at all, or one with a zero
    coordinate) no item carries a distance and the items stay in the
    order of the store's page. *)
Theorem listing_is_bounded_and_ordered :
  forall (svc : Services) (now : Time) (caller : option UserId)
         (profile : option User.t) (q : ListQuery) (docs : list HelpRequest),
    let o := resolveOrigin caller profile q in
    let out := requests (getHelpRequests svc now caller profile q docs) in
    let helperDistance (r : HelpRequest) :=
      Haversine.rounded (toNumber (userLatitude o)) (toNumber (userLongitude o))
                        (latitude (coordinates (pickupLocation r)))
                        (longitude (coordinates (pickupLocation r))) in
    List.length out <= limit q
    /\ (usesHelperDistance svc ->
        located o = true ->
        (forall x, In x out -> distance x = Some (helperDistance (request x)))
        /\ StronglySorted
             (fun a b =>
                (helperDistance (request a) <= helperDistance (request b))%Q)
             out)
    /\ (located o = false ->
        (forall x, In x out -> distance x = None)
        /\ out = map (addExtras svc o q)
                     (findPage svc (buildQuery now caller o q) (limit q)
                               ((page q - 1) * limit q) docs)).
Proof.
  intros svc now caller profile q docs o out helperDistance.
  destruct (listing_bounded_and_sorted_by_field svc now caller profile q docs)
    as [Hlen Hsorted].
  fold o out in Hlen, Hsorted.
  split; [exact Hlen|]. split.
  - intros Hd Hloc.
    assert (Hx : forall x, In x out ->
                           distance x = Some (helperDistance (request x))).
    { intros x Hin. apply listed_from_store in Hin.
      destruct Hin as (r & _ & _ & -> & _). rewrite listed_request.
      fold o. unfold addExtras. rewrite Hloc. cbn [distance].
      rewrite Hd. reflexivity. }
    split; [exact Hx|].
    apply Sorted_StronglySorted.
    { intros a b c Hab Hbc. eapply Qle_trans; eassumption. }
    apply Sorted_weaken_In with (R := fun a b => byDistance a b = true).
    + intros a b Ha Hb Hab. unfold byDistance in Hab.
      rewrite (Hx a Ha), (Hx b Hb) in Hab. cbn [toNumber] in Hab.
      apply Qle_bool_iff. exact Hab.
    + apply Hsorted. unfold located in Hloc.
      repeat (apply andb_true_iff in Hloc; destruct Hloc as [Hloc ?]).
      exact Hloc.
  - intros Hnl.
    assert (Hs : strictRadius o q = false).
    { unfold strictRadius. rewrite Hnl. reflexivity. }
    assert (E : out = map (addExtras svc o q)
                          (findPage svc (buildQuery now caller o q) (limit q)
                                    ((page q - 1) * limit q) docs)).
    { unfold out, getHelpRequests. fold o. rewrite Hs. cbn [requests].
      destruct (hasUserLocation o); [|reflexivity].
      apply sortBy_without_swaps. intros a b Ha Hb.
      apply in_map_iff in Ha. destruct Ha as (ra & <- & _).
      apply in_map_iff in Hb. destruct Hb as (rb & <- & _).
      unfold byDistance, addExtras. rewrite Hnl. reflexivity. }
    split; [|exact E].
    intros x Hin. rewrite E in Hin. apply in_map_iff in Hin.
    destruct Hin as (r & <- & _). unfold addExtras. rewrite Hnl. reflexivity.
Qed.

(** X15.  The second copy of the listing attaches a distance to every
    item, returns the items in ascending order of distance, and never
    more than [limit] of them. *)
Theorem second_listing_always_measures_and_orders :
  forall (svc : Services) (now : Time) (caller : option UserId)
         (profile : option User.t) (q : ListQuery) (docs : list HelpRequest),
    (forall x,
        In x (requests (MumbaiVariant.getHelpRequests svc now caller profile
                                                       q docs)) ->
        distance x <> None)
    /\ Sorted (fun a b => byDistance a b = true)
              (requests (MumbaiVariant.getHelpRequests svc now caller profile
                                                        q docs))
    /\ List.length
         (requests (MumbaiVariant.getHelpRequests svc now caller profile
                                                   q docs))
       <= limit q.
Proof.
  intros svc now caller profile q docs.
  unfold MumbaiVariant.getHelpRequests. simpl.
  split; [|split].
  - intros x H. apply In_sortBy in H. apply in_map_iff in H.
    destruct H as (r & <- & _). unfold MumbaiVariant.addExtras. simpl.
    discriminate.
  - apply Sorted_sortBy. apply byDistance_total.
  - rewrite length_sortBy, length_map. apply findPage_length.
Qed.

(** ** The dashboard's nearby requests *)

(** X16.  The dashboard shows at most five nearby requests, and each
    of them is a stored request of someone else that is open, not yet
    expired, and inside the ten-kilometre cap around the coordinates
    of the user's profile, whose latitude and longitude are both
    non-zero.  A profile without coordinates, or with a zero latitude
    or longitude, is shown none. *)
Theorem dashboard_shows_other_peoples_open_requests :
  forall (svc : Services) (now : Time) (user : UserId) (profile : User.t)
         (docs : list HelpRequest),
    List.length (dashboardNearby svc now user profile docs) <= 5
    /\ (forall r,
          In r (dashboardNearby svc now user profile docs) ->
          In r docs
          /\ recipientId r <> user
          /\ status r = open
          /\ (now < endDate (availabilityWindow r))%Z
          /\ exists c,
               User.coordinates profile = Some c
               /\ ~ (latitude c == 0)%Q
               /\ ~ (longitude c == 0)%Q
               /\ centerSphere svc (longitude c) (latitude c) (10 / 6371)%Q
                               (coordinates (pickupLocation r)) = true)
    /\ (User.coordinates profile = None ->
        dashboardNearby svc now user profile docs = [])
    /\ (forall c,
          User.coordinates profile = Some c ->
          (latitude c == 0)%Q \/ (longitude c == 0)%Q ->
          dashboardNearby svc now user profile docs = []).
Proof.
  intros svc now user profile docs. unfold dashboardNearby.
  split; [|split; [|split]].
  - destruct (User.coordinates profile) as [c|]; [|simpl; lia].
    destruct (truthy (Some (latitude c)) && truthy (Some (longitude c)));
      [|simpl; lia].
    etransitivity; [apply filter_length_le|].
    unfold findNearbyRequests. apply findPage_length.
  - destruct (User.coordinates profile) as [c|]; [|intros r []].
    destruct (truthy (Some (latitude c)) && truthy (Some (longitude c)))
      eqn:Et; [|intros r []].
    intros r H. apply filter_In in H. destruct H as [H Hne].
    unfold findNearbyRequests in H. apply findPage_In in H.
    destruct H as [Hin Hm].
    pose proof (matches_unexpired _ _ _ Hm) as Hexp. simpl in Hexp.
    unfold matches in Hm. simpl in Hm.
    repeat (apply andb_true_iff in Hm; destruct Hm as [Hm ?]).
    split; [exact Hin|]. split.
    + apply negb_true_iff in Hne. apply String.eqb_neq in Hne. exact Hne.
    + split; [apply Status_eqb_eq; assumption|].
      split; [exact Hexp|].
      exists c. split; [reflexivity|].
      apply andb_true_iff in Et. destruct Et as [Elat Elon].
      unfold truthy in Elat, Elon.
      apply negb_true_iff in Elat. apply negb_true_iff in Elon.
      split; [intro E; apply Qeq_bool_iff in E; congruence|].
      split; [intro E; apply Qeq_bool_iff in E; congruence|].
      assumption.
  - intros ->. reflexivity.
  - intros c -> [E|E]; apply Qeq_bool_iff in E; unfold truthy; rewrite E;
      simpl; rewrite ?andb_false_r; reflexivity.
Qed.

(** D's listing within 20 km of a store that holds R's request (5.56 km
    away, created first) and a newer one 16.68 km away, with the helper
    of the source. *)
Lemma wide_listing :
  requests (getHelpRequests helperServices 1500%Z (Some "D") (Some donorD)
                            wideQuery [scenarioRequest; southRequest])
  = [ mkListedRequest scenarioRequest (Some (556 # 100)%Q) (Some "")
                      "query_parameters";
      mkListedRequest southRequest (Some (1668 # 100)%Q) (Some "")
                      "query_parameters" ].
Proof.
  set (o := resolveOrigin (Some "D") (Some donorD) wideQuery).
  assert (Hf : findPage helperServices (buildQuery 1500%Z (Some "D") o wideQuery)
                        (limit wideQuery)
                        ((page wideQuery - 1) * limit wideQuery)
                        [scenarioRequest; southRequest]
               = [southRequest; scenarioRequest]) by (vm_compute; reflexivity).
  assert (Hs : strictRadius o wideQuery = true) by (vm_compute; reflexivity).
  assert (Hh : hasUserLocation o = true) by reflexivity.
  assert (E1 : addExtras helperServices o wideQuery scenarioRequest
               = mkListedRequest scenarioRequest (Some (556 # 100)%Q) (Some "")
                                 "query_parameters").
  { rewrite <- HaversineRounding.rounded_scenario. reflexivity. }
  assert (E2 : addExtras helperServices o wideQuery southRequest
               = mkListedRequest southRequest (Some (1668 # 100)%Q) (Some "")
                                 "query_parameters").
  { rewrite <- HaversineRounding.rounded_far_scenario. reflexivity. }
  unfold getHelpRequests. fold o. rewrite Hf, Hs, Hh.
  cbn [map]. rewrite E1, E2. vm_compute. reflexivity.
Qed.

Lemma listing_is_bounded_and_ordered_witness :
  map _id (findPage helperServices
             (buildQuery 1500%Z (Some "D")
                         (resolveOrigin (Some "D") (Some donorD) wideQuery)
                         wideQuery)
             20 0 [scenarioRequest; southRequest])
  = ["req7"; "req1"]
  /\ map (fun x => (_id (request x), distance x))
         (requests (getHelpRequests helperServices 1500%Z (Some "D")
                                    (Some donorD) wideQuery
                                    [scenarioRequest; southRequest]))
     = [("req1", Some (556 # 100)%Q); ("req7", Some (1668 # 100)%Q)]
  /\ StronglySorted
       (fun a b =>
          (Haversine.rounded 40.05 (-74)
                             (latitude (coordinates (pickupLocation (request a))))
                             (longitude (coordinates (pickupLocation (request a))))
           <= Haversine.rounded 40.05 (-74)
                             (latitude (coordinates (pickupLocation (request b))))
                             (longitude (coordinates (pickupLocation (request b)))))%Q)
       (requests (getHelpRequests helperServices 1500%Z (Some "D")
                                  (Some donorD) wideQuery
                                  [scenarioRequest; southRequest]))
  /\ map (fun x => (_id (request x), distance x))
         (requests (getHelpRequests helperServices 1500%Z (Some "Z")
                                    (Some equatorUser) queryWithoutLocation
                                    [scenarioRequest; southRequest]))
     = [("req7", None); ("req1", None)].
Proof.
  split; [vm_compute; reflexivity|].
  split; [rewrite wide_listing; reflexivity|].
  split.
  - exact (proj2 (proj1 (proj2 (listing_is_bounded_and_ordered
                                  helperServices 1500%Z (Some "D") (Some donorD)
                                  wideQuery [scenarioRequest; southRequest]))
                        helperServices_usesHelperDistance eq_refl)).
  - rewrite (proj2 (proj2 (proj2 (listing_is_bounded_and_ordered
                                    helperServices 1500%Z (Some "Z")
                                    (Some equatorUser) queryWithoutLocation
                                    [scenarioRequest; southRequest]))
                          eq_refl)).
    vm_compute. reflexivity.
Defined.

Lemma second_listing_always_measures_and_orders_witness :
  In (MumbaiVariant.addExtras scenarioServices (Some "E")
        (MumbaiVariant.resolveOrigin (Some "E") (Some callerWithoutLocation)
                                     queryWithoutLocation)
        queryWithoutLocation nearDefaultRequest)
     (requests (MumbaiVariant.getHelpRequests scenarioServices 1500%Z
                  (Some "E") (Some callerWithoutLocation) queryWithoutLocation
                  [nearDefaultRequest; farFromDefaultRequest]))
  /\ distance
       (MumbaiVariant.addExtras scenarioServices (Some "E")
          (MumbaiVariant.resolveOrigin (Some "E") (Some callerWithoutLocation)
                                       queryWithoutLocation)
          queryWithoutLocation nearDefaultRequest)
     <> None.
Proof.
  assert (E : In (MumbaiVariant.addExtras scenarioServices (Some "E")
                    (MumbaiVariant.resolveOrigin (Some "E")
                       (Some callerWithoutLocation) queryWithoutLocation)
                    queryWithoutLocation nearDefaultRequest)
                 (requests (MumbaiVariant.getHelpRequests scenarioServices
                              1500%Z (Some "E") (Some callerWithoutLocation)
                              queryWithoutLocation
                              [nearDefaultRequest; farFromDefaultRequest]))).
  { vm_compute. left. reflexivity. }
  split; [exact E|].
  exact (proj1 (second_listing_always_measures_and_orders scenarioServices
                  1500%Z (Some "E") (Some callerWithoutLocation)
                  queryWithoutLocation
                  [nearDefaultRequest; farFromDefaultRequest]) _ E).
Defined.

Lemma dashboard_shows_other_peoples_open_requests_witness :
  In scenarioRequest
     (dashboardNearby scenarioServices 1500%Z "D" donorD [scenarioRequest])
  /\ recipientId scenarioRequest <> "D"
  /\ status scenarioRequest = open
  /\ User.coordinates equatorUser = Some (mkCoordinates 0 30)
  /\ dashboardNearby scenarioServices 1500%Z "Z" equatorUser [scenarioRequest]
     = []
  /\ User.coordinates callerWithoutLocation = None
  /\ dashboardNearby scenarioServices 1500%Z "E" callerWithoutLocation
                     [scenarioRequest]
     = [].
Proof.
  assert (E : In scenarioRequest
                 (dashboardNearby scenarioServices 1500%Z "D" donorD
                                  [scenarioRequest])).
  { vm_compute. left. reflexivity. }
  split; [exact E|].
  destruct (proj1 (proj2 (dashboard_shows_other_peoples_open_requests
                            scenarioServices 1500%Z "D" donorD
                            [scenarioRequest]))
                  scenarioRequest E) as (_ & Hne & Hs & _).
  split; [exact Hne|]. split; [exact Hs|].
  split; [reflexivity|].
  split.
  - apply (proj2 (proj2 (proj2 (dashboard_shows_other_peoples_open_requests
                                  scenarioServices 1500%Z "Z" equatorUser
                                  [scenarioRequest])))
                 (mkCoordinates 0 30) eq_refl).
    left. reflexivity.
  - split; [reflexivity|].
    apply (proj1 (proj2 (proj2 (dashboard_shows_other_peoples_open_requests
                                  scenarioServices 1500%Z "E"
                                  callerWithoutLocation [scenarioRequest])))).
    reflexivity.
Defined.

(** ** The location service *)

Lemma Qle_bool_total (a b : Q) : Qle_bool a b = false -> Qle_bool b a = true.
Proof.
  intro H. apply Qle_bool_iff.
  destruct (Qlt_le_dec b a) as [Hlt|Hle].
  - apply Qlt_le_weak. exact Hlt.
  - apply Qle_bool_iff in Hle. congruence.
Qed.

Lemma Sorted_weaken {A : Type} (R R' : A -> A -> Prop) (l : list A) :
  (forall a b, R a b -> R' a b) -> Sorted R l -> Sorted R' l.
Proof.
  intros HR HS. induction HS as [|a l HS IH Hd]; constructor.
  - exact IH.
  - destruct Hd; constructor. apply HR. assumption.
Qed.

(** X17.  [findLocationsWithinRadius] returns exactly the locations
    whose distance from the centre is at most the radius, each paired
    with that distance, in ascending order of distance. *)
Theorem locations_within_radius_are_exact_and_ordered :
  forall (A : Type) (svc : Services) (coordsOf : A -> Coordinates)
         (centerLat centerLon : Q) (locations : list A) (radiusKm : Q),
    (forall (a : A) (d : Q),
        In (a, d) (findLocationsWithinRadius svc coordsOf centerLat centerLon
                                             locations radiusKm)
        <-> In a locations
            /\ d = calculateDistance svc centerLat centerLon
                                     (latitude (coordsOf a))
                                     (longitude (coordsOf a))
            /\ (d <= radiusKm)%Q)
    /\ Sorted (fun x y => (snd x <= snd y)%Q)
              (findLocationsWithinRadius svc coordsOf centerLat centerLon
                                         locations radiusKm).
Proof.
  intros A svc coordsOf centerLat centerLon locations radiusKm.
  unfold findLocationsWithinRadius. split.
  - intros a d. rewrite In_sortBy, filter_In, in_map_iff. simpl. split.
    + intros ((a' & E & Hin) & Hle). injection E as -> <-.
      apply Qle_bool_iff in Hle. auto.
    + intros (Hin & -> & Hle). split.
      * exists a. auto.
      * apply Qle_bool_iff. exact Hle.
  - apply Sorted_weaken
      with (R := fun x y : A * Q => Qle_bool (snd x) (snd y) = true).
    + intros x y H. apply Qle_bool_iff. exact H.
    + apply Sorted_sortBy. intros x y. apply Qle_bool_total.
Qed.

Lemma locations_within_radius_are_exact_and_ordered_witness :
  In (scenarioRequest, 5.56%Q)
     (getNearbyHelpRequests scenarioServices 40.05%Q (-74)%Q
                            [scenarioRequest] 10%Q).
Proof.
  apply (proj2 (proj1 (locations_within_radius_are_exact_and_ordered
                         scenarioServices
                         (fun r => coordinates (pickupLocation r))
                         40.05%Q (-74)%Q [scenarioRequest] 10%Q)
                      scenarioRequest 5.56%Q)).
  split; [left; reflexivity|].
  split; [vm_compute; reflexivity|].
  vm_compute. discriminate.
Defined.

Lemma Qle_bool_mono (c d1 d2 : Q) :
  (d1 <= d2)%Q -> Qle_bool d2 c = true -> Qle_bool d1 c = true.
Proof.
  intros H E. apply Qle_bool_iff. apply Qle_bool_iff in E.
  eapply Qle_trans; eassumption.
Qed.

(** X18.  The distance category never goes down when the distance
    goes up: nearby, close, moderate, far, very_far in that order. *)
Theorem distance_category_is_monotone :
  forall d1 d2 : Q,
    (d1 <= d2)%Q ->
    categoryRank (getDistanceCategory d1) <= categoryRank (getDistanceCategory d2).
Proof.
  intros d1 d2 H. unfold getDistanceCategory.
  pose proof (@Qle_bool_mono 2 d1 d2 H) as M2.
  pose proof (@Qle_bool_mono 5 d1 d2 H) as M5.
  pose proof (@Qle_bool_mono 15 d1 d2 H) as M15.
  pose proof (@Qle_bool_mono 30 d1 d2 H) as M30.
  destruct (Qle_bool d2 2), (Qle_bool d2 5), (Qle_bool d2 15),
    (Qle_bool d2 30), (Qle_bool d1 2), (Qle_bool d1 5), (Qle_bool d1 15),
    (Qle_bool d1 30); simpl; try lia;
    try discriminate (M2 eq_refl); try discriminate (M5 eq_refl);
    try discriminate (M15 eq_refl); discriminate (M30 eq_refl).
Qed.

Lemma distance_category_is_monotone_witness :
  categoryRank (getDistanceCategory 4%Q) <= categoryRank (getDistanceCategory 16%Q).
Proof.
  apply distance_category_is_monotone. vm_compute. discriminate.
Defined.

(** X19.  The suggested search radius never exceeds fifty
    kilometres, whatever the items and the distance helper. *)
Theorem suggested_radius_is_capped :
  forall (svc : Services) (userLat userLon : Q) (nearbyItems : list Coordinates),
    (suggestOptimalRadius svc userLat userLon nearbyItems <= 50)%Q.
Proof.
  intros svc userLat userLon nearbyItems. unfold suggestOptimalRadius.
  destruct (10 <=? _); [apply Q.le_min_r|].
  destruct (5 <=? _);
    [eapply Qle_trans; [apply Q.le_min_r|vm_compute; discriminate]|].
  destruct (0 <? _);
    [eapply Qle_trans; [apply Q.le_min_r|vm_compute; discriminate]|].
  vm_compute. discriminate.
Qed.

Lemma length_filter_Permutation {A : Type} (p : A -> bool) (l l' : list A) :
  Permutation l l' -> List.length (filter p l) = List.length (filter p l').
Proof.
  intro H. induction H as [|x l l' H IH|x y l|l l' l'' H1 IH1 H2 IH2]; simpl.
  - reflexivity.
  - destruct (p x); simpl; congruence.
  - destruct (p x), (p y); reflexivity.
  - congruence.
Qed.

Lemma length_filter_map {A B : Type} (f : A -> B) (p : B -> bool)
      (l : list A) :
  List.length (filter p (map f l))
  = List.length (filter (fun a => p (f a)) l).
Proof.
  induction l as [|a l IH]; simpl; [reflexivity|].
  destruct (p (f a)); simpl; congruence.
Qed.

Lemma length_filter_le {A : Type} (p q : A -> bool) (l : list A) :
  (forall x, p x = true -> q x = true) ->
  List.length (filter p l) <= List.length (filter q l).
Proof.
  intro H. induction l as [|a l IH]; simpl; [lia|].
  destruct (p a) eqn:E.
  - rewrite (H a E). simpl. lia.
  - destruct (q a); simpl; lia.
Qed.

Lemma sorted_prefix_below (l : list Q) :
  StronglySorted (fun a b => Qle_bool a b = true) l ->
  forall k, k < List.length l ->
            S k <= List.length (filter (fun d => Qle_bool d (nth k l 0%Q)) l).
Proof.
  intro HS. induction HS as [|a t HS IH Hall]; intros k Hk; simpl in Hk.
  - lia.
  - destruct k as [|k]; simpl.
    + assert (E : Qle_bool a a = true) by (apply Qle_bool_iff, Qle_refl).
      rewrite E. simpl. lia.
    + assert (Hk' : k < List.length t) by lia.
      assert (E : Qle_bool a (nth k t 0%Q) = true).
      { rewrite Forall_forall in Hall. apply Hall. apply nth_In. exact Hk'. }
      rewrite E. simpl. specialize (IH k Hk'). lia.
Qed.

Lemma sortBy_Qle_StronglySorted (l : list Q) :
  StronglySorted (fun a b => Qle_bool a b = true) (sortBy Qle_bool l).
Proof.
  apply Sorted_StronglySorted.
  - intros a b c Hab Hbc. apply Qle_bool_iff.
    apply Qle_bool_iff in Hab. apply Qle_bool_iff in Hbc.
    eapply Qle_trans; eassumption.
  - apply Sorted_sortBy. apply Qle_bool_total.
Qed.

(** The number of items whose distance is at most the [k]-th smallest
    distance is at least [k + 1]. *)
Lemma closest_items_are_within (svc : Services) (userLat userLon : Q)
      (nearbyItems : list Coordinates) (k : nat) :
  let dist := fun c => calculateDistance svc userLat userLon
                                         (latitude c) (longitude c) in
  k < List.length nearbyItems ->
  S k <= List.length
           (filter (fun c => Qle_bool (dist c)
                               (nth k (sortBy Qle_bool (map dist nearbyItems))
                                    0%Q))
                   nearbyItems).
Proof.
  intros dist Hk.
  rewrite <- (length_filter_map dist
                (fun d => Qle_bool d (nth k (sortBy Qle_bool
                                               (map dist nearbyItems)) 0%Q))).
  rewrite <- (length_filter_Permutation _
                (Permutation_sortBy Qle_bool (map dist nearbyItems))).
  apply sorted_prefix_below.
  - apply sortBy_Qle_StronglySorted.
  - rewrite length_sortBy, length_map. exact Hk.
Qed.

Lemma Qmin_below_cap (d cap : Q) : (Qmin d cap < cap)%Q -> Qmin d cap = d.
Proof.
  unfold Qmin, GenericMinMax.gmin.
  destruct (d ?= cap)%Q; intro H; try reflexivity.
  exfalso. exact (Qlt_irrefl _ H).
Qed.

(** X20.  When the suggested radius stays below its cap it captures
    the items it was computed from: at least ten of them when there
    are ten or more (cap 50), at least five when there are five to
    nine (cap 30), and all of them when there are one to four
    (cap 20). *)
Theorem suggested_radius_captures_closest_items :
  forall (svc : Services) (userLat userLon : Q) (nearbyItems : list Coordinates),
    let r := suggestOptimalRadius svc userLat userLon nearbyItems in
    let captured :=
      List.length
        (filter (fun c => Qle_bool (calculateDistance svc userLat userLon
                                                      (latitude c) (longitude c))
                                   r)
                nearbyItems) in
    let n := List.length nearbyItems in
    (10 <= n -> (r < 50)%Q -> 10 <= captured)
    /\ (5 <= n < 10 -> (r < 30)%Q -> 5 <= captured)
    /\ (0 < n < 5 -> (r < 20)%Q -> captured = n).
Proof.
  intros svc userLat userLon nearbyItems r captured n.
  subst r captured. unfold suggestOptimalRadius.
  rewrite length_sortBy, length_map. fold n.
  split; [|split].
  - intros Hn. destruct (Nat.leb_spec 10 n) as [_|Hc]; [|lia].
    intro Hr. rewrite (@Qmin_below_cap _ _ Hr).
    apply (@closest_items_are_within svc userLat userLon nearbyItems 9).
    fold n. lia.
  - intros Hn. destruct (Nat.leb_spec 10 n) as [Hc|_]; [lia|].
    destruct (Nat.leb_spec 5 n) as [_|Hc]; [|lia].
    intro Hr. rewrite (@Qmin_below_cap _ _ Hr).
    apply (@closest_items_are_within svc userLat userLon nearbyItems 4).
    fold n. lia.
  - intros Hn. destruct (Nat.leb_spec 10 n) as [Hc|_]; [lia|].
    destruct (Nat.leb_spec 5 n) as [Hc|_]; [lia|].
    destruct (Nat.ltb_spec 0 n) as [_|Hc]; [|lia].
    intro Hr. rewrite (@Qmin_below_cap _ _ Hr).
    apply Nat.le_antisymm; [apply filter_length_le|].
    pose proof (@closest_items_are_within svc userLat userLon nearbyItems
                                          (n - 1)) as H.
    simpl in H. fold n in H.
    etransitivity; [|apply length_filter_le
                       with (p := fun c =>
                          Qle_bool (calculateDistance svc userLat userLon
                                      (latitude c) (longitude c))
                            (nth (n - 1)
                               (sortBy Qle_bool
                                  (map (fun c => calculateDistance svc userLat
                                          userLon (latitude c) (longitude c))
                                       nearbyItems)) 0%Q))].
    + lia.
    + intros x Hx. apply Qle_bool_iff. apply Qle_bool_iff in Hx.
      revert Hx. generalize (calculateDistance svc userLat userLon
                               (latitude x) (longitude x)).
      generalize (nth (n - 1)
                    (sortBy Qle_bool
                       (map (fun c => calculateDistance svc userLat userLon
                               (latitude c) (longitude c)) nearbyItems)) 0%Q).
      intros a b Hab. Lqa.lra.
Qed.

Lemma suggested_radius_captures_closest_items_witness :
  List.length
    (filter (fun c => Qle_bool (calculateDistance scenarioServices 40.05%Q
                                  (-74)%Q (latitude c) (longitude c))
                               (suggestOptimalRadius scenarioServices 40.05%Q
                                  (-74)%Q [mkCoordinates 40%Q (-74)%Q]))
            [mkCoordinates 40%Q (-74)%Q])
  = 1.
Proof.
  apply (proj2 (proj2 (suggested_radius_captures_closest_items
                         scenarioServices 40.05%Q (-74)%Q
                         [mkCoordinates 40%Q (-74)%Q]))).
  - simpl. lia.
  - vm_compute. reflexivity.
Defined.

(** ** Pagination *)

(** X21.  For a positive page size, [totalPages] is the least number
    of pages that holds all items, and [hasNext] is set exactly when
    items remain after the current page. *)
Theorem pagination_counts_pages_exactly :
  forall page_ limit_ total : nat,
    0 < limit_ ->
    let p := getPaginationInfo page_ limit_ total in
    total <= totalPages p * limit_
    /\ (forall n, total <= n * limit_ -> totalPages p <= n)
    /\ (hasNext p = true <-> page_ * limit_ < total).
Proof.
  intros page_ limit_ total Hl. simpl. unfold ceilDiv.
  pose proof (Nat.div_mod_eq (total + limit_ - 1) limit_) as Hdm.
  pose proof (Nat.mod_upper_bound (total + limit_ - 1) limit_) as Hm.
  assert (Hm' : (total + limit_ - 1) mod limit_ < limit_) by (apply Hm; lia).
  clear Hm.
  set (k := (total + limit_ - 1) / limit_) in *.
  set (m := (total + limit_ - 1) mod limit_) in *.
  assert (Hup : total <= k * limit_) by nia.
  assert (Hlow : forall n, total <= n * limit_ -> k <= n).
  { intros n Hn. destruct (Nat.le_gt_cases k n) as [Hle|Hgt]; [exact Hle|].
    exfalso. assert (limit_ * (n + 1) <= limit_ * k) by (apply Nat.mul_le_mono_l; lia).
    nia. }
  split; [exact Hup|]. split; [exact Hlow|].
  rewrite Nat.ltb_lt. split.
  - intro Hlt. destruct (Nat.le_gt_cases total (page_ * limit_)) as [Hle|Hgt];
      [|exact Hgt].
    apply Hlow in Hle. lia.
  - intro Hlt. destruct (Nat.le_gt_cases k page_) as [Hle|Hgt]; [|exact Hgt].
    exfalso. assert (k * limit_ <= page_ * limit_)
      by (apply Nat.mul_le_mono_r; exact Hle).
    lia.
Qed.

Lemma pagination_counts_pages_exactly_witness :
  hasNext (getPaginationInfo 1 2 3) = true <-> 1 * 2 < 3.
Proof.
  apply (proj2 (proj2 (@pagination_counts_pages_exactly 1 2 3 ltac:(lia)))).
Defined.

(** ** Days remaining *)

(** X22.  [daysRemaining] is the number of whole days, rounded up,
    until the end of the availability window: it is positive exactly
    when the window has not ended, and it is zero or negative for an
    expired request. *)
Theorem days_remaining_rounds_up :
  forall (now : Time) (r : HelpRequest),
    ((daysRemaining now r - 1) * msPerDay
     < endDate (availabilityWindow r) - now
     <= daysRemaining now r * msPerDay)%Z
    /\ ((0 < daysRemaining now r)%Z
        <-> (now < endDate (availabilityWindow r))%Z)
    /\ (isExpired now r = true -> (daysRemaining now r <= 0)%Z).
Proof.
  intros now r. unfold daysRemaining, ceilDivZ, isExpired.
  set (a := (endDate (availabilityWindow r) - now)%Z).
  assert (Hb : (0 < msPerDay)%Z) by (unfold msPerDay; lia).
  pose proof (Z.div_mod (- a) msPerDay ltac:(lia)) as Hdm.
  pose proof (Z.mod_pos_bound (- a) msPerDay Hb) as Hm.
  set (q := (- a / msPerDay)%Z) in *.
  set (m := (- a mod msPerDay)%Z) in *.
  assert (Hrange : ((- q - 1) * msPerDay < a <= - q * msPerDay)%Z) by nia.
  split; [exact Hrange|]. split.
  - split; intro H; [|].
    + assert (0 < a)%Z by nia. unfold a in *. lia.
    + assert (0 < a)%Z by (unfold a; lia). nia.
  - intro H. apply Z.gtb_lt in H. assert (a < 0)%Z by (unfold a; lia). nia.
Qed.

Lemma days_remaining_rounds_up_witness :
  (daysRemaining 10000%Z scenarioRequest <= 0)%Z.
Proof.
  apply (proj2 (proj2 (days_remaining_rounds_up 10000%Z scenarioRequest))).
  vm_compute. reflexivity.
Defined.

(** ** Password rules *)

(** X23.  [validatePasswordStrength] reports a password as valid
    exactly when it lists no error. *)
Theorem password_is_valid_iff_no_errors :
  forall password : string,
    isValid (validatePasswordStrength password) = true
    <-> errors (validatePasswordStrength password) = [].
Proof.
  intro password. unfold validatePasswordStrength.
  cbv beta iota zeta delta [isValid errors].
  destruct (Nat.leb_spec 8 (String.length password)) as [Hl|Hl];
    destruct (Nat.ltb_spec (String.length password) 8) as [Hl'|Hl'];
    try (exfalso; lia);
    destruct (anyChar (charIn 65 90) password),
      (anyChar (charIn 97 122) password),
      (anyChar (charIn 48 57) password); simpl; split; intro H;
      try reflexivity; discriminate H.
Qed.

Lemma password_is_valid_iff_no_errors_witness :
  isValid (validatePasswordStrength "Secret123") = true.
Proof.
  apply (proj2 (password_is_valid_iff_no_errors "Secret123")).
  vm_compute. reflexivity.
Defined.

(** ** Authentication *)

Lemma findAccount_Some (accounts : list Account.t) (uid : UserId)
      (a : Account.t) :
  findAccount accounts uid = Some a -> In a accounts /\ Account._id a = uid.
Proof.
  unfold findAccount. intro H. apply find_some in H.
  destruct H as [Hin E]. apply String.eqb_eq in E. auto.
Qed.

(** X24.  [authenticateToken] lets a request through only with a
    bearer token that verifies to the id of a stored account whose
    status is approved, and [req.user] is then a copy of that account;
    every refusal is a failure with code 401 or 403, and 403 is
    answered only for an existing account that is not approved. *)
Theorem authentication_admits_only_approved_accounts :
  forall (verify : string -> VerifyResult) (accounts : list Account.t)
         (authHeader : option string),
    (forall u,
        authenticateToken verify accounts authHeader = inr u ->
        exists token a,
          bearerToken authHeader = Some token
          /\ verify token = Decoded (ruUserId u)
          /\ In a accounts
          /\ Account.status a = UserStatus.approved
          /\ u = asReqUser a)
    /\ (forall rep,
           authenticateToken verify accounts authHeader = inl rep ->
           success rep = false
           /\ (code rep = 401%Z \/ code rep = 403%Z)
           /\ (code rep = 403%Z ->
               exists token uid a,
                 bearerToken authHeader = Some token
                 /\ verify token = Decoded uid
                 /\ In a accounts
                 /\ Account._id a = uid
                 /\ Account.status a <> UserStatus.approved)).
Proof.
  intros verify accounts authHeader. unfold authenticateToken.
  destruct (bearerToken authHeader) as [token|] eqn:Et.
  2:{ split; [intros u H; discriminate H|].
      intros rep H. injection H as <-. simpl.
      split; [reflexivity|]. split; [left; reflexivity|discriminate]. }
  destruct (verify token) as [uid|errorName] eqn:Ev.
  - destruct (findAccount accounts uid) as [a|] eqn:Ef.
    + apply findAccount_Some in Ef. destruct Ef as [Hin Hid].
      destruct (Account.status a) eqn:Es; simpl.
      * split; [intros u H; discriminate H|].
        intros rep H. injection H as <-. simpl.
        split; [reflexivity|]. split; [right; reflexivity|].
        intros _. exists token, uid, a. rewrite Es.
        repeat split; auto; discriminate.
      * split.
        -- intros u H. injection H as <-. exists token, a.
           unfold asReqUser. simpl. rewrite Hid.
           repeat split; auto; rewrite <- Es, <- Hid; reflexivity.
        -- intros rep H. discriminate H.
      * split; [intros u H; discriminate H|].
        intros rep H. injection H as <-. simpl.
        split; [reflexivity|]. split; [right; reflexivity|].
        intros _. exists token, uid, a. rewrite Es.
        repeat split; auto; discriminate.
    + split; [intros u H; discriminate H|].
      intros rep H. injection H as <-. simpl.
      split; [reflexivity|]. split; [left; reflexivity|discriminate].
  - split; [intros u H;
            destruct (String.eqb errorName "TokenExpiredError");
            [|destruct (String.eqb errorName "JsonWebTokenError")];
            discriminate H|].
    intros rep H.
    destruct (String.eqb errorName "TokenExpiredError");
      [|destruct (String.eqb errorName "JsonWebTokenError")];
      injection H as <-; simpl;
      (split; [reflexivity|]; split; [left; reflexivity|discriminate]).
Qed.

Lemma authentication_admits_only_approved_accounts_witness :
  authenticateToken scenarioVerify scenarioAccounts (Some "Bearer tokenR")
  = inr (mkReqUser "R" "r@example.org" "user" "R" UserStatus.approved)
  /\ exists token a,
       bearerToken (Some "Bearer tokenR") = Some token
       /\ scenarioVerify token = Decoded "R"
       /\ In a scenarioAccounts
       /\ Account.status a = UserStatus.approved
       /\ mkReqUser "R" "r@example.org" "user" "R" UserStatus.approved
          = asReqUser a.
Proof.
  assert (E : authenticateToken scenarioVerify scenarioAccounts
                                (Some "Bearer tokenR")
              = inr (mkReqUser "R" "r@example.org" "user" "R"
                               UserStatus.approved))
    by (vm_compute; reflexivity).
  split; [exact E|].
  exact (proj1 (authentication_admits_only_approved_accounts
                  scenarioVerify scenarioAccounts (Some "Bearer tokenR"))
               _ E).
Defined.

(** X25.  [optionalAuth] sets [req.user] exactly when
    [authenticateToken] would let the same request through, and to the
    same value; and a request that passed [authenticateToken] always
    passes the default [checkAccountStatus]. *)
Theorem optional_auth_agrees_with_authentication :
  forall (verify : string -> VerifyResult) (accounts : list Account.t)
         (authHeader : option string) (u : ReqUser),
    (optionalAuth verify accounts authHeader = Some u
     <-> authenticateToken verify accounts authHeader = inr u)
    /\ (authenticateToken verify accounts authHeader = inr u ->
        checkAccountStatus [UserStatus.approved] (Some u) = None).
Proof.
  intros verify accounts authHeader u.
  unfold optionalAuth, authenticateToken, checkAccountStatus.
  destruct (bearerToken authHeader) as [token|];
    [|repeat split; intro H; discriminate H].
  destruct (verify token) as [uid|errorName].
  - destruct (findAccount accounts uid) as [a|];
      [|repeat split; intro H; discriminate H].
    destruct (Account.status a) eqn:Es; simpl;
      try (repeat split; intro H; discriminate H).
    repeat split; intro H; injection H as <-; simpl;
      try rewrite Es; reflexivity.
  - destruct (String.eqb errorName "TokenExpiredError");
      [|destruct (String.eqb errorName "JsonWebTokenError")];
      repeat split; intro H; discriminate H.
Qed.

Lemma optional_auth_agrees_with_authentication_witness :
  optionalAuth scenarioVerify scenarioAccounts (Some "Bearer tokenR")
  = Some (mkReqUser "R" "r@example.org" "user" "R" UserStatus.approved).
Proof.
  apply (proj2 (proj1 (optional_auth_agrees_with_authentication
                         scenarioVerify scenarioAccounts
                         (Some "Bearer tokenR")
                         (mkReqUser "R" "r@example.org" "user" "R"
                                    UserStatus.approved)))).
  vm_compute. reflexivity.
Defined.

(** ** The availability check on requested items *)

Lemma existsb_eqb_In (i : string) (ids : list string) :
  existsb (String.eqb i) ids = true <-> In i ids.
Proof.
  rewrite existsb_exists. split.
  - intros (y & Hy & E). apply String.eqb_eq in E. subst. exact Hy.
  - intro H. exists i. split; [exact H|apply String.eqb_refl].
Qed.

Lemma findActiveItems_In (catalog : list HelpItem.t) (ids : list ItemId)
      (h : HelpItem.t) :
  In h (findActiveItems catalog ids)
  <-> In h catalog /\ HelpItem.isActive h = true /\ In (HelpItem._id h) ids.
Proof.
  unfold findActiveItems. rewrite filter_In, andb_true_iff, existsb_eqb_In.
  tauto.
Qed.

Lemma validIds_NoDup (catalog : list HelpItem.t) (ids : list ItemId) :
  NoDup (map HelpItem._id catalog) ->
  NoDup (map HelpItem._id (findActiveItems catalog ids)).
Proof. intro Hcat. unfold findActiveItems. apply NoDup_map_filter. exact Hcat. Qed.

Lemma validIds_incl (catalog : list HelpItem.t) (ids : list ItemId) :
  incl (map HelpItem._id (findActiveItems catalog ids)) ids.
Proof.
  intros i Hi. apply in_map_iff in Hi. destruct Hi as (h & <- & Hh).
  apply findActiveItems_In in Hh. tauto.
Qed.

(** What the availability check guarantees when it passes. *)
Lemma item_check_sound (catalog : list HelpItem.t) (ids : list ItemId) :
  NoDup (map HelpItem._id catalog) ->
  List.length (findActiveItems catalog ids) = List.length ids ->
  NoDup ids
  /\ forall i, In i ids ->
               exists h, In h catalog
                         /\ HelpItem._id h = i
                         /\ HelpItem.isActive h = true.
Proof.
  intros Hcat Hlen.
  pose proof (@validIds_NoDup catalog ids Hcat) as Hnd.
  pose proof (@validIds_incl catalog ids) as Hincl.
  assert (Hle : List.length ids
                <= List.length (map HelpItem._id (findActiveItems catalog ids)))
    by (rewrite length_map; lia).
  split.
  - apply (NoDup_incl_NoDup Hnd Hle Hincl).
  - intros i Hi.
    pose proof (NoDup_length_incl Hnd Hle Hincl) as Hback.
    apply Hback in Hi. apply in_map_iff in Hi.
    destruct Hi as (h & E & Hh). apply findActiveItems_In in Hh.
    exists h. tauto.
Qed.

(** X26.  With unique catalog ids, the availability check of creation
    and update ([validItems.length !== itemIds.length]) accepts a list
    of requested ids exactly when the ids are pairwise distinct and
    each one is the id of an active catalog item. *)
Theorem item_check_accepts_distinct_active_ids :
  forall (catalog : list HelpItem.t) (ids : list ItemId),
    NoDup (map HelpItem._id catalog) ->
    (List.length (findActiveItems catalog ids) = List.length ids
     <-> NoDup ids
         /\ forall i, In i ids ->
                      exists h, In h catalog
                                /\ HelpItem._id h = i
                                /\ HelpItem.isActive h = true).
Proof.
  intros catalog ids Hcat. split.
  - apply item_check_sound. exact Hcat.
  - intros (Hids & Hall).
    pose proof (@validIds_NoDup catalog ids Hcat) as Hnd.
    pose proof (@validIds_incl catalog ids) as Hincl.
    rewrite <- (length_map HelpItem._id (findActiveItems catalog ids)).
    apply Nat.le_antisymm.
    + apply NoDup_incl_length; assumption.
    + apply NoDup_incl_length; [exact Hids|].
      intros i Hi. destruct (Hall i Hi) as (h & Hh & E & Ha).
      apply in_map_iff. exists h. split; [exact E|].
      apply findActiveItems_In. rewrite E. tauto.
Qed.

Lemma item_check_accepts_distinct_active_ids_witness :
  NoDup ["rice"; "flour"]
  /\ forall i, In i ["rice"; "flour"] ->
               exists h, In h scenarioCatalog
                         /\ HelpItem._id h = i
                         /\ HelpItem.isActive h = true.
Proof.
  apply (proj1 (@item_check_accepts_distinct_active_ids scenarioCatalog
                  ["rice"; "flour"]
                  ltac:(vm_compute; repeat constructor; simpl;
                        intuition discriminate))).
  vm_compute. reflexivity.
Defined.

Lemma createRoute_Saved_checked catalog now newId requester profile body r :
  effect (createRoute catalog now newId requester profile body) = Saved r ->
  List.length (findActiveItems catalog (map itemId (cItems body)))
  = List.length (map itemId (cItems body)).
Proof.
  unfold createRoute, createHelpRequest.
  destruct (validateCreate now body); simpl; [|discriminate].
  destruct profile as [user|]; simpl; [|discriminate].
  destruct (List.length (findActiveItems catalog (map itemId (cItems body)))
            =? List.length (map itemId (cItems body))) eqn:E;
    simpl; [|discriminate].
  intros _. apply Nat.eqb_eq. exact E.
Qed.

(** X27.  A request stored by the creation route belongs to the
    caller, carries the pickup address, coordinates and zip code of
    the caller's profile, names pairwise distinct items that are all
    active catalog items (catalog ids being unique), and has the
    category of one of those items. *)
Theorem created_request_is_built_from_profile_and_catalog :
  forall (catalog : list HelpItem.t) (now : Time) (newId : RequestId)
         (requester : UserId) (profile : option User.t) (body : CreateBody)
         (r : HelpRequest),
    NoDup (map HelpItem._id catalog) ->
    effect (createRoute catalog now newId requester profile body) = Saved r ->
    recipientId r = requester
    /\ (exists user coords,
           profile = Some user
           /\ User.coordinates user = Some coords
           /\ pickupLocation r
              = mkPickupLocation (User.address user) coords (User.zipCode user))
    /\ NoDup (map itemId (items r))
    /\ (forall it, In it (items r) ->
                   exists h, In h catalog
                             /\ HelpItem._id h = itemId it
                             /\ HelpItem.isActive h = true)
    /\ (exists h, In h catalog
                  /\ HelpItem.isActive h = true
                  /\ In (HelpItem._id h) (map itemId (items r))
                  /\ HelpItem.category h = category r).
Proof.
  intros catalog now newId requester profile body r Hcat H.
  pose proof (createRoute_Saved_checked _ _ _ _ _ _ H) as Hlen.
  apply createRoute_Saved in H.
  destruct H as (user & coords & cat & -> & Hc & Hi & Hv & ->). simpl.
  assert (Hids : NoDup (map itemId (cItems body))
                 /\ forall i, In i (map itemId (cItems body)) ->
                      exists h, In h catalog /\ HelpItem._id h = i
                                /\ HelpItem.isActive h = true).
  { apply item_check_sound; assumption. }
  destruct Hids as [Hnd Hall].
  split; [reflexivity|].
  split; [exists user, coords; auto|].
  split; [exact Hnd|].
  split.
  - intros it Hit. apply Hall. apply in_map. exact Hit.
  - apply inferCategory_Some in Hi. destruct Hi as (Hin & _).
    apply in_map_iff in Hin. destruct Hin as (h & E & Hh).
    apply findActiveItems_In in Hh. exists h. tauto.
Qed.

Lemma created_request_is_built_from_profile_and_catalog_witness :
  NoDup (map HelpItem._id scenarioCatalog)
  /\ effect (createRoute scenarioCatalog 1000%Z "req1" "R" (Some recipientR)
                         scenarioBody)
     = Saved scenarioRequest
  /\ NoDup (map itemId (items scenarioRequest)).
Proof.
  assert (Hc : NoDup (map HelpItem._id scenarioCatalog)).
  { vm_compute. repeat constructor; simpl; intuition discriminate. }
  assert (E : effect (createRoute scenarioCatalog 1000%Z "req1" "R"
                                  (Some recipientR) scenarioBody)
              = Saved scenarioRequest) by (vm_compute; reflexivity).
  split; [exact Hc|]. split; [exact E|].
  destruct (created_request_is_built_from_profile_and_catalog
              _ _ _ _ _ _ Hc E) as (_ & _ & Hnd & _).
  exact Hnd.
Defined.

(** ** The distance formula over the reals, continued *)

Module HaversineRange.
Import Reals Lra Ratan.
Import Haversine.
Local Open Scope R_scope.

Lemma atan_nonneg (t : R) : 0 <= t -> 0 <= atan t.
Proof.
  intros [Hlt|<-].
  - left. rewrite <- atan_0. apply atan_increasing. exact Hlt.
  - rewrite atan_0. lra.
Qed.

Lemma atan2_quadrant (y x : R) :
  0 <= y -> 0 <= x -> 0 <= atan2 y x <= PI / 2.
Proof.
  intros Hy Hx. unfold atan2. pose proof PI_RGT_0 as Hpi.
  destruct (Rlt_dec 0 x) as [Hpos|Hn].
  - split.
    + apply atan_nonneg. apply Rmult_le_pos; [exact Hy|].
      left. apply Rinv_0_lt_compat. exact Hpos.
    + left. apply atan_bound.
  - destruct (Rlt_dec x 0) as [Hneg|_]; [lra|].
    destruct (Rlt_dec 0 y) as [_|_]; [lra|].
    destruct (Rlt_dec y 0) as [Hy'|_]; lra.
Qed.

Lemma haversine_term_sym (lat1 lon1 lat2 lon2 : R) :
  sin ((lat1 - lat2) * PI / 180 / 2) * sin ((lat1 - lat2) * PI / 180 / 2)
  + cos (lat2 * PI / 180) * cos (lat1 * PI / 180)
    * sin ((lon1 - lon2) * PI / 180 / 2) * sin ((lon1 - lon2) * PI / 180 / 2)
  = sin ((lat2 - lat1) * PI / 180 / 2) * sin ((lat2 - lat1) * PI / 180 / 2)
    + cos (lat1 * PI / 180) * cos (lat2 * PI / 180)
      * sin ((lon2 - lon1) * PI / 180 / 2) * sin ((lon2 - lon1) * PI / 180 / 2).
Proof.
  replace ((lat1 - lat2) * PI / 180 / 2)
    with (- ((lat2 - lat1) * PI / 180 / 2)) by lra.
  replace ((lon1 - lon2) * PI / 180 / 2)
    with (- ((lon2 - lon1) * PI / 180 / 2)) by lra.
  rewrite !sin_neg. ring.
Qed.

(** X28.  Over the reals the distance formula is symmetric in its two
    points, gives zero for a point and itself, and always lies between
    zero and half the circumference of a sphere of radius 6371. *)
Theorem distance_is_symmetric_and_bounded :
  forall lat1 lon1 lat2 lon2 : R,
    calculateDistance lat1 lon1 lat2 lon2
    = calculateDistance lat2 lon2 lat1 lon1
    /\ calculateDistance lat1 lon1 lat1 lon1 = 0
    /\ 0 <= calculateDistance lat1 lon1 lat2 lon2 <= 6371 * PI.
Proof.
  intros lat1 lon1 lat2 lon2. split; [|split].
  - unfold calculateDistance. cbv zeta.
    rewrite (haversine_term_sym lat1 lon1 lat2 lon2). reflexivity.
  - rewrite HaversineFacts.haversine_on_meridian.
    + replace (lat1 - lat1) with 0 by lra. rewrite Rabs_R0. lra.
    + replace (lat1 - lat1) with 0 by lra. rewrite Rabs_R0. lra.
  - unfold calculateDistance. cbv zeta.
    match goal with
    | |- 0 <= 6371 * (2 * atan2 (sqrt ?a) (sqrt ?b)) <= _ =>
        pose proof (atan2_quadrant (sqrt_pos a) (sqrt_pos b)) as H
    end.
    lra.
Qed.

End HaversineRange.

(** ** Timestamps *)

(** An invariant that may mention the clock follows from the creation
    case, its stability as the clock advances, and one case for each
    stored shape. *)
Lemma reachable_timed_invariant (P : Time -> HelpRequest -> Prop) :
  (forall catalog now newId requester profile body r,
      effect (createRoute catalog now newId requester profile body) = Saved r ->
      P now r) ->
  (forall t t' r, (t <= t')%Z -> P t r -> P t' r) ->
  (forall now op r r', P now r -> Stored now r op r' -> P now r') ->
  (forall now user r, P now r -> P now (afterAccountDeletion now user r)) ->
  forall t r, reachable t r -> P t r.
Proof.
  intros Hcreate Hmono Hstep Hdel t r Hr.
  induction Hr as [catalog now newId requester profile body r Hc
                  |catalog t now op r r' Hr IH Hle Hs
                  |t now user r Hr IH Hle Hact Hrec].
  - eapply Hcreate. exact Hc.
  - apply (Hmono _ _ _ Hle) in IH.
    destruct (effect (runOp catalog now op r)) as [|saved|] eqn:E;
      simpl in Hs; try discriminate Hs; injection Hs as <-.
    + exact IH.
    + apply runOp_Stored in E. destruct E as [Hst _].
      eapply Hstep; eauto.
  - apply Hdel. apply (Hmono _ _ _ Hle). exact IH.
Qed.

(** X29.  In every reachable state the creation time is not after the
    last update, the last update is not after the clock, and the times
    of approval, of completion, of every note and of every interest
    marker lie between creation and last update. *)
Theorem timestamps_lie_between_creation_and_update :
  forall (t : Time) (r : HelpRequest),
    reachable t r -> timestampsBetween t r.
Proof.
  apply reachable_timed_invariant.
  - intros catalog now newId requester profile body r H.
    apply createRoute_Saved in H.
    destruct H as (user & coords & cat & _ & _ & _ & _ & ->).
    unfold timestampsBetween. simpl.
    repeat split; try lia; try discriminate; intros x [].
  - intros t t' r Hle (H1 & H2). split; [lia|exact H2].
  - intros now op r r' (Hb & Ha & Hc & Hn & Hi) Hst.
    unfold timestampsBetween.
    destruct Hst; simpl;
      try (destruct (assignUpdates_fixed patch cat r)
            as (_ & _ & _ & F4 & _ & _ & F7 & _ & F9);
           destruct (assignUpdates_times patch cat r) as (G1 & G2);
           simpl in F4, F7, F9; rewrite F4, F7, F9, G1, G2);
      (split; [lia|]);
      (split; [intros a E; try (injection E as <-; lia);
               specialize (Ha a E); lia|]);
      (split; [intros c E; try (injection E as <-; lia);
               specialize (Hc c E); lia|]);
      (split; [intros n E;
               try (apply in_app_iff in E; destruct E as [E|[<-|[]]];
                    [|simpl; lia]);
               specialize (Hn n E); lia|]);
      intros i E;
      try (apply in_app_iff in E; destruct E as [E|[<-|[]]]; [|simpl; lia]);
      specialize (Hi i E); lia.
  - intros now user r (Hb & Ha & Hc & Hn & Hi).
    unfold timestampsBetween.
    destruct (afterAccountDeletion_fields now user r)
      as (_ & _ & _ & _ & _ & _ & _ & _ & _ & Fc & Fcr & Fu & _ & Fn & Fi & _
          & _ & _ & _ & Fa).
    rewrite Fc, Fcr, Fu, Fn, Fi, Fa.
    split; [lia|].
    split; [intros a E; destruct (isDonorOf user r); [discriminate E|];
            specialize (Ha a E); lia|].
    split; [intros c E; specialize (Hc c E); lia|].
    split.
    + intros n E. apply filter_In in E. destruct E as [E _].
      specialize (Hn n E). lia.
    + intros i E. apply filter_In in E. destruct E as [E _].
      specialize (Hi i E). lia.
Qed.

Lemma timestamps_lie_between_creation_and_update_witness :
  reachable 3000%Z completedRequest
  /\ (createdAt completedRequest <= updatedAt completedRequest <= 3000)%Z.
Proof.
  pose proof (proj2 (proj2 scenario_reachable)) as H.
  split; [exact H|].
  exact (proj1 (timestamps_lie_between_creation_and_update H)).
Defined.

Lemma StronglySorted_snoc {A : Type} (R : A -> A -> Prop) (l : list A) (x : A) :
  StronglySorted R l -> Forall (fun a => R a x) l ->
  StronglySorted R (l ++ [x]).
Proof.
  intros HS HF. induction HS as [|a l HS IH Hall]; simpl.
  - constructor; constructor.
  - inversion HF as [|a' l' Ha HF']; subst.
    constructor; [apply IH; exact HF'|].
    apply Forall_app. split; [exact Hall|]. constructor; [exact Ha|constructor].
Qed.

Lemma StronglySorted_filter {A : Type} (R : A -> A -> Prop)
      (keep : A -> bool) (l : list A) :
  StronglySorted R l -> StronglySorted R (filter keep l).
Proof.
  intros HS. induction HS as [|a l HS IH Hall]; simpl.
  - constructor.
  - destruct (keep a); [|exact IH].
    constructor; [exact IH|].
    apply Forall_forall. intros x Hx. apply filter_In in Hx.
    destruct Hx as [Hx _]. rewrite Forall_forall in Hall. exact (Hall x Hx).
Qed.

Lemma Forall_filter {A : Type} (P : A -> Prop) (keep : A -> bool)
      (l : list A) :
  Forall P l -> Forall P (filter keep l).
Proof.
  intros H. apply Forall_forall. intros x Hx. apply filter_In in Hx.
  destruct Hx as [Hx _]. rewrite Forall_forall in H. exact (H x Hx).
Qed.

(** X30.  In every reachable state the notes stand in the order in
    which they were written and the interest markers in the order in
    which they were set: the recorded times never decrease along
    either list.  Deleting an account removes entries and keeps the
    order of the others. *)
Theorem notes_and_interest_are_chronological :
  forall (t : Time) (r : HelpRequest),
    reachable t r -> chronological r.
Proof.
  intros t r Hr.
  assert (H : chronological r
              /\ Forall (fun n => (noteCreatedAt n <= t)%Z) (notes r)
              /\ Forall (fun i => (interestedAt i <= t)%Z)
                        (interested (metadata r))).
  { revert t r Hr.
    apply (reachable_timed_invariant
             (fun t r =>
                chronological r
                /\ Forall (fun n => (noteCreatedAt n <= t)%Z) (notes r)
                /\ Forall (fun i => (interestedAt i <= t)%Z)
                          (interested (metadata r)))).
    - intros catalog now newId requester profile body r H.
      apply createRoute_Saved in H.
      destruct H as (user & coords & cat & _ & _ & _ & _ & ->).
      unfold chronological. simpl. repeat split; constructor.
    - intros t t' r Hle (Hc & Hn & Hi). split; [exact Hc|].
      split; eapply Forall_impl; try eassumption; simpl; intros; lia.
    - intros now op r r' ((Hcn & Hci) & Hn & Hi) Hst.
      unfold chronological.
      destruct Hst; simpl;
        try (destruct (assignUpdates_fixed patch cat r)
              as (_ & _ & _ & _ & _ & _ & F7 & _ & F9);
             simpl in F7, F9; rewrite F7, F9);
        try (repeat split; assumption).
      + repeat split; try assumption.
        * apply StronglySorted_snoc; assumption.
        * apply Forall_app. split; [exact Hn|].
          constructor; [simpl; lia|constructor].
      + repeat split; try assumption.
        * apply StronglySorted_snoc; assumption.
        * apply Forall_app. split; [exact Hi|].
          constructor; [simpl; lia|constructor].
    - intros now user r ((Hcn & Hci) & Hn & Hi).
      unfold chronological.
      destruct (afterAccountDeletion_fields now user r)
        as (_ & _ & _ & _ & _ & _ & _ & _ & _ & _ & _ & _ & _ & Fn & Fi & _).
      rewrite Fn, Fi.
      repeat split;
        first [apply StronglySorted_filter; assumption
              |apply Forall_filter; assumption]. }
  exact (proj1 H).
Qed.

Lemma notes_and_interest_are_chronological_witness :
  reachable 2200%Z busyRequest
  /\ map noteCreatedAt (notes busyRequest) = [2100; 2200]%Z
  /\ map interestedAt (interested (metadata busyRequest)) = [1200; 1300]%Z
  /\ chronological busyRequest.
Proof.
  pose proof (proj1 (proj2 long_scenario_reachable)) as H.
  split; [exact H|].
  split; [reflexivity|].
  split; [reflexivity|].
  exact (notes_and_interest_are_chronological H).
Defined.
